(** * MCGS: the multi-agent build pipeline, embedded in Rocq

    A shallow embedding of the Python sources of the MCGS pipeline
    (graph.py, state.py, agents/*.py, tools/runners.py, tools/code_runner.py,
    tools/shell.py, tools/language_detector.py) and the properties of its
    orchestration loop, response recovery, capability dispatch and project
    analyzer.

    Conventions of the embedding.
    - A Python [str] is a Rocq [string]; its characters are the bytes of the
      UTF-8 encoding of the text.  For ASCII text the two coincide character
      by character; for other text the only difference is that [len] and the
      log truncations [s[:n]] count bytes.
    - A Python [int] is a [Z].
    - A function that may raise returns a [Res]; a function that starts
      external commands also returns the list of the invocations it made.
    - The outside world of a step (subprocess results, the directory tree,
      path existence, the text a chat backend answers) is a record [World]
      of oracles; a pipeline run takes one [World] per executed step. *)

From Stdlib Require Import ZArith NArith List Bool Ascii String Lia.
From Stdlib Require Import DecimalString DecimalNat DecimalZ.
Import ListNotations.
Local Open Scope string_scope.
Local Open Scope Z_scope.
Set Warnings "-register-all".

(** ** Python built-ins used by the sources *)

Module Py.

Definition nl : string := String "010"%char EmptyString.
Definition tab : string := String "009"%char EmptyString.

(** The double-quote character. *)
Definition dq : string := String "034"%char EmptyString.

(** A text written with ['] where it has a double quote. *)
Fixpoint quoted (s : string) : string :=
  match s with
  | EmptyString => EmptyString
  | String c s' =>
      String (if Ascii.eqb c "039"%char then "034"%char else c) (quoted s')
  end.

(** [str(n)] for an [int]. *)
Definition str_of_Z (z : Z) : string := NilEmpty.string_of_int (Z.to_int z).

(** [str(n)] for a non-negative count such as [len(xs) + 1]. *)
Definition str_of_nat (n : nat) : string := NilEmpty.string_of_uint (Nat.to_uint n).

(** First index at which [sub] occurs in [s]. *)
Fixpoint find_opt (sub s : string) : option nat :=
  if prefix sub s then Some O
  else match s with
       | EmptyString => None
       | String _ s' => option_map S (find_opt sub s')
       end.

(** Last index at which [sub] occurs in [s]. *)
Fixpoint rfind_opt (sub s : string) : option nat :=
  match s with
  | EmptyString => if prefix sub s then Some O else None
  | String _ s' =>
      match rfind_opt sub s' with
      | Some i => Some (S i)
      | None => if prefix sub s then Some O else None
      end
  end.

(** [s.find(sub)] and [s.rfind(sub)]: the index, or -1. *)
Definition find (s sub : string) : Z :=
  match find_opt sub s with Some i => Z.of_nat i | None => -1 end.

Definition rfind (s sub : string) : Z :=
  match rfind_opt sub s with Some i => Z.of_nat i | None => -1 end.

(** [sub in s]. *)
Definition contains (sub s : string) : bool :=
  match find_opt sub s with Some _ => true | None => false end.

Definition len (s : string) : Z := Z.of_nat (String.length s).

(** Index normalisation of a slice bound: a negative bound counts from the
    end, and the result is clamped to [0, len]. *)
Definition clamp (n i : Z) : Z :=
  if i <? 0 then Z.max 0 (n + i) else Z.min n i.

(** [s[start:stop]]. *)
Definition slice (s : string) (start stop : Z) : string :=
  let n := len s in
  let a := clamp n start in
  let b := clamp n stop in
  if a <? b then substring (Z.to_nat a) (Z.to_nat (b - a)) s else EmptyString.

(** [s[:n]]. *)
Definition take (n : Z) (s : string) : string := slice s 0 n.

(** [s[i:]]. *)
Definition drop (i : Z) (s : string) : string := slice s i (len s).

Fixpoint rev_string (s : string) : string :=
  match s with
  | EmptyString => EmptyString
  | String c s' => rev_string s' ++ String c EmptyString
  end.

Definition startswith (s p : string) : bool := prefix p s.

(** [s.endswith(suffix)]. *)
Definition endswith (s suffix : string) : bool :=
  prefix (rev_string suffix) (rev_string s).

(** [s.endswith((a, b, ...))] with a tuple of suffixes. *)
Definition endswith_any (s : string) (suffixes : list string) : bool :=
  existsb (endswith s) suffixes.

Definition lower_char (c : ascii) : ascii :=
  let n := N_of_ascii c in
  if ((65 <=? n) && (n <=? 90))%N then ascii_of_N (n + 32) else c.

(** [s.lower()] on ASCII letters. *)
Fixpoint lower (s : string) : string :=
  match s with
  | EmptyString => EmptyString
  | String c s' => String (lower_char c) (lower s')
  end.

(** [x in xs] for a list, set or dict of strings. *)
Definition mem (x : string) (xs : list string) : bool :=
  existsb (String.eqb x) xs.

(** [sep.join(xs)]. *)
Fixpoint join (sep : string) (xs : list string) : string :=
  match xs with
  | [] => EmptyString
  | [x] => x
  | x :: rest => x ++ sep ++ join sep rest
  end.

(** [s.split(sep)] for a one-character separator. *)
Fixpoint split (sep : ascii) (s : string) : list string :=
  match s with
  | EmptyString => [EmptyString]
  | String c s' =>
      if Ascii.eqb c sep then EmptyString :: split sep s'
      else match split sep s' with
           | [] => [String c EmptyString]
           | x :: rest => String c x :: rest
           end
  end.

(** A hexadecimal digit, in lower case. *)
Definition hex_digit (n : nat) : ascii :=
  nth n ["0"; "1"; "2"; "3"; "4"; "5"; "6"; "7"; "8"; "9";
         "a"; "b"; "c"; "d"; "e"; "f"]%char "0"%char.

(** The backslash character. *)
Definition backslash : string := String "092"%char EmptyString.

(** One character of [repr(s)], [quote] being the delimiter chosen. *)
Definition repr_char (quote c : ascii) : string :=
  let n := nat_of_ascii c in
  if Ascii.eqb c quote || Ascii.eqb c "092"%char then backslash ++ String c EmptyString
  else if Nat.eqb n 9 then backslash ++ "t"
  else if Nat.eqb n 10 then backslash ++ "n"
  else if Nat.eqb n 13 then backslash ++ "r"
  else if Nat.ltb n 32 || Nat.eqb n 127 then
    backslash ++ "x"
      ++ String (hex_digit (Nat.div n 16))
           (String (hex_digit (Nat.modulo n 16)) EmptyString)
  else String c EmptyString.

Fixpoint repr_chars (quote : ascii) (s : string) : string :=
  match s with
  | EmptyString => EmptyString
  | String c s' => repr_char quote c ++ repr_chars quote s'
  end.

(** [repr(s)] of an ASCII [str]: between double quotes when the text has a
    single quote and no double quote, between single quotes otherwise. *)
Definition repr (s : string) : string :=
  let quote :=
    if contains "'" s && negb (contains dq s) then "034"%char else "039"%char in
  String quote (repr_chars quote s ++ String quote EmptyString).

End Py.

(** ** The [json] module: values and [json.loads] *)

Module Json.

(** Values [json.loads] builds.  An object keeps its keys in insertion
    order, as a Python dict does.  A float keeps the text of its literal:
    the sources never compute with one. *)
Inductive value : Type :=
| JNull
| JBool (b : bool)
| JInt (z : Z)
| JFloat (literal : string)
| JStr (s : string)
| JArr (items : list value)
| JObj (members : list (string * value)).

(** [d[k] = v] on a dict: an existing key keeps its position. *)
Fixpoint dict_set (d : list (string * value)) (k : string) (v : value)
  : list (string * value) :=
  match d with
  | [] => [(k, v)]
  | (k', v') :: d' =>
      if String.eqb k k' then (k', v) :: d' else (k', v') :: dict_set d' k v
  end.

(** [d.get(k)] / [k in d]. *)
Fixpoint dict_get (d : list (string * value)) (k : string) : option value :=
  match d with
  | [] => None
  | (k', v) :: d' => if String.eqb k k' then Some v else dict_get d' k
  end.

Definition is_ws (c : ascii) : bool :=
  let n := N_of_ascii c in
  ((n =? 32) || (n =? 9) || (n =? 10) || (n =? 13))%N.

(** The WHITESPACE pattern of the decoder: blanks, tabs, newlines, returns. *)
Fixpoint skip_ws (s : string) : string :=
  match s with
  | String c s' => if is_ws c then skip_ws s' else s
  | EmptyString => s
  end.

Definition is_digit (c : ascii) : bool :=
  let n := N_of_ascii c in ((48 <=? n) && (n <=? 57))%N.

Definition digit_val (c : ascii) : Z := Z.of_N (N_of_ascii c) - 48.

Definition hex_val (c : ascii) : option N :=
  let n := N_of_ascii c in
  if ((48 <=? n) && (n <=? 57))%N then Some (n - 48)%N
  else if ((97 <=? n) && (n <=? 102))%N then Some (n - 87)%N
  else if ((65 <=? n) && (n <=? 70))%N then Some (n - 55)%N
  else None.

(** The four hexadecimal digits of a [\uXXXX] escape. *)
Definition hex4 (s : string) : option (N * string) :=
  match s with
  | String a (String b (String c (String d rest))) =>
      match hex_val a, hex_val b, hex_val c, hex_val d with
      | Some x, Some y, Some z, Some w =>
          Some ((((x * 16 + y) * 16 + z) * 16 + w)%N, rest)
      | _, _, _, _ => None
      end
  | _ => None
  end.

Definition byte_str (n : N) : string := String (ascii_of_N n) EmptyString.

(** UTF-8 bytes of a code point. *)
Definition utf8 (cp : N) : string :=
  (if cp <? 128 then byte_str cp
   else if cp <? 2048 then
     byte_str (192 + cp / 64) ++ byte_str (128 + cp mod 64)
   else if cp <? 65536 then
     byte_str (224 + cp / 4096) ++ byte_str (128 + (cp / 64) mod 64)
     ++ byte_str (128 + cp mod 64)
   else
     byte_str (240 + cp / 262144) ++ byte_str (128 + (cp / 4096) mod 64)
     ++ byte_str (128 + (cp / 64) mod 64) ++ byte_str (128 + cp mod 64))%N.

(** The one-letter escapes of a JSON string. *)
Definition simple_escape (c : ascii) : option ascii :=
  let n := N_of_ascii c in
  (if n =? 34 then Some c                       (* quote *)
   else if n =? 92 then Some c                  (* backslash *)
   else if n =? 47 then Some c                  (* slash *)
   else if n =? 98 then Some (ascii_of_N 8)     (* backspace *)
   else if n =? 102 then Some (ascii_of_N 12)   (* form feed *)
   else if n =? 110 then Some (ascii_of_N 10)   (* newline *)
   else if n =? 114 then Some (ascii_of_N 13)   (* return *)
   else if n =? 116 then Some (ascii_of_N 9)    (* tab *)
   else None)%N.

Definition is_backslash_u (s : string) : option string :=
  match s with
  | String a (String b rest) =>
      if ((N_of_ascii a =? 92) && (N_of_ascii b =? 117))%N then Some rest else None
  | _ => None
  end.

(** [scanstring], strict mode: the text after the opening quote up to the
    closing one, with escapes decoded. *)
Fixpoint scan_string (fuel : nat) (s : string) : option (string * string) :=
  match fuel with
  | O => None
  | S fuel' =>
      match s with
      | EmptyString => None                          (* unterminated *)
      | String c rest =>
          let n := N_of_ascii c in
          if (n =? 34)%N then Some (EmptyString, rest)
          else if (n <? 32)%N then None              (* control character *)
          else if (n =? 92)%N then
            match rest with
            | EmptyString => None
            | String e rest' =>
                if (N_of_ascii e =? 117)%N then
                  match hex4 rest' with
                  | None => None
                  | Some (u, after) =>
                      let plain :=
                        match scan_string fuel' after with
                        | Some (tl, r) => Some (utf8 u ++ tl, r)
                        | None => None
                        end in
                      if ((55296 <=? u) && (u <=? 56319))%N then
                        match is_backslash_u after with
                        | Some digits =>
                            match hex4 digits with
                            | None => None
                            | Some (u2, after2) =>
                                if ((56320 <=? u2) && (u2 <=? 57343))%N then
                                  match scan_string fuel' after2 with
                                  | Some (tl, r) =>
                                      Some (utf8 (65536 + (u - 55296) * 1024
                                                  + (u2 - 56320))%N ++ tl, r)
                                  | None => None
                                  end
                                else plain
                            end
                        | None => plain
                        end
                      else plain
                  end
                else
                  match simple_escape e with
                  | None => None
                  | Some ch =>
                      match scan_string fuel' rest' with
                      | Some (tl, r) => Some (String ch tl, r)
                      | None => None
                      end
                  end
            end
          else
            match scan_string fuel' rest with
            | Some (tl, r) => Some (String c tl, r)
            | None => None
            end
      end
  end.

(** The longest run of digits at the head of [s]. *)
Fixpoint take_digits (s : string) : string * string :=
  match s with
  | String c s' =>
      if is_digit c then let (d, r) := take_digits s' in (String c d, r)
      else (EmptyString, s)
  | EmptyString => (EmptyString, s)
  end.

Fixpoint digits_val (acc : Z) (s : string) : Z :=
  match s with
  | EmptyString => acc
  | String c s' => digits_val (acc * 10 + digit_val c) s'
  end.

(** The integer part of a number: [0] or a digit 1-9 followed by digits. *)
Definition int_part (s : string) : option (string * string) :=
  match s with
  | String c s' =>
      if (N_of_ascii c =? 48)%N then Some (String c EmptyString, s')
      else if is_digit c then
             let (d, r) := take_digits s' in Some (String c d, r)
           else None
  | EmptyString => None
  end.

(** An optional fraction [.digits]. *)
Definition frac_part (s : string) : string * string :=
  match s with
  | String c s' =>
      if (N_of_ascii c =? 46)%N then
        match take_digits s' with
        | (EmptyString, _) => (EmptyString, s)
        | (d, r) => (String c d, r)
        end
      else (EmptyString, s)
  | EmptyString => (EmptyString, s)
  end.

(** An optional exponent [e][+-]digits. *)
Definition exp_part (s : string) : string * string :=
  match s with
  | String c s' =>
      if ((N_of_ascii c =? 101) || (N_of_ascii c =? 69))%N then
        let (sign, s'') :=
          match s' with
          | String g t =>
              if ((N_of_ascii g =? 43) || (N_of_ascii g =? 45))%N
              then (String g EmptyString, t) else (EmptyString, s')
          | EmptyString => (EmptyString, s')
          end in
        match take_digits s'' with
        | (EmptyString, _) => (EmptyString, s)
        | (d, r) => (String c (sign ++ d), r)
        end
      else (EmptyString, s)
  | EmptyString => (EmptyString, s)
  end.

(** The number pattern of the scanner: an [int] when there is neither a
    fraction nor an exponent, a [float] otherwise. *)
Definition scan_number (s : string) : option (value * string) :=
  let (neg, s1) :=
    match s with
    | String c s' => if (N_of_ascii c =? 45)%N then (true, s') else (false, s)
    | EmptyString => (false, s)
    end in
  match int_part s1 with
  | None => None
  | Some (ip, s2) =>
      let (fp, s3) := frac_part s2 in
      let (ep, s4) := exp_part s3 in
      match fp, ep with
      | EmptyString, EmptyString =>
          let z := digits_val 0 ip in
          Some (JInt (if neg then - z else z), s4)
      | _, _ =>
          Some (JFloat ((if neg then "-" else "") ++ ip ++ fp ++ ep), s4)
      end
  end.

(** [s] with the literal [lit] removed from its head. *)
Fixpoint strip_prefix (lit s : string) : option string :=
  match lit, s with
  | EmptyString, _ => Some s
  | String a lit', String b s' =>
      if Ascii.eqb a b then strip_prefix lit' s' else None
  | String _ _, EmptyString => None
  end.

(** The members of an object after its opening brace, [scan] being the
    scanner of one value: [key : value] pairs separated by commas, up to the
    closing brace.  [k] bounds the number of members. *)
Fixpoint scan_members (scan : string -> option (value * string)) (k : nat)
  (acc : list (string * value)) (t : string) : option (value * string) :=
  match k with
  | O => None
  | S k' =>
      match t with
      | String q t1 =>
          if (N_of_ascii q =? 34)%N then
            match scan_string (S (String.length t1)) t1 with
            | Some (key, t2) =>
                match skip_ws t2 with
                | String colon t3 =>
                    if (N_of_ascii colon =? 58)%N then
                      match scan (skip_ws t3) with
                      | Some (v, t4) =>
                          let acc' := dict_set acc key v in
                          match skip_ws t4 with
                          | String d t5 =>
                              if (N_of_ascii d =? 125)%N then Some (JObj acc', t5)
                              else if (N_of_ascii d =? 44)%N
                              then scan_members scan k' acc' (skip_ws t5)
                              else None
                          | EmptyString => None
                          end
                      | None => None
                      end
                    else None
                | EmptyString => None
                end
            | None => None
            end
          else None
      | EmptyString => None
      end
  end.

(** The items of an array after its opening bracket. *)
Fixpoint scan_elements (scan : string -> option (value * string)) (k : nat)
  (acc : list value) (t : string) : option (value * string) :=
  match k with
  | O => None
  | S k' =>
      match scan t with
      | Some (v, t1) =>
          match skip_ws t1 with
          | String d t2 =>
              if (N_of_ascii d =? 93)%N then Some (JArr (acc ++ [v])%list, t2)
              else if (N_of_ascii d =? 44)%N
              then scan_elements scan k' (acc ++ [v])%list (skip_ws t2)
              else None
          | EmptyString => None
          end
      | None => None
      end
  end.

(** The constants [null], [true], [false], a number, or [NaN], [Infinity],
    [-Infinity]. *)
Definition scan_atom (s : string) : option (value * string) :=
  match strip_prefix "null" s, strip_prefix "true" s, strip_prefix "false" s with
  | Some r, _, _ => Some (JNull, r)
  | _, Some r, _ => Some (JBool true, r)
  | _, _, Some r => Some (JBool false, r)
  | None, None, None =>
      match scan_number s with
      | Some res => Some res
      | None =>
          match strip_prefix "NaN" s, strip_prefix "Infinity" s,
                strip_prefix "-Infinity" s with
          | Some r, _, _ => Some (JFloat "NaN", r)
          | _, Some r, _ => Some (JFloat "Infinity", r)
          | _, _, Some r => Some (JFloat "-Infinity", r)
          | None, None, None => None
          end
      end
  end.

(** [scan_once]: one value at the head of [s], and the text after it.
    [fuel] bounds the nesting depth. *)
Fixpoint scan_once (fuel : nat) (s : string) : option (value * string) :=
  match fuel with
  | O => None
  | S fuel' =>
      match s with
      | EmptyString => None
      | String c rest =>
          let n := N_of_ascii c in
          if (n =? 34)%N then                              (* string *)
            match scan_string (S (String.length rest)) rest with
            | Some (str, r) => Some (JStr str, r)
            | None => None
            end
          else if (n =? 123)%N then                        (* object *)
            match skip_ws rest with
            | String c1 r1 =>
                if (N_of_ascii c1 =? 125)%N then Some (JObj [], r1)
                else scan_members (scan_once fuel') (S (String.length rest)) []
                       (skip_ws rest)
            | EmptyString => None
            end
          else if (n =? 91)%N then                         (* array *)
            match skip_ws rest with
            | String c1 r1 =>
                if (N_of_ascii c1 =? 93)%N then Some (JArr [], r1)
                else scan_elements (scan_once fuel') (S (String.length rest)) []
                       (skip_ws rest)
            | EmptyString => None
            end
          else scan_atom s
      end
  end.

(** [json.loads(s)]: leading blanks, one value, trailing blanks, and nothing
    else; [None] stands for [JSONDecodeError].  The nesting depth of a text
    is below its length, which is the fuel given to [scan_once]
    ([scan_once_fuel] and [loads_fuel] show that a larger one changes
    nothing). *)
Definition loads (s : string) : option value :=
  match scan_once (S (String.length s)) (skip_ws s) with
  | Some (v, rest) =>
      match skip_ws rest with
      | EmptyString => Some v
      | String _ _ => None
      end
  | None => None
  end.

End Json.

(** ** Exceptions, results and the outside world *)

(** The exception classes the sources raise, catch or let through
    ([KeyError] and [ValueError] come from the formatting of a prompt).
    [OtherException] stands for any further subclass of [Exception] (a
    permission error, a decoding error, ...). Each carries the text [str(e)]
    gives. *)
Inductive Exn : Type :=
| FileNotFoundError (msg : string)
| TimeoutExpired (msg : string)
| JSONDecodeError (msg : string)
| ValidationError (msg : string)
| TypeError (msg : string)
| KeyError (msg : string)
| ValueError (msg : string)
| OtherException (msg : string).

Definition exn_str (e : Exn) : string :=
  match e with
  | FileNotFoundError m | TimeoutExpired m | JSONDecodeError m
  | ValidationError m | TypeError m | KeyError m | ValueError m
  | OtherException m => m
  end.

Inductive Res (A : Type) : Type :=
| Ok (a : A)
| Raise (e : Exn).
Arguments Ok {A} a.
Arguments Raise {A} e.

(** One call of [subprocess.run]: the argument vector, the working
    directory and the [timeout] keyword ([None] when it is not passed). *)
Record Invocation : Type := mkInvocation {
  inv_cmd : list string;
  inv_cwd : string;
  inv_timeout : option Z
}.

Record CompletedProcess : Type := mkCompleted {
  returncode : Z;
  stdout : string;
  stderr : string
}.

(** A directory entry: a file with the text [read_file_content] returns for
    it, or a directory with its entries in the order [os.walk] lists them. *)
Inductive Entry : Type :=
| File (name : string) (content : string)
| Dir (name : string) (children : list Entry).

(** The outside world during one step execution.  The fields are
    independent oracles: the result of a command depends on the invocation
    only, and nothing relates [path_exists] to [listing]. *)
Record World : Type := mkWorld {
  (** [subprocess.run(cmd, cwd=..., capture_output=True, text=True, ...)] *)
  subprocess : Invocation -> Res CompletedProcess;
  (** [os.path.exists] *)
  path_exists : string -> bool;
  (** [os.name == 'nt'] *)
  os_is_nt : bool;
  (** the entries of a directory, as [os.walk] sees them; empty when the
      directory does not exist *)
  listing : string -> list Entry;
  (** [make_chat(config).invoke(messages).content], by configuration name
      and the values substituted into the prompt *)
  chat : option string -> list string -> string;
  (** [summarize_repo(repo_path)] of tools/repo_context.py *)
  repo_summary : string -> string;
  (** the log lines the code-generation phase of the dev step appends *)
  dev_phase_logs : list string;
  (** the reference the pull-request step produces, and its log line *)
  pr_reference : string;
  pr_log_entry : string;
  (** [str(e)] of the [JSONDecodeError] that [json.loads] raises on a text *)
  json_error_text : string -> string;
  (** [str(v)] of a float, a list or a dict *)
  repr_text : Json.value -> string
}.

(** A computation that may raise and that records the commands it ran. *)
Definition M (A : Type) : Type := (Res A * list Invocation)%type.

Definition ret {A : Type} (a : A) : M A := (Ok a, []).

Definition raise {A : Type} (e : Exn) : M A := (Raise e, []).

Definition bind {A B : Type} (m : M A) (f : A -> M B) : M B :=
  match m with
  | (Ok a, t) => let (r, t') := f a in (r, (t ++ t')%list)
  | (Raise e, t) => (Raise e, t)
  end.

(** [try: m  except <classes selected by h>: ...]: the handler re-raises the
    exceptions its [except] clauses do not name. *)
Definition try_except {A : Type} (m : M A) (h : Exn -> M A) : M A :=
  match m with
  | (Raise e, t) => let (r, t') := h e in (r, (t ++ t')%list)
  | (Ok a, t) => (Ok a, t)
  end.

Declare Scope m_scope.
Delimit Scope m_scope with m.
Notation "x <- m ;; k" := (bind m (fun x => k))
  (at level 61, m at next level, right associativity) : m_scope.
Local Open Scope m_scope.

Definition result_of {A : Type} (m : M A) : Res A := fst m.
Definition invocations {A : Type} (m : M A) : list Invocation := snd m.

(** [except FileNotFoundError: return v] *)
Definition on_file_not_found {A : Type} (v : A) (e : Exn) : M A :=
  match e with
  | FileNotFoundError _ => ret v
  | _ => raise e
  end.

(** [except Exception as e: return f(e)] *)
Definition on_exception {A : Type} (f : Exn -> A) (e : Exn) : M A := ret (f e).

(** [os.path.join(a, b)] on a POSIX system. *)
Definition path_join (a b : string) : string :=
  if Py.startswith b "/" then b
  else if String.eqb a "" then b
  else if Py.endswith a "/" then a ++ b
  else a ++ "/" ++ b.

(** [subprocess.run] *)
Definition subprocess_run (w : World) (cmd : list string) (cwd : string)
  (timeout : option Z) : M CompletedProcess :=
  let inv := mkInvocation cmd cwd timeout in (subprocess w inv, [inv]).

(** The tuple [result.returncode, result.stdout + result.stderr]. *)
Definition report (p : CompletedProcess) : Z * string :=
  (returncode p, stdout p ++ stderr p).

(** The result of the project analyzer (the [structure] dict). *)
Record ProjectProfile : Type := mkProfile {
  primary_language : string;
  secondary_languages : list string;
  project_type : string;
  frameworks : list string;
  build_tools : list string;
  package_managers : list string;
  config_files : list string;
  source_files : list string;
  test_files : list string;
  documentation_files : list string;
  has_tests : bool;
  entry_points : list string
}.

(** ** tools/shell.py *)

Module Shell.

(** [run(cmd, cwd)]: no [timeout] is passed to [subprocess.run]. *)
Definition run (w : World) (cmd : list string) (cwd : string) : M (Z * string) :=
  p <- subprocess_run w cmd cwd None ;;
  ret (returncode p, stdout p ++ stderr p).

End Shell.

(** ** tools/runners.py *)

Module Runners.

Definition run_python_tests (w : World) (repo_path : string) : M (Z * string) :=
  try_except
    (let venv_path := path_join repo_path "venv" in
     let pytest_path :=
       if os_is_nt w then path_join (path_join venv_path "Scripts") "pytest"
       else path_join (path_join venv_path "bin") "pytest" in
     if path_exists w venv_path && path_exists w pytest_path
     then Shell.run w [pytest_path; "-q"] repo_path
     else Shell.run w ["pytest"; "-q"] repo_path)
    (on_file_not_found (1, "pytest not found - skipping tests")).

Definition run_python_linter (w : World) (repo_path : string) : M (Z * string) :=
  try_except
    (Shell.run w ["ruff"; "check"; "."] repo_path)
    (on_file_not_found (1, "ruff not found - skipping lint check")).

Definition run_python_audit (w : World) (repo_path : string) : M (Z * string) :=
  try_except
    (let req_file := path_join repo_path "requirements.txt" in
     if path_exists w req_file
     then Shell.run w ["pip-audit"; "-r"; "requirements.txt"] repo_path
     else Shell.run w ["pip-audit"] repo_path)
    (on_file_not_found (1, "pip-audit not found - skipping security check")).

Definition run_node_tests (w : World) (repo_path : string) : M (Z * string) :=
  try_except
    (let package_json := path_join repo_path "package.json" in
     if path_exists w package_json
     then Shell.run w ["npm"; "test"] repo_path
     else Shell.run w ["jest"] repo_path)
    (on_file_not_found (1, "npm/jest not found - skipping tests")).

Definition run_node_linter (w : World) (repo_path : string) : M (Z * string) :=
  try_except
    (Shell.run w ["npx"; "eslint"; "."] repo_path)
    (on_file_not_found (1, "eslint not found - skipping lint check")).

Definition run_node_audit (w : World) (repo_path : string) : M (Z * string) :=
  try_except
    (Shell.run w ["npm"; "audit"] repo_path)
    (on_file_not_found (1, "npm not found - skipping security audit")).

Definition run_dotnet_tests (w : World) (repo_path : string) : M (Z * string) :=
  try_except
    (Shell.run w ["dotnet"; "test"] repo_path)
    (on_file_not_found (1, "dotnet not found - skipping tests")).

Definition run_dotnet_linter (w : World) (repo_path : string) : M (Z * string) :=
  try_except
    (Shell.run w ["dotnet"; "format"; "--verify-no-changes"] repo_path)
    (on_file_not_found (1, "dotnet not found - skipping lint check")).

Definition run_dotnet_audit (w : World) (repo_path : string) : M (Z * string) :=
  try_except
    (Shell.run w ["dotnet"; "list"; "package"; "--vulnerable"] repo_path)
    (on_file_not_found (1, "dotnet not found - skipping security audit")).

Definition run_java_tests (w : World) (repo_path : string) : M (Z * string) :=
  try_except
    (if path_exists w (path_join repo_path "pom.xml")
     then Shell.run w ["mvn"; "test"] repo_path
     else if path_exists w (path_join repo_path "build.gradle")
             || path_exists w (path_join repo_path "build.gradle.kts")
     then Shell.run w ["./gradlew"; "test"] repo_path
     else ret (1, "No build tool found (Maven/Gradle)"))
    (on_file_not_found (1, "Java build tools not found - skipping tests")).

Definition run_java_linter (w : World) (repo_path : string) : M (Z * string) :=
  try_except
    (Shell.run w ["mvn"; "checkstyle:check"] repo_path)
    (on_file_not_found (1, "checkstyle not found - skipping lint check")).

Definition run_java_audit (w : World) (repo_path : string) : M (Z * string) :=
  try_except
    (if path_exists w (path_join repo_path "pom.xml")
     then Shell.run w ["mvn"; "dependency:tree"] repo_path
     else Shell.run w ["./gradlew"; "dependencies"] repo_path)
    (on_file_not_found (1, "Java build tools not found - skipping security audit")).

Definition run_go_tests (w : World) (repo_path : string) : M (Z * string) :=
  try_except
    (Shell.run w ["go"; "test"; "./..."] repo_path)
    (on_file_not_found (1, "go not found - skipping tests")).

Definition run_go_linter (w : World) (repo_path : string) : M (Z * string) :=
  try_except
    (Shell.run w ["golint"; "./..."] repo_path)
    (fun e =>
       match e with
       | FileNotFoundError _ =>
           try_except
             (Shell.run w ["go"; "vet"; "./..."] repo_path)
             (on_file_not_found (1, "go linter not found - skipping lint check"))
       | _ => raise e
       end).

Definition run_go_audit (w : World) (repo_path : string) : M (Z * string) :=
  try_except
    (Shell.run w ["go"; "list"; "-m"; "all"] repo_path)
    (on_file_not_found (1, "go not found - skipping security audit")).

Definition run_rust_tests (w : World) (repo_path : string) : M (Z * string) :=
  try_except
    (Shell.run w ["cargo"; "test"] repo_path)
    (on_file_not_found (1, "cargo not found - skipping tests")).

Definition run_rust_linter (w : World) (repo_path : string) : M (Z * string) :=
  try_except
    (Shell.run w ["cargo"; "clippy"] repo_path)
    (on_file_not_found (1, "cargo not found - skipping lint check")).

Definition run_rust_audit (w : World) (repo_path : string) : M (Z * string) :=
  try_except
    (Shell.run w ["cargo"; "audit"] repo_path)
    (on_file_not_found (1, "cargo-audit not found - skipping security audit")).

(** The three dispatchers, keyed by the primary language. *)
Definition run_tests (w : World) (repo_path : string)
  (project_analysis : ProjectProfile) : M (Z * string) :=
  let language := primary_language project_analysis in
  if String.eqb language "python" then run_python_tests w repo_path
  else if Py.mem language ["javascript"; "typescript"] then run_node_tests w repo_path
  else if String.eqb language "csharp" then run_dotnet_tests w repo_path
  else if String.eqb language "java" then run_java_tests w repo_path
  else if String.eqb language "go" then run_go_tests w repo_path
  else if String.eqb language "rust" then run_rust_tests w repo_path
  else ret (1, "No test runner configured for " ++ language).

Definition run_linter (w : World) (repo_path : string)
  (project_analysis : ProjectProfile) : M (Z * string) :=
  let language := primary_language project_analysis in
  if String.eqb language "python" then run_python_linter w repo_path
  else if Py.mem language ["javascript"; "typescript"] then run_node_linter w repo_path
  else if String.eqb language "csharp" then run_dotnet_linter w repo_path
  else if String.eqb language "java" then run_java_linter w repo_path
  else if String.eqb language "go" then run_go_linter w repo_path
  else if String.eqb language "rust" then run_rust_linter w repo_path
  else ret (0, "No linter configured for " ++ language).

Definition run_security_audit (w : World) (repo_path : string)
  (project_analysis : ProjectProfile) : M (Z * string) :=
  let language := primary_language project_analysis in
  if String.eqb language "python" then run_python_audit w repo_path
  else if Py.mem language ["javascript"; "typescript"] then run_node_audit w repo_path
  else if String.eqb language "csharp" then run_dotnet_audit w repo_path
  else if String.eqb language "java" then run_java_audit w repo_path
  else if String.eqb language "go" then run_go_audit w repo_path
  else if String.eqb language "rust" then run_rust_audit w repo_path
  else ret (0, "No security audit configured for " ++ language).

(** The legacy entry points. *)
Definition run_pytests (w : World) (repo_path : string) : M (Z * string) :=
  run_python_tests w repo_path.

Definition run_ruff (w : World) (repo_path : string) : M (Z * string) :=
  run_python_linter w repo_path.

Definition run_pip_audit (w : World) (repo_path : string) : M (Z * string) :=
  run_python_audit w repo_path.

End Runners.

(** ** tools/code_runner.py *)

Module CodeRunner.

Definition error_result (what : string) (e : Exn) : Z * string :=
  (1, what ++ exn_str e).

(** *** Python *)

Definition run_python_tests (w : World) (repo_path : string)
  (project_analysis : ProjectProfile) : M (Z * string) :=
  try_except
    (result <- subprocess_run w ["python"; "-m"; "pytest"; "-v"] repo_path (Some 120) ;;
     if (returncode result =? 0) || Py.contains "collected" (stdout result)
     then ret (report result)
     else
       result <- subprocess_run w ["python"; "-m"; "unittest"; "discover"; "-v"]
                   repo_path (Some 120) ;;
       ret (report result))
    (fun e =>
       match e with
       | TimeoutExpired _ => ret (1, "Test execution timed out")
       | _ => ret (error_result "Error running Python tests: " e)
       end).

Definition build_python_project (w : World) (repo_path : string)
  (project_analysis : ProjectProfile) : M (Z * string) :=
  try_except
    (result <- subprocess_run w
                 (["python"; "-m"; "py_compile"]
                  ++ filter (fun f => Py.endswith f ".py")
                       (source_files project_analysis))%list
                 repo_path (Some 60) ;;
     ret (report result))
    (on_exception (error_result "Error building Python project: ")).

Definition run_python_linting (w : World) (repo_path : string)
  (project_analysis : ProjectProfile) : M (Z * string) :=
  try_except
    (result <- subprocess_run w ["ruff"; "check"; "."] repo_path (Some 60) ;;
     if negb (returncode result =? 127)
     then ret (report result)
     else
       result <- subprocess_run w ["flake8"; "."] repo_path (Some 60) ;;
       ret (report result))
    (on_exception (error_result "Error running Python linting: ")).

(** *** JavaScript and TypeScript *)

Definition run_javascript_tests (w : World) (repo_path : string)
  (project_analysis : ProjectProfile) : M (Z * string) :=
  try_except
    (if path_exists w (path_join repo_path "package.json")
     then result <- subprocess_run w ["npm"; "test"] repo_path (Some 120) ;;
          ret (report result)
     else ret (0, "No package.json found"))
    (on_exception (error_result "Error running JavaScript tests: ")).

Definition build_javascript_project (w : World) (repo_path : string)
  (project_analysis : ProjectProfile) : M (Z * string) :=
  try_except
    (if path_exists w (path_join repo_path "package.json")
     then result <- subprocess_run w ["npm"; "run"; "build"] repo_path (Some 120) ;;
          if Py.contains "missing script: build" (stderr result)
          then ret (0, "No build script defined (okay for basic projects)")
          else ret (report result)
     else ret (0, "No package.json found"))
    (on_exception (error_result "Error building JavaScript project: ")).

Definition run_javascript_linting (w : World) (repo_path : string)
  (project_analysis : ProjectProfile) : M (Z * string) :=
  try_except
    (result <- subprocess_run w ["npx"; "eslint"; "."] repo_path (Some 60) ;;
     ret (report result))
    (on_exception (error_result "Error running JavaScript linting: ")).

Definition run_typescript_tests (w : World) (repo_path : string)
  (project_analysis : ProjectProfile) : M (Z * string) :=
  run_javascript_tests w repo_path project_analysis.

Definition build_typescript_project (w : World) (repo_path : string)
  (project_analysis : ProjectProfile) : M (Z * string) :=
  try_except
    (if path_exists w (path_join repo_path "tsconfig.json")
     then result <- subprocess_run w ["npx"; "tsc"] repo_path (Some 60) ;;
          ret (report result)
     else build_javascript_project w repo_path project_analysis)
    (on_exception (error_result "Error building TypeScript project: ")).

Definition run_typescript_linting (w : World) (repo_path : string)
  (project_analysis : ProjectProfile) : M (Z * string) :=
  try_except
    (result <- subprocess_run w ["npx"; "tsc"; "--noEmit"] repo_path (Some 60) ;;
     ret (report result))
    (on_exception (error_result "Error running TypeScript linting: ")).

(** *** C# *)

Definition run_csharp_tests (w : World) (repo_path : string)
  (project_analysis : ProjectProfile) : M (Z * string) :=
  try_except
    (result <- subprocess_run w ["dotnet"; "test"] repo_path (Some 120) ;;
     ret (report result))
    (on_exception (error_result "Error running C# tests: ")).

Definition build_csharp_project (w : World) (repo_path : string)
  (project_analysis : ProjectProfile) : M (Z * string) :=
  try_except
    (result <- subprocess_run w ["dotnet"; "build"] repo_path (Some 120) ;;
     ret (report result))
    (on_exception (error_result "Error building C# project: ")).

Definition run_csharp_linting (w : World) (repo_path : string)
  (project_analysis : ProjectProfile) : M (Z * string) :=
  try_except
    (result <- subprocess_run w ["dotnet"; "build"; "--verbosity"; "normal"]
                 repo_path (Some 60) ;;
     ret (report result))
    (on_exception (error_result "Error running C# linting: ")).

(** *** Java *)

Definition run_java_tests (w : World) (repo_path : string)
  (project_analysis : ProjectProfile) : M (Z * string) :=
  try_except
    (if path_exists w (path_join repo_path "pom.xml")
     then result <- subprocess_run w ["mvn"; "test"] repo_path (Some 180) ;;
          ret (report result)
     else if path_exists w (path_join repo_path "build.gradle")
     then let gradle_cmd :=
            if path_exists w (path_join repo_path "gradlew")
            then "./gradlew" else "gradle" in
          result <- subprocess_run w [gradle_cmd; "test"] repo_path (Some 180) ;;
          ret (report result)
     else ret (0, "No Maven or Gradle build file found"))
    (on_exception (error_result "Error running Java tests: ")).

Definition build_java_project (w : World) (repo_path : string)
  (project_analysis : ProjectProfile) : M (Z * string) :=
  try_except
    (if path_exists w (path_join repo_path "pom.xml")
     then result <- subprocess_run w ["mvn"; "compile"] repo_path (Some 180) ;;
          ret (report result)
     else if path_exists w (path_join repo_path "build.gradle")
     then let gradle_cmd :=
            if path_exists w (path_join repo_path "gradlew")
            then "./gradlew" else "gradle" in
          result <- subprocess_run w [gradle_cmd; "compileJava"] repo_path (Some 180) ;;
          ret (report result)
     else ret (0, "No Maven or Gradle build file found"))
    (on_exception (error_result "Error building Java project: ")).

Definition run_java_linting (w : World) (repo_path : string)
  (project_analysis : ProjectProfile) : M (Z * string) :=
  try_except
    (result <- subprocess_run w
                 (if path_exists w (path_join repo_path "pom.xml")
                  then ["mvn"; "checkstyle:check"] else ["gradle"; "check"])
                 repo_path (Some 60) ;;
     ret (report result))
    (fun _ => build_java_project w repo_path project_analysis).

(** *** Go *)

Definition run_go_tests (w : World) (repo_path : string)
  (project_analysis : ProjectProfile) : M (Z * string) :=
  try_except
    (result <- subprocess_run w ["go"; "test"; "./..."] repo_path (Some 120) ;;
     ret (report result))
    (on_exception (error_result "Error running Go tests: ")).

Definition build_go_project (w : World) (repo_path : string)
  (project_analysis : ProjectProfile) : M (Z * string) :=
  try_except
    (result <- subprocess_run w ["go"; "build"; "./..."] repo_path (Some 60) ;;
     ret (report result))
    (on_exception (error_result "Error building Go project: ")).

Definition run_go_linting (w : World) (repo_path : string)
  (project_analysis : ProjectProfile) : M (Z * string) :=
  try_except
    (result <- subprocess_run w ["golangci-lint"; "run"] repo_path (Some 60) ;;
     if negb (returncode result =? 127)
     then ret (report result)
     else
       result <- subprocess_run w ["go"; "vet"; "./..."] repo_path (Some 60) ;;
       ret (report result))
    (on_exception (error_result "Error running Go linting: ")).

(** *** Rust *)

Definition run_rust_tests (w : World) (repo_path : string)
  (project_analysis : ProjectProfile) : M (Z * string) :=
  try_except
    (result <- subprocess_run w ["cargo"; "test"] repo_path (Some 180) ;;
     ret (report result))
    (on_exception (error_result "Error running Rust tests: ")).

Definition build_rust_project (w : World) (repo_path : string)
  (project_analysis : ProjectProfile) : M (Z * string) :=
  try_except
    (result <- subprocess_run w ["cargo"; "build"] repo_path (Some 180) ;;
     ret (report result))
    (on_exception (error_result "Error building Rust project: ")).

Definition run_rust_linting (w : World) (repo_path : string)
  (project_analysis : ProjectProfile) : M (Z * string) :=
  try_except
    (result <- subprocess_run w ["cargo"; "clippy"; "--"; "-D"; "warnings"]
                 repo_path (Some 60) ;;
     ret (report result))
    (on_exception (error_result "Error running Rust linting: ")).

(** *** PHP and Ruby *)

Definition run_php_tests (w : World) (repo_path : string)
  (project_analysis : ProjectProfile) : M (Z * string) :=
  try_except
    (result <- (if path_exists w (path_join repo_path "vendor/bin/phpunit")
                then subprocess_run w ["vendor/bin/phpunit"] repo_path (Some 120)
                else subprocess_run w ["phpunit"] repo_path (Some 120)) ;;
     ret (report result))
    (on_exception (error_result "Error running PHP tests: ")).

(** The loop of the syntax checks: one command per file, stopping at the
    first one that fails. *)
Fixpoint check_each (w : World) (tool : list string) (repo_path : string)
  (files : list string) (passed : Z * string) : M (Z * string) :=
  match files with
  | [] => ret passed
  | f :: rest =>
      result <- subprocess_run w (tool ++ [f])%list repo_path (Some 30) ;;
      if negb (returncode result =? 0)
      then ret (report result)
      else check_each w tool repo_path rest passed
  end.

Definition build_php_project (w : World) (repo_path : string)
  (project_analysis : ProjectProfile) : M (Z * string) :=
  try_except
    (let php_files :=
       filter (fun f => Py.endswith f ".php") (source_files project_analysis) in
     match php_files with
     | [] => ret (0, "No PHP files found")
     | _ => check_each w ["php"; "-l"] repo_path php_files
              (0, "All PHP files syntax check passed")
     end)
    (on_exception (error_result "Error building PHP project: ")).

Definition run_php_linting (w : World) (repo_path : string)
  (project_analysis : ProjectProfile) : M (Z * string) :=
  try_except
    (result <- subprocess_run w ["phpcs"; "."] repo_path (Some 60) ;;
     ret (report result))
    (fun _ => build_php_project w repo_path project_analysis).

Definition run_ruby_tests (w : World) (repo_path : string)
  (project_analysis : ProjectProfile) : M (Z * string) :=
  try_except
    (result <- (if path_exists w (path_join repo_path "spec")
                then subprocess_run w ["rspec"] repo_path (Some 120)
                else subprocess_run w
                       ["ruby"; "-Itest"; "-e";
                        "Dir.glob('./test/**/*_test.rb').each {|f| require f}"]
                       repo_path (Some 120)) ;;
     ret (report result))
    (on_exception (error_result "Error running Ruby tests: ")).

Definition build_ruby_project (w : World) (repo_path : string)
  (project_analysis : ProjectProfile) : M (Z * string) :=
  try_except
    (let ruby_files :=
       filter (fun f => Py.endswith f ".rb") (source_files project_analysis) in
     match ruby_files with
     | [] => ret (0, "No Ruby files found")
     | _ => check_each w ["ruby"; "-c"] repo_path ruby_files
              (0, "All Ruby files syntax check passed")
     end)
    (on_exception (error_result "Error building Ruby project: ")).

Definition run_ruby_linting (w : World) (repo_path : string)
  (project_analysis : ProjectProfile) : M (Z * string) :=
  try_except
    (result <- subprocess_run w ["rubocop"] repo_path (Some 60) ;;
     ret (report result))
    (fun _ => build_ruby_project w repo_path project_analysis).

(** *** The dispatch tables *)

Definition Runner : Type := World -> string -> ProjectProfile -> M (Z * string).

Definition test_runners : list (string * Runner) :=
  [ ("python", run_python_tests); ("javascript", run_javascript_tests);
    ("typescript", run_typescript_tests); ("csharp", run_csharp_tests);
    ("java", run_java_tests); ("go", run_go_tests); ("rust", run_rust_tests);
    ("php", run_php_tests); ("ruby", run_ruby_tests) ].

Definition build_runners : list (string * Runner) :=
  [ ("python", build_python_project); ("javascript", build_javascript_project);
    ("typescript", build_typescript_project); ("csharp", build_csharp_project);
    ("java", build_java_project); ("go", build_go_project);
    ("rust", build_rust_project); ("php", build_php_project);
    ("ruby", build_ruby_project) ].

Definition linters : list (string * Runner) :=
  [ ("python", run_python_linting); ("javascript", run_javascript_linting);
    ("typescript", run_typescript_linting); ("csharp", run_csharp_linting);
    ("java", run_java_linting); ("go", run_go_linting);
    ("rust", run_rust_linting); ("php", run_php_linting);
    ("ruby", run_ruby_linting) ].

(** [table[language]] for [language in table]. *)
Fixpoint lookup (table : list (string * Runner)) (language : string)
  : option Runner :=
  match table with
  | [] => None
  | (k, r) :: rest => if String.eqb language k then Some r else lookup rest language
  end.

Definition run_project_tests (w : World) (repo_path : string)
  (project_analysis : ProjectProfile) : M (Z * string) :=
  let language := primary_language project_analysis in
  match lookup test_runners language with
  | Some runner => runner w repo_path project_analysis
  | None => ret (0, "No test runner available for " ++ language)
  end.

Definition run_project_build (w : World) (repo_path : string)
  (project_analysis : ProjectProfile) : M (Z * string) :=
  let language := primary_language project_analysis in
  match lookup build_runners language with
  | Some runner => runner w repo_path project_analysis
  | None => ret (0, "No build runner available for " ++ language)
  end.

Definition run_project_linting (w : World) (repo_path : string)
  (project_analysis : ProjectProfile) : M (Z * string) :=
  let language := primary_language project_analysis in
  match lookup linters language with
  | Some runner => runner w repo_path project_analysis
  | None => ret (0, "No linter available for " ++ language)
  end.

End CodeRunner.

(** ** tools/language_detector.py and tools/file_operations.py *)

Module LanguageDetector.

Definition ignore_dirs : list string :=
  [ ".git"; ".svn"; ".hg";
    "node_modules"; "__pycache__"; ".pytest_cache";
    "venv"; "env"; ".venv"; ".env";
    "target"; "build"; "dist"; "out";
    "bin"; "obj"; ".vs"; ".vscode";
    ".idea"; ".gradle"; ".maven" ].

Definition ignore_files : list string :=
  [ ".DS_Store"; "Thumbs.db"; ".gitignore";
    ".env"; ".env.local"; ".env.production" ].

(** The [filenames] of one [os.walk] step that are not ignored, as paths
    relative to the walked root ([rel] is the directory, by components). *)
Fixpoint files_here (rel : list string) (entries : list Entry)
  : list (list string) :=
  match entries with
  | [] => []
  | File name _ :: rest =>
      if Py.mem name ignore_files then files_here rel rest
      else (rel ++ [name])%list :: files_here rel rest
  | Dir _ _ :: rest => files_here rel rest
  end.

(** [os.walk], top-down: the files of a directory, then the walk of each of
    its sub-directories that [dirs[:] = ...] keeps. *)
Fixpoint walk (rel : list string) (e : Entry) {struct e} : list (list string) :=
  match e with
  | File _ _ => []
  | Dir _ entries =>
      (files_here rel entries
       ++ flat_map (fun c =>
                      match c with
                      | Dir name _ =>
                          if Py.mem name ignore_dirs then []
                          else walk (rel ++ [name])%list c
                      | File _ _ => []
                      end) entries)%list
  end.

(** [os.path.relpath(os.path.join(root, filename), repo_path)] *)
Definition rel_path (components : list string) : string :=
  Py.join "/" components.

Definition list_all_files (root : list Entry) : list string :=
  map rel_path (walk [] (Dir "" root)).

(** The entry a name denotes in a directory. *)
Fixpoint entry_named (name : string) (entries : list Entry) : option Entry :=
  match entries with
  | [] => None
  | e :: rest =>
      let n := match e with File n _ => n | Dir n _ => n end in
      if String.eqb n name then Some e else entry_named name rest
  end.

(** The file a relative path denotes under a directory. *)
Fixpoint resolve (entries : list Entry) (components : list string)
  : option string :=
  match components with
  | [] => None
  | [name] =>
      match entry_named name entries with
      | Some (File _ content) => Some content
      | _ => None
      end
  | name :: rest =>
      match entry_named name entries with
      | Some (Dir _ sub) => resolve sub rest
      | _ => None
      end
  end.

(** [read_file_content(repo_path, file_path)] of file_operations.py: the
    text of the file, or the empty string when there is no such file. *)
Definition read_file_content (root : list Entry) (file_path : string) : string :=
  match resolve root (Py.split "/"%char file_path) with
  | Some content => content
  | None => ""
  end.

Fixpoint all_dots (s : string) : bool :=
  match s with
  | EmptyString => true
  | String c s' => Ascii.eqb c "."%char && all_dots s'
  end.

(** [os.path.splitext(p)[1]] *)
Definition splitext_ext (p : string) : string :=
  let sepIndex := Py.rfind p "/" in
  let dotIndex := Py.rfind p "." in
  if sepIndex <? dotIndex then
    if all_dots (Py.slice p (sepIndex + 1) dotIndex) then ""
    else Py.drop dotIndex p
  else "".

Definition get_file_extension (file_path : string) : string :=
  Py.lower (splitext_ext file_path).

(** [os.path.basename] *)
Definition basename (p : string) : string :=
  Py.drop (Py.rfind p "/" + 1) p.

Fixpoint assoc {A : Type} (table : list (string * A)) (k : string) : option A :=
  match table with
  | [] => None
  | (k', v) :: rest => if String.eqb k k' then Some v else assoc rest k
  end.

Definition extension_map : list (string * string) :=
  [ (".py", "python"); (".js", "javascript"); (".mjs", "javascript");
    (".ts", "typescript"); (".tsx", "typescript"); (".jsx", "javascript");
    (".cs", "csharp"); (".vb", "vb.net"); (".fs", "fsharp");
    (".java", "java"); (".kt", "kotlin"); (".scala", "scala");
    (".go", "go"); (".rs", "rust"); (".php", "php"); (".rb", "ruby");
    (".swift", "swift"); (".m", "objective-c"); (".mm", "objective-c++");
    (".cpp", "cpp"); (".cc", "cpp"); (".cxx", "cpp"); (".c", "c");
    (".h", "c"); (".hpp", "cpp"); (".dart", "dart"); (".r", "r");
    (".jl", "julia"); (".ex", "elixir"); (".exs", "elixir");
    (".clj", "clojure"); (".hs", "haskell"); (".ml", "ocaml");
    (".pl", "perl"); (".sh", "bash"); (".ps1", "powershell") ].

Definition extension_to_language (ext : string) : option string :=
  assoc extension_map ext.

(** [counts[lang] = counts.get(lang, 0) + 1] on a dict in insertion order. *)
Fixpoint bump (counts : list (string * Z)) (lang : string) : list (string * Z) :=
  match counts with
  | [] => [(lang, 1)]
  | (k, n) :: rest =>
      if String.eqb lang k then (k, n + 1) :: rest else (k, n) :: bump rest lang
  end.

(** [max(counts, key=counts.get)]: the first key whose count is maximal. *)
Fixpoint max_key (best : string * Z) (counts : list (string * Z)) : string :=
  match counts with
  | [] => fst best
  | (k, n) :: rest => if snd best <? n then max_key (k, n) rest else max_key best rest
  end.

Definition config_patterns : list (string * (string * string)) :=
  [ ("requirements.txt", ("python", "pip"));
    ("pyproject.toml", ("python", "poetry/setuptools"));
    ("setup.py", ("python", "setuptools"));
    ("Pipfile", ("python", "pipenv"));
    ("poetry.lock", ("python", "poetry"));
    ("package.json", ("javascript", "npm/yarn"));
    ("yarn.lock", ("javascript", "yarn"));
    ("package-lock.json", ("javascript", "npm"));
    ("tsconfig.json", ("typescript", "tsc"));
    ("webpack.config.js", ("javascript", "webpack"));
    ("vite.config.js", ("javascript", "vite"));
    ("next.config.js", ("javascript", "next.js"));
    ("*.csproj", ("csharp", "dotnet"));
    ("*.vbproj", ("vb.net", "dotnet"));
    ("*.fsproj", ("fsharp", "dotnet"));
    ("*.sln", ("csharp", "dotnet"));
    ("global.json", ("csharp", "dotnet"));
    ("pom.xml", ("java", "maven"));
    ("build.gradle", ("java", "gradle"));
    ("build.gradle.kts", ("kotlin", "gradle"));
    ("go.mod", ("go", "go modules"));
    ("go.sum", ("go", "go modules"));
    ("Cargo.toml", ("rust", "cargo"));
    ("Cargo.lock", ("rust", "cargo"));
    ("composer.json", ("php", "composer"));
    ("composer.lock", ("php", "composer"));
    ("Gemfile", ("ruby", "bundler"));
    ("Gemfile.lock", ("ruby", "bundler"));
    ("Dockerfile", ("docker", "docker"));
    ("docker-compose.yml", ("docker", "docker-compose"));
    ("Makefile", ("make", "make"));
    ("CMakeLists.txt", ("cpp", "cmake")) ].

(** [pattern.replace('*', '')] *)
Fixpoint remove_stars (s : string) : string :=
  match s with
  | EmptyString => EmptyString
  | String c s' =>
      if Ascii.eqb c "*"%char then remove_stars s' else String c (remove_stars s')
  end.

(** [if x not in xs: xs.append(x)] *)
Definition add_once (xs : list string) (x : string) : list string :=
  if Py.mem x xs then xs else (xs ++ [x])%list.

Definition with_config (p : ProjectProfile) (configs tools : list string)
  : ProjectProfile :=
  mkProfile (primary_language p) (secondary_languages p) (project_type p)
    (frameworks p) tools (package_managers p) configs (source_files p)
    (test_files p) (documentation_files p) (has_tests p) (entry_points p).

Definition with_frameworks (p : ProjectProfile) (fw : list string)
  : ProjectProfile :=
  mkProfile (primary_language p) (secondary_languages p) (project_type p)
    fw (build_tools p) (package_managers p) (config_files p) (source_files p)
    (test_files p) (documentation_files p) (has_tests p) (entry_points p).

Definition with_entry_points (p : ProjectProfile) (eps : list string)
  : ProjectProfile :=
  mkProfile (primary_language p) (secondary_languages p) (project_type p)
    (frameworks p) (build_tools p) (package_managers p) (config_files p)
    (source_files p) (test_files p) (documentation_files p) (has_tests p) eps.

Definition with_tests (p : ProjectProfile) (tests : list string) (flag : bool)
  : ProjectProfile :=
  mkProfile (primary_language p) (secondary_languages p) (project_type p)
    (frameworks p) (build_tools p) (package_managers p) (config_files p)
    (source_files p) tests (documentation_files p) flag (entry_points p).

(** The inner loop of [analyze_config_files] over the patterns with a star. *)
Fixpoint match_star_patterns (patterns : list (string * (string * string)))
  (file_path filename : string) (acc : list string * list string)
  : list string * list string :=
  match patterns with
  | [] => acc
  | (pattern, (_, tool)) :: rest =>
      let acc' :=
        if Py.contains "*" pattern && Py.endswith filename (remove_stars pattern)
        then ((fst acc ++ [file_path])%list, add_once (snd acc) tool)
        else acc in
      match_star_patterns rest file_path filename acc'
  end.

(** One iteration of [analyze_config_files]; [acc] is the pair of the
    [config_files] and [build_tools] lists. *)
Definition config_step (acc : list string * list string) (file_path : string)
  : list string * list string :=
  let filename := basename file_path in
  let acc1 :=
    match assoc config_patterns filename with
    | Some (_, tool) => ((fst acc ++ [file_path])%list, add_once (snd acc) tool)
    | None => acc
    end in
  match_star_patterns config_patterns file_path filename acc1.

Definition analyze_config_files (files : list string) (structure : ProjectProfile)
  : ProjectProfile :=
  let acc := fold_left config_step files
               (config_files structure, build_tools structure) in
  with_config structure (fst acc) (snd acc).

Definition framework_patterns : list (string * list (string * list string)) :=
  [ ("python",
      [ ("fastapi", ["from fastapi"; "import fastapi"; "FastAPI()"]);
        ("flask", ["from flask"; "import flask"; "Flask(__name__)"]);
        ("django", ["django."; "DJANGO_SETTINGS_MODULE"; "manage.py"]);
        ("pytest", ["import pytest"; "def test_"; "@pytest."]) ]);
    ("javascript",
      [ ("react", ["import React"; Py.quoted "from 'react'"; "React.Component"]);
        ("vue", ["import Vue"; Py.quoted "from 'vue'"; "<template>"]);
        ("angular", ["@angular/"; "@Component"; "@Injectable"]);
        ("express", [Py.quoted "require('express')"; "import express"; "express()"]);
        ("next", ["next/"; Py.quoted "from 'next'"; "getServerSideProps"]) ]);
    ("csharp",
      [ ("asp.net", ["using Microsoft.AspNetCore"; "[ApiController]"; "WebApplication."]);
        ("blazor", ["@page"; "@code"; "ComponentBase"]);
        ("mvc", ["Controller"; "ActionResult"; "ViewResult"]) ]);
    ("java",
      [ ("spring", ["@SpringBootApplication"; "@RestController"; "@Service"]);
        ("springboot", ["@SpringBootApplication"; "SpringApplication.run"]) ]) ].

Definition source_extension_map : list (string * list string) :=
  [ ("python", [".py"]); ("javascript", [".js"; ".mjs"; ".jsx"]);
    ("typescript", [".ts"; ".tsx"]); ("csharp", [".cs"]); ("java", [".java"]);
    ("go", [".go"]); ("rust", [".rs"]); ("php", [".php"]); ("ruby", [".rb"]) ].

Definition get_source_extensions (language : string) : list string :=
  match assoc source_extension_map language with
  | Some exts => exts
  | None => []
  end.

(** The loop over the frameworks of one language for one file content. *)
Definition frameworks_in (content : string)
  (table : list (string * list string)) (found : list string) : list string :=
  fold_left
    (fun acc entry =>
       if existsb (fun pattern => Py.contains pattern content) (snd entry)
       then add_once acc (fst entry) else acc)
    table found.

Definition detect_frameworks_and_type (root : list Entry) (files : list string)
  (structure : ProjectProfile) : ProjectProfile :=
  let language := primary_language structure in
  match assoc framework_patterns language with
  | Some table =>
      with_frameworks structure
        (fold_left
           (fun found file_path =>
              if Py.endswith_any file_path (get_source_extensions language)
              then frameworks_in (read_file_content root file_path) table found
              else found)
           files (frameworks structure))
  | None => structure
  end.

Definition entry_patterns : list string :=
  [ "main.py"; "app.py"; "server.py"; "run.py"; "__main__.py";
    "index.js"; "server.js"; "app.js"; "main.js";
    "index.ts"; "server.ts"; "app.ts"; "main.ts";
    "Program.cs"; "Startup.cs"; "Main.cs";
    "Main.java"; "Application.java";
    "main.go"; "server.go"; "app.go";
    "main.rs"; "lib.rs"; "server.rs";
    "index.php"; "app.php"; "server.php" ].

Definition find_entry_points (files : list string) (structure : ProjectProfile)
  : ProjectProfile :=
  with_entry_points structure
    (entry_points structure
     ++ filter (fun file_path => Py.mem (basename file_path) entry_patterns) files)%list.

Definition test_patterns : list string :=
  [ "test_"; "_test."; ".test."; ".spec.";
    "/test/"; "/tests/"; "__tests__/";
    "Test.cs"; "Tests.cs"; "Test.java" ].

Definition find_test_files (files : list string) (structure : ProjectProfile)
  : ProjectProfile :=
  let tests :=
    (test_files structure
     ++ filter (fun file_path =>
                  existsb (fun pattern => Py.contains pattern file_path) test_patterns)
          files)%list in
  with_tests structure tests (0 <? Z.of_nat (List.length tests)).

(** The first loop of [analyze_project_structure]: the tally of languages
    and the list of source files. *)
Definition tally_step (acc : list (string * Z) * list string) (file_path : string)
  : list (string * Z) * list string :=
  match extension_to_language (get_file_extension file_path) with
  | Some lang => (bump (fst acc) lang, (snd acc ++ [file_path])%list)
  | None => acc
  end.

(** [analyze_project_structure], on the entries found under [repo_path]. *)
Definition analyze (root : list Entry) : ProjectProfile :=
  let files := list_all_files root in
  let tally := fold_left tally_step files ([], []) in
  let language_counts := fst tally in
  let primary :=
    match language_counts with
    | [] => "unknown"
    | first :: rest => max_key first rest
    end in
  let secondary :=
    match language_counts with
    | [] => []
    | _ => filter (fun lang => negb (String.eqb lang primary))
             (map fst language_counts)
    end in
  let structure :=
    mkProfile primary secondary "unknown" [] [] [] [] (snd tally) [] [] false [] in
  let structure := analyze_config_files files structure in
  let structure := detect_frameworks_and_type root files structure in
  let structure := find_entry_points files structure in
  find_test_files files structure.

Definition analyze_project_structure (w : World) (repo_path : string)
  : ProjectProfile :=
  analyze (listing w repo_path).

End LanguageDetector.

(** ** state.py *)

(** An element of [tasks] after planning: the dict [{id, title}]. *)
Record Task : Type := mkTask {
  task_id : string;
  task_title : string
}.

(** [BuildState].  [dev_attempts] is [None] when the key is absent from the
    dict (the session file of the interactive mode has no such key), which
    [state.get("dev_attempts", 0)] reads as 0. *)
Record BuildState : Type := mkState {
  request : string;
  repo_path : string;
  prd : string;
  rfc : string;
  tasks : list Task;
  branch : string;
  lint_ok : bool;
  tests_ok : bool;
  sec_ok : bool;
  pr_url : string;
  dev_attempts : option Z;
  logs : list string
}.

(** [state.get("dev_attempts", 0)] *)
Definition get_dev_attempts (s : BuildState) : Z :=
  match dev_attempts s with
  | Some n => n
  | None => 0
  end.

(** [state["logs"].append(entry)] *)
Definition log (s : BuildState) (entry : string) : BuildState :=
  mkState (request s) (repo_path s) (prd s) (rfc s) (tasks s) (branch s)
    (lint_ok s) (tests_ok s) (sec_ok s) (pr_url s) (dev_attempts s)
    (logs s ++ [entry])%list.

Definition log_all (s : BuildState) (entries : list string) : BuildState :=
  fold_left log entries s.

Definition set_prd (s : BuildState) (v : string) : BuildState :=
  mkState (request s) (repo_path s) v (rfc s) (tasks s) (branch s)
    (lint_ok s) (tests_ok s) (sec_ok s) (pr_url s) (dev_attempts s) (logs s).

Definition set_rfc (s : BuildState) (v : string) : BuildState :=
  mkState (request s) (repo_path s) (prd s) v (tasks s) (branch s)
    (lint_ok s) (tests_ok s) (sec_ok s) (pr_url s) (dev_attempts s) (logs s).

Definition set_tasks (s : BuildState) (v : list Task) : BuildState :=
  mkState (request s) (repo_path s) (prd s) (rfc s) v (branch s)
    (lint_ok s) (tests_ok s) (sec_ok s) (pr_url s) (dev_attempts s) (logs s).

Definition set_branch (s : BuildState) (v : string) : BuildState :=
  mkState (request s) (repo_path s) (prd s) (rfc s) (tasks s) v
    (lint_ok s) (tests_ok s) (sec_ok s) (pr_url s) (dev_attempts s) (logs s).

Definition set_lint_ok (s : BuildState) (v : bool) : BuildState :=
  mkState (request s) (repo_path s) (prd s) (rfc s) (tasks s) (branch s)
    v (tests_ok s) (sec_ok s) (pr_url s) (dev_attempts s) (logs s).

Definition set_tests_ok (s : BuildState) (v : bool) : BuildState :=
  mkState (request s) (repo_path s) (prd s) (rfc s) (tasks s) (branch s)
    (lint_ok s) v (sec_ok s) (pr_url s) (dev_attempts s) (logs s).

Definition set_sec_ok (s : BuildState) (v : bool) : BuildState :=
  mkState (request s) (repo_path s) (prd s) (rfc s) (tasks s) (branch s)
    (lint_ok s) (tests_ok s) v (pr_url s) (dev_attempts s) (logs s).

Definition set_pr_url (s : BuildState) (v : string) : BuildState :=
  mkState (request s) (repo_path s) (prd s) (rfc s) (tasks s) (branch s)
    (lint_ok s) (tests_ok s) (sec_ok s) v (dev_attempts s) (logs s).

Definition set_dev_attempts (s : BuildState) (v : Z) : BuildState :=
  mkState (request s) (repo_path s) (prd s) (rfc s) (tasks s) (branch s)
    (lint_ok s) (tests_ok s) (sec_ok s) (pr_url s) (Some v) (logs s).

(** The [initial] dict of main.py. *)
Definition initial (request_arg repo_path_arg : string) : BuildState :=
  mkState request_arg repo_path_arg "" "" [] "" false false false "" (Some 0) [].

(** [str(b)] for a bool. *)
Definition str_of_bool (b : bool) : string := if b then "True" else "False".

(** ** agents/test_agent.py *)

Definition tests_node (w : World) (state : BuildState) : M BuildState :=
  let project_analysis :=
    LanguageDetector.analyze_project_structure w (repo_path state) in
  let language := primary_language project_analysis in
  r <- CodeRunner.run_project_linting w (repo_path state) project_analysis ;;
  let state := set_lint_ok state (fst r =? 0) in
  let state := log state ("Linter (" ++ language ++ "): exit=" ++ Py.str_of_Z (fst r)
                            ++ Py.nl ++ Py.take 1000 (snd r)) in
  r <- CodeRunner.run_project_tests w (repo_path state) project_analysis ;;
  let state := set_tests_ok state (fst r =? 0) in
  let state := log state ("Tests (" ++ language ++ "): exit=" ++ Py.str_of_Z (fst r)
                            ++ Py.nl ++ Py.take 1000 (snd r)) in
  ret state.

(** ** agents/security.py *)

Definition security_node (w : World) (state : BuildState) : M BuildState :=
  r <- Runners.run_pip_audit w (repo_path state) ;;
  let state := set_sec_ok state (fst r =? 0) in
  let state := log state ("pip-audit: exit=" ++ Py.str_of_Z (fst r)
                            ++ Py.nl ++ Py.take 1000 (snd r)) in
  ret state.

(** ** Prompt templates *)

(** [format_messages] of a [ChatPromptTemplate] built by [from_messages]
    from (role, template) pairs: each template is formatted with
    [string.Formatter] and the keyword arguments of the call, in order. *)
Module Prompt.

(** What formatting gives: the result, the exception raised, or
    [Unmodelled] where the template applies an attribute, an index, a
    conversion or a format specification to a supplied value, or names a
    positional argument; no prompt of the sources does. *)
Inductive Outcome (A : Type) : Type :=
| Formatted (a : A)
| Failed (e : Exn)
| Unmodelled.
Arguments Formatted {A} a.
Arguments Failed {A} e.
Arguments Unmodelled {A}.

(** Where the scan of a template stands: in literal text; after a brace of
    the literal text, which is either doubled or opens a field; in a field
    name (inside [[...]] or not); after [!]; after the conversion character;
    in a format specification, with the count of open braces. *)
Inductive Mode : Type :=
| Literal
| Opened
| Closed
| Name (name : string) (in_index : bool)
| Bang (name : string)
| Conversion (name : string) (conversion : ascii)
| Spec (name : string) (conversion : option ascii) (spec : string) (count : nat).

(** The part of a field name before the first [.] or [[]: the key that is
    looked up. *)
Fixpoint key_of (name : string) : string :=
  match name with
  | EmptyString => EmptyString
  | String c rest =>
      if Ascii.eqb c "." || Ascii.eqb c "[" then EmptyString
      else String c (key_of rest)
  end.

(** [kwargs[key]], when the key is there. *)
Fixpoint get (kwargs : list (string * string)) (key : string) : option string :=
  match kwargs with
  | [] => None
  | (k, v) :: rest => if String.eqb key k then Some v else get rest key
  end.

Fixpoint all_digits (s : string) : bool :=
  match s with
  | EmptyString => true
  | String c rest => Json.is_digit c && all_digits rest
  end.

(** A complete field: [get_value] looks its key up in the keyword
    arguments and raises [KeyError] when it is missing; the value of a plain
    field is what the field is replaced by. *)
Definition lookup_field (kwargs : list (string * string))
  (name : string) (conversion : option ascii) (spec : string) : Outcome string :=
  let key := key_of name in
  if all_digits key then Unmodelled
  else
    match get kwargs key with
    | None => Failed (KeyError (Py.repr key))
    | Some v =>
        match conversion with
        | None => if String.eqb key name && String.eqb spec "" then Formatted v
                  else Unmodelled
        | Some _ => Unmodelled
        end
    end.

(** [Formatter.vformat]: the template is scanned from left to right, [out]
    holding the text produced so far.  The scan is lazy: a field is looked up
    as soon as it is complete, before the rest of the template is read. *)
Fixpoint vformat (kwargs : list (string * string)) (mode : Mode) (out : string)
  (template : string) : Outcome string :=
  match template with
  | EmptyString =>
      match mode with
      | Literal => Formatted out
      | Opened => Failed (ValueError "Single '{' encountered in format string")
      | Closed => Failed (ValueError "Single '}' encountered in format string")
      | Name _ _ => Failed (ValueError "expected '}' before end of string")
      | Bang _ =>
          Failed (ValueError "end of string while looking for conversion specifier")
      | Conversion _ _ | Spec _ _ _ _ =>
          Failed (ValueError "unmatched '{' in format spec")
      end
  | String c rest =>
      let one := String c EmptyString in
      let in_name (name : string) : Outcome string :=
        if Ascii.eqb c "{" then
          Failed (ValueError "unexpected '{' in field name")
        else if Ascii.eqb c "[" then vformat kwargs (Name (name ++ one) true) out rest
        else if Ascii.eqb c "}" then
          match lookup_field kwargs name None EmptyString with
          | Formatted v => vformat kwargs Literal (out ++ v) rest
          | other => other
          end
        else if Ascii.eqb c ":" then
          vformat kwargs (Spec name None EmptyString 1) out rest
        else if Ascii.eqb c "!" then vformat kwargs (Bang name) out rest
        else vformat kwargs (Name (name ++ one) false) out rest in
      match mode with
      | Literal =>
          if Ascii.eqb c "{" then vformat kwargs Opened out rest
          else if Ascii.eqb c "}" then vformat kwargs Closed out rest
          else vformat kwargs Literal (out ++ one) rest
      | Opened =>
          if Ascii.eqb c "{" then vformat kwargs Literal (out ++ "{") rest
          else in_name EmptyString
      | Closed =>
          if Ascii.eqb c "}" then vformat kwargs Literal (out ++ "}") rest
          else Failed (ValueError "Single '}' encountered in format string")
      | Name name true =>
          vformat kwargs (Name (name ++ one) (negb (Ascii.eqb c "]"))) out rest
      | Name name false => in_name name
      | Bang name => vformat kwargs (Conversion name c) out rest
      | Conversion name conversion =>
          if Ascii.eqb c "}" then
            match lookup_field kwargs name (Some conversion) EmptyString with
            | Formatted v => vformat kwargs Literal (out ++ v) rest
            | other => other
            end
          else if Ascii.eqb c ":" then
            vformat kwargs (Spec name (Some conversion) EmptyString 1) out rest
          else Failed (ValueError "expected ':' after conversion specifier")
      | Spec name conversion spec count =>
          if Ascii.eqb c "{" then
            vformat kwargs (Spec name conversion (spec ++ one) (S count)) out rest
          else if Ascii.eqb c "}" then
            match count with
            | S (S n) =>
                vformat kwargs (Spec name conversion (spec ++ one) (S n)) out rest
            | _ =>
                match lookup_field kwargs name conversion spec with
                | Formatted v => vformat kwargs Literal (out ++ v) rest
                | other => other
                end
            end
          else vformat kwargs (Spec name conversion (spec ++ one) count) out rest
      end
  end.

Definition format (template : string) (kwargs : list (string * string))
  : Outcome string :=
  vformat kwargs Literal EmptyString template.

(** The messages of the prompt, formatted one after the other. *)
Fixpoint format_messages (messages : list (string * string))
  (kwargs : list (string * string)) : Outcome (list string) :=
  match messages with
  | [] => Formatted []
  | (_, template) :: rest =>
      match format template kwargs with
      | Formatted text =>
          match format_messages rest kwargs with
          | Formatted texts => Formatted (text :: texts)
          | other => other
          end
      | Failed e => Failed e
      | Unmodelled => Unmodelled
      end
  end.

End Prompt.

(** ** agents/planner.py *)

(** The en dash of the planner prompt, in UTF-8. *)
Definition en_dash : string :=
  String "226"%char (String "128"%char (String "147"%char EmptyString)).

Module Planner.

(** [planner_prompt]: the system template, with its braces doubled, and the
    human template.  The text is written with ['] for its double quotes. *)
Definition planner_prompt : list (string * string) :=
  [ ("system",
      Py.quoted
        (Py.nl
         ++ "    You are the Planner." ++ Py.nl
         ++ "    - Convert the user request into a concise PRD (markdown) and 3"
         ++ en_dash ++ "6 atomic tasks." ++ Py.nl
         ++ "    - Prefer small, independent tasks." ++ Py.nl
         ++ "    - Output ONLY valid JSON with this exact format:" ++ Py.nl
         ++ "    {{" ++ Py.nl
         ++ "      'prd_md': '# PRD" ++ Py.backslash ++ "n" ++ Py.backslash ++ "n## Goal"
         ++ Py.backslash ++ "n...markdown content...'," ++ Py.nl
         ++ "      'tasks': [" ++ Py.nl
         ++ "        {{'id': 'task1', 'title': 'Task description'}}," ++ Py.nl
         ++ "        {{'id': 'task2', 'title': 'Another task description'}}" ++ Py.nl
         ++ "      ]" ++ Py.nl
         ++ "    }}" ++ Py.nl
         ++ "    "));
    ("human", "{request}") ].

(** [str(v)] of a value [json.loads] produced. *)
Definition py_str (w : World) (v : Json.value) : string :=
  match v with
  | Json.JStr s => s
  | Json.JInt z => Py.str_of_Z z
  | Json.JNull => "None"
  | Json.JBool b => str_of_bool b
  | _ => repr_text w v
  end.

(** The fallback the step builds when no JSON can be recovered. *)
Definition fallback_data (request_text : string) : Json.value :=
  Json.JObj
    [ ("prd_md",
        Json.JStr ("# PRD" ++ Py.nl ++ Py.nl ++ "Request: " ++ request_text
                   ++ Py.nl ++ Py.nl ++ "## Goal" ++ Py.nl
                   ++ "Implement the requested feature." ++ Py.nl ++ Py.nl
                   ++ "## Acceptance Criteria" ++ Py.nl ++ "- Feature implemented"
                   ++ Py.nl ++ "- Tests pass" ++ Py.nl ++ "- Code follows standards"));
      ("tasks",
        Json.JArr
          [ Json.JObj [("id", Json.JStr "task1"); ("title", Json.JStr "Implement feature")];
            Json.JObj [("id", Json.JStr "task2"); ("title", Json.JStr "Add tests")];
            Json.JObj [("id", Json.JStr "task3");
                       ("title", Json.JStr "Update documentation")] ]) ].

(** The [try: json.loads(raw) except ...] block: the recovered data and the
    state with the log entries of the attempts. *)
Definition recover (w : World) (state : BuildState) (raw : string)
  : Json.value * BuildState :=
  match Json.loads raw with
  | Some data => (data, state)
  | None =>
      let state := log state ("JSON parse error: " ++ json_error_text w raw) in
      let start := Py.find raw "{" in
      let end_ := Py.rfind raw "}" + 1 in
      if (start =? -1) || (end_ =? 0) then
        (fallback_data (request state),
         log state "No JSON found, creating fallback response")
      else
        let extracted := Py.slice raw start end_ in
        let state := log state ("Extracted JSON: " ++ Py.take 200 extracted ++ "...") in
        match Json.loads extracted with
        | Some data => (data, state)
        | None =>
            (fallback_data (request state),
             log state ("Extracted JSON parse error: " ++ json_error_text w extracted))
        end
  end.

(** One iteration of the conversion loop: [converted] is [converted_tasks];
    an entry that is not a dict is skipped. *)
Definition convert_step (w : World) (converted : list (string * Json.value))
  (task : Json.value) : list (string * Json.value) :=
  match task with
  | Json.JObj d =>
      let default_id :=
        Json.JStr ("task" ++ Py.str_of_nat (List.length converted + 1)) in
      let id_value :=
        match Json.dict_get d "task_id" with
        | Some v => v
        | None => match Json.dict_get d "id" with
                  | Some v => v
                  | None => default_id
                  end
        end in
      let title_value :=
        match Json.dict_get d "task_desc" with
        | Some v => v
        | None => match Json.dict_get d "title" with
                  | Some v => v
                  | None => Json.JStr "Untitled task"
                  end
        end in
      (converted ++ [(py_str w id_value, title_value)])%list
  | _ => converted
  end.

(** [for task in data['tasks']] with the conversion: a list is walked by its
    items; a dict is walked by its keys and a string by its characters, none
    of which is a dict; any other value is not iterable. *)
Definition convert_tasks (w : World) (v : Json.value)
  : Res (list (string * Json.value)) :=
  match v with
  | Json.JArr items => Ok (fold_left (convert_step w) items [])
  | Json.JObj _ | Json.JStr _ => Ok []
  | _ => Raise (TypeError "object is not iterable")
  end.

(** Validation of one converted entry against [Task], as pydantic 2 does
    it (the sources use its [model_validate]): [title] must be a string;
    [id] is one already. *)
Definition validate_task (t : string * Json.value) : option Task :=
  match snd t with
  | Json.JStr title => Some (mkTask (fst t) title)
  | _ => None
  end.

Fixpoint validate_tasks (ts : list (string * Json.value)) : option (list Task) :=
  match ts with
  | [] => Some []
  | t :: rest =>
      match validate_task t, validate_tasks rest with
      | Some t', Some rest' => Some (t' :: rest')
      | _, _ => None
      end
  end.

(** From [if 'tasks' in data] to the construction of [PlannerOut] from
    [data]: the validated [prd_md] and tasks.  Both fields are required and
    [prd_md] must be a string; further keys are ignored.  When [data] is not
    a dict, the membership test, the subscript or the unpacking raises
    [TypeError]. *)
Definition build (w : World) (data : Json.value) : Res (string * list Task) :=
  match data with
  | Json.JObj d =>
      match Json.dict_get d "tasks" with
      | None => Raise (ValidationError "tasks: field required")
      | Some v =>
          match convert_tasks w v with
          | Raise e => Raise e
          | Ok converted =>
              match Json.dict_get d "prd_md", validate_tasks converted with
              | Some (Json.JStr prd_md), Some ts => Ok (prd_md, ts)
              | _, _ => Raise (ValidationError "PlannerOut: validation error")
              end
          end
      end
  | _ => Raise (TypeError "data is not a mapping")
  end.

Definition planner_node (w : World) (state : BuildState) : M BuildState :=
  let raw := chat w (Some "planning") [request state] in
  let state := log state ("Planner raw response: " ++ Py.take 200 raw ++ "...") in
  let (data, state) := recover w state raw in
  match build w data with
  | Raise e => raise e
  | Ok (prd_md, ts) =>
      let state := set_prd state prd_md in
      let state := set_tasks state ts in
      ret (log state "Planner: PRD+tasks created")
  end.

End Planner.

(** ** agents/router.py *)

Module Router.

Record RouteOut : Type := mkRouteOut {
  intent : string;
  args : list (string * Json.value)
}.

Definition INTENTS : list string :=
  ["plan"; "design"; "dev"; "tests"; "security"; "pr"; "status"; "help"].

Definition summarize_state (state : BuildState) : string :=
  "tasks=" ++ Py.str_of_nat (List.length (tasks state)) ++ ", "
  ++ "branch=" ++ (if String.eqb (branch state) "" then "-" else branch state) ++ ", "
  ++ "lint_ok=" ++ str_of_bool (lint_ok state)
  ++ ", tests_ok=" ++ str_of_bool (tests_ok state)
  ++ ", sec_ok=" ++ str_of_bool (sec_ok state).

(** The [try: json.loads(raw) except Exception: ...] block. *)
Definition recover (w : World) (raw : string) : Res Json.value :=
  match Json.loads raw with
  | Some data => Ok data
  | None =>
      let start := Py.find raw "{" in
      let end_ := Py.rfind raw "}" + 1 in
      let extracted := Py.slice raw start end_ in
      match Json.loads extracted with
      | Some data => Ok data
      | None => Raise (JSONDecodeError (json_error_text w extracted))
      end
  end.

(** The construction of [RouteOut] from [data]: [intent] is a required
    string, [args] a dict that defaults to the empty one; unpacking a value
    that is not a dict raises [TypeError]. *)
Definition validate (data : Json.value) : Res RouteOut :=
  match data with
  | Json.JObj d =>
      match Json.dict_get d "intent" with
      | Some (Json.JStr i) =>
          match Json.dict_get d "args" with
          | None => Ok (mkRouteOut i [])
          | Some (Json.JObj a) => Ok (mkRouteOut i a)
          | Some _ => Raise (ValidationError "args: not a dict")
          end
      | Some _ => Raise (ValidationError "intent: not a string")
      | None => Raise (ValidationError "intent: field required")
      end
  | _ => Raise (TypeError "data is not a mapping")
  end.

(** The part of [route] after the chat backend has answered [raw]. *)
Definition route_raw (w : World) (raw : string) : Res RouteOut :=
  match recover w raw with
  | Raise e => Raise e
  | Ok data =>
      match validate data with
      | Raise e => Raise e
      | Ok out =>
          if negb (Py.mem (intent out) INTENTS)
          then Ok (mkRouteOut "help" (args out))
          else Ok out
      end
  end.

(** [router_prompt].  The braces of the system template are not doubled:
    [{plan, design, ...}] and the JSON sample are replacement fields.  The
    text is written with ['] for its double quotes. *)
Definition router_prompt : list (string * string) :=
  [ ("system",
      Py.quoted
        (Py.nl
         ++ "You are a strict router for a software-dev multi-agent system." ++ Py.nl
         ++ "Choose an intent from {plan, design, dev, tests, security, pr, status, help}."
         ++ Py.nl
         ++ "- plan: refine requirements and produce/patch PRD & tasks" ++ Py.nl
         ++ "- design: propose/patch RFC/ADR" ++ Py.nl
         ++ "- dev: implement or modify code/tests in small diffs" ++ Py.nl
         ++ "- tests: run lints & unit tests" ++ Py.nl
         ++ "- security: run dependency & secrets scan" ++ Py.nl
         ++ "- pr: assemble or update a pull request summary" ++ Py.nl
         ++ "- status: summarize current state" ++ Py.nl
         ++ "- help: explain available commands" ++ Py.nl
         ++ "Respond ONLY as JSON: {'intent':'...','args':{...}}" ++ Py.nl));
    ("human", "User: {text}" ++ Py.nl ++ "State summary: {state_summary}") ].

(** [route]: the prompt is formatted before the backend is asked, and an
    exception of the formatting leaves the function. *)
Definition route (w : World) (text : string) (state : BuildState) : Res RouteOut :=
  let state_summary := summarize_state state in
  match Prompt.format_messages router_prompt
          [("text", text); ("state_summary", state_summary)] with
  | Prompt.Failed e => Raise e
  | Prompt.Formatted _ | Prompt.Unmodelled =>
      route_raw w (chat w None [text; state_summary])
  end.

End Router.

(** ** agents/architect.py, agents/dev.py and the pull-request step *)

Definition architect_node (w : World) (state : BuildState) : M BuildState :=
  let repo := Py.take 4000 (repo_summary w (repo_path state)) in
  let out := chat w (Some "architecture") [prd state; repo] in
  let state := set_rfc state out in
  ret (log state "Architect: RFC produced").

(** [ensure_branch] of tools/git_tools.py *)
Definition ensure_branch (w : World) (repo name : string) : M string :=
  _ <- Shell.run w ["git"; "rev-parse"; "--abbrev-ref"; "HEAD"] repo ;;
  _ <- Shell.run w ["git"; "checkout"; "-B"; name] repo ;;
  ret name.

(** [dev_node].  After the counter is updated and the first log line is
    written, the body (analysis, generation, file writes, dependency set-up,
    all inside [try ... except Exception], with a handler that writes the
    fallback files and catches its own failures) touches the state only
    through [state["logs"].append]; the lines it appends are
    [dev_phase_logs].  The commands of that phase are not recorded. *)
Definition dev_node (w : World) (state : BuildState) : M BuildState :=
  let repo := repo_path state in
  state <- (if String.eqb (branch state) ""
            then b <- ensure_branch w repo "feat/auto-agent" ;; ret (set_branch state b)
            else ret state) ;;
  let attempts := get_dev_attempts state + 1 in
  let state := set_dev_attempts state attempts in
  let state := log state ("Dev: Starting development (attempt "
                            ++ Py.str_of_Z attempts ++ ")") in
  ret (log_all state (dev_phase_logs w)).

(** Modelled from the spec: [pr_node] of agents/pr_agent.py, which is not
    among the sources.  The spec has the pull-request reference empty until
    it is assembled by this step, every step append to the log, and the
    implement step alone change the attempt counter. *)
Definition pr_node (w : World) (state : BuildState) : M BuildState :=
  let state := set_pr_url state (pr_reference w) in
  ret (log state (pr_log_entry w)).

(** ** graph.py *)

Inductive Node : Type := plan | design | dev | tests | security | pr.

Definition run_node (w : World) (n : Node) (state : BuildState) : M BuildState :=
  match n with
  | plan => Planner.planner_node w state
  | design => architect_node w state
  | dev => dev_node w state
  | tests => tests_node w state
  | security => security_node w state
  | pr => pr_node w state
  end.

Definition dev_to_tests (state : BuildState) : Node := tests.

(** The two routing functions: the node to go to, and the state after the
    [state["logs"].append] of the ceiling branch. *)
Definition tests_next (state : BuildState) : Node * BuildState :=
  let attempts := get_dev_attempts state in
  if 3 <=? attempts then
    (security, log state "Max dev attempts reached, proceeding to security")
  else
    (if tests_ok state && lint_ok state then security else dev, state).

Definition sec_next (state : BuildState) : Node * BuildState :=
  let attempts := get_dev_attempts state in
  if 3 <=? attempts then
    (pr, log state "Max dev attempts reached, proceeding to PR")
  else
    (if sec_ok state then pr else dev, state).

(** The edge out of a node; [None] is [END]. *)
Definition next_node (n : Node) (state : BuildState) : option Node * BuildState :=
  match n with
  | plan => (Some design, state)
  | design => (Some dev, state)
  | dev => (Some (dev_to_tests state), state)
  | tests => let (n', s') := tests_next state in (Some n', s')
  | security => let (n', s') := sec_next state in (Some n', s')
  | pr => (None, state)
  end.

(** How a run ends. *)
Inductive Ending : Type :=
| Finished (final : BuildState)
| Aborted (e : Exn)
| RecursionLimit.

(** A run: the nodes executed, each with the state it returned, and the
    ending. *)
Record Run : Type := mkRun {
  executed : list (Node * BuildState);
  ending : Ending
}.

(** The traversal of the compiled graph: [worlds k] is the outside world
    during the [k]-th step execution, [limit] the number of step executions
    still allowed. *)
Fixpoint traverse (limit : nat) (worlds : nat -> World) (k : nat) (n : Node)
  (state : BuildState) : Run :=
  match limit with
  | O => mkRun [] RecursionLimit
  | S limit' =>
      match result_of (run_node (worlds k) n state) with
      | Raise e => mkRun [] (Aborted e)
      | Ok state' =>
          match next_node n state' with
          | (None, final) => mkRun [(n, state')] (Finished final)
          | (Some n', state'') =>
              let rest := traverse limit' worlds (S k) n' state'' in
              mkRun ((n, state') :: executed rest) (ending rest)
          end
      end
  end.

(** The default [recursion_limit] of a compiled graph. *)
Definition recursion_limit : nat := 25.

(** [build_graph().invoke(state)] *)
Definition invoke (worlds : nat -> World) (state : BuildState) : Run :=
  traverse recursion_limit worlds 0 plan state.


(** ** tools/hf.py: the choice and the construction of a chat model *)

Module Hf.

(** What hf.py reads from its environment: [os.environ.get] (and
    [os.getenv]), whether the local Ollama server answers
    [GET /api/tags] with status 200 within the timeout (any exception counts
    as no), and whether [langchain_openai] can be imported. *)
Record Env : Type := mkEnv {
  environ : string -> option string;
  ollama_answers : bool;
  openai_importable : bool
}.

(** The exceptions hf.py raises itself. *)
Inductive Error : Type :=
| ValueError (msg : string)
| NotImplementedError (msg : string).

(** A configuration dict: its values are strings, floats and ints, for
    which the values of the [json] module serve. *)
Definition Config : Type := list (string * Json.value).

Definition hf_config (model_id temperature : string) (max_new_tokens : Z) : Config :=
  [ ("provider", Json.JStr "huggingface"); ("model_id", Json.JStr model_id);
    ("temperature", Json.JFloat temperature);
    ("max_new_tokens", Json.JInt max_new_tokens) ].

Definition other_config (provider model_id temperature : string) (max_tokens : Z)
  : Config :=
  [ ("provider", Json.JStr provider); ("model_id", Json.JStr model_id);
    ("temperature", Json.JFloat temperature); ("max_tokens", Json.JInt max_tokens) ].

Definition MODEL_CONFIGS : list (string * Config) :=
  [ ("default", hf_config "meta-llama/Meta-Llama-3.1-8B-Instruct" "0.2" 1024);
    ("planning", hf_config "meta-llama/Meta-Llama-3.1-70B-Instruct" "0.3" 2048);
    ("coding", hf_config "meta-llama/Meta-Llama-3.1-8B-Instruct" "0.1" 4096);
    ("architecture", hf_config "meta-llama/Meta-Llama-3.1-8B-Instruct" "0.2" 1536);
    ("mistral", hf_config "mistralai/Mistral-7B-Instruct-v0.1" "0.2" 1024);
    ("codellama", hf_config "codellama/CodeLlama-13b-Instruct-hf" "0.1" 2048);
    ("gemma", hf_config "google/gemma-7b-it" "0.3" 1024);
    ("python_coding", hf_config "meta-llama/Meta-Llama-3.1-8B-Instruct" "0.1" 4096);
    ("javascript_coding",
      hf_config "meta-llama/Meta-Llama-3.1-8B-Instruct" "0.1" 4096);
    ("csharp_coding", hf_config "meta-llama/Meta-Llama-3.1-8B-Instruct" "0.1" 4096);
    ("openai_gpt4", other_config "openai" "gpt-4" "0.2" 1024);
    ("openai_gpt35", other_config "openai" "gpt-3.5-turbo" "0.2" 1024);
    ("anthropic_claude", other_config "anthropic" "claude-3-sonnet-20240229" "0.2" 1024);
    ("anthropic_haiku", other_config "anthropic" "claude-3-haiku-20240307" "0.2" 1024);
    ("ollama_codellama", other_config "ollama" "codellama:13b" "0.1" 4096);
    ("ollama_mistral", other_config "ollama" "mistral:7b" "0.2" 2048) ].

Definition LANGUAGE_MODEL_PREFERENCES : list (string * list string) :=
  [ ("python", ["python_coding"; "coding"; "default"]);
    ("javascript", ["javascript_coding"; "coding"; "default"]);
    ("typescript", ["javascript_coding"; "coding"; "default"]);
    ("csharp", ["csharp_coding"; "coding"; "default"]);
    ("java", ["coding"; "default"]);
    ("go", ["coding"; "default"]);
    ("rust", ["coding"; "default"]);
    ("cpp", ["coding"; "default"]);
    ("c", ["coding"; "default"]) ].

Definition TASK_MODEL_FALLBACKS : list (string * list string) :=
  [ ("coding", ["coding"; "python_coding"; "javascript_coding"; "default"]);
    ("planning", ["planning"; "architecture"; "default"]);
    ("architecture", ["architecture"; "planning"; "default"]);
    ("general", ["default"]) ].

(** [bool(v)] for an optional string: [None] and the empty string are
    false. *)
Definition truthy (v : option string) : bool :=
  match v with
  | Some (String _ _) => true
  | _ => false
  end.

(** [config["provider"]]; every configuration has the key, with a string. *)
Definition provider_of (config : Config) : string :=
  match Json.dict_get config "provider" with
  | Some (Json.JStr p) => p
  | _ => ""
  end.

Definition is_provider_available (env : Env) (provider : string) : bool :=
  if String.eqb provider "huggingface"
  then truthy (environ env "HUGGINGFACEHUB_API_TOKEN")
  else if String.eqb provider "openai" then truthy (environ env "OPENAI_API_KEY")
  else if String.eqb provider "anthropic"
  then truthy (environ env "ANTHROPIC_API_KEY")
  else if String.eqb provider "ollama" then ollama_answers env
  else false.

(** The loop [for model_config in names: if ... return model_config]. *)
Fixpoint first_available (env : Env) (names : list string) : option string :=
  match names with
  | [] => None
  | model_config :: rest =>
      match LanguageDetector.assoc MODEL_CONFIGS model_config with
      | Some config =>
          if is_provider_available env (provider_of config)
          then Some model_config
          else first_available env rest
      | None => first_available env rest
      end
  end.

Definition select_best_model_for_language (env : Env) (language task : string)
  : string :=
  let by_language :=
    match LanguageDetector.assoc LANGUAGE_MODEL_PREFERENCES language with
    | Some names => first_available env names
    | None => None
    end in
  match by_language with
  | Some model_config => model_config
  | None =>
      let by_task :=
        match LanguageDetector.assoc TASK_MODEL_FALLBACKS task with
        | Some names => first_available env names
        | None => None
        end in
      match by_task with
      | Some model_config => model_config
      | None => "default"
      end
  end.

(** [dict.update] *)
Definition update (config other : Config) : Config :=
  fold_left (fun d kv => Json.dict_set d (fst kv) (snd kv)) other config.

(** [str(list(d.keys()))] for keys without quotes or backslashes. *)
Definition keys_text {A : Type} (d : list (string * A)) : string :=
  "[" ++ Py.join ", " (map (fun kv => "'" ++ fst kv ++ "'") d) ++ "]".

(** The chat model a factory builds, by the arguments of its constructor:
    [ChatHuggingFace(llm=HuggingFaceEndpoint(repo_id, temperature,
    max_new_tokens, huggingfacehub_api_token))] or
    [ChatOpenAI(model, temperature, max_tokens, api_key)].  What the
    constructors of the two libraries do with them is outside the sources. *)
Inductive Chat : Type :=
| ChatHuggingFace (repo_id temperature max_new_tokens : option Json.value)
    (huggingfacehub_api_token : string)
| ChatOpenAI (model temperature : option Json.value) (max_tokens : Json.value)
    (api_key : option string).

Definition _create_huggingface_chat (env : Env) (config : Config)
  : Error + Chat :=
  match environ env "HUGGINGFACEHUB_API_TOKEN" with
  | Some (String c rest) =>
      inr (ChatHuggingFace (Json.dict_get config "model_id")
             (Json.dict_get config "temperature")
             (Json.dict_get config "max_new_tokens") (String c rest))
  | _ =>
      inl (ValueError
             ("HUGGINGFACEHUB_API_TOKEN environment variable is required. "
              ++ "Please set it in your .env file or environment."))
  end.

Definition _create_openai_chat (env : Env) (config : Config) : Error + Chat :=
  if openai_importable env
  then inr (ChatOpenAI (Json.dict_get config "model_id")
              (Json.dict_get config "temperature")
              (match Json.dict_get config "max_tokens" with
               | Some v => v
               | None => Json.JInt 1024
               end)
              (environ env "OPENAI_API_KEY"))
  else inl (NotImplementedError
              ("OpenAI provider requires langchain-openai. "
               ++ "Install with: pip install langchain-openai")).

Definition _create_anthropic_chat (env : Env) (config : Config) : Error + Chat :=
  inl (NotImplementedError
         ("Anthropic provider not yet implemented. "
          ++ "Add langchain-anthropic to requirements.txt")).

Definition PROVIDER_FACTORIES : list (string * (Env -> Config -> Error + Chat)) :=
  [ ("huggingface", _create_huggingface_chat); ("openai", _create_openai_chat);
    ("anthropic", _create_anthropic_chat) ].

(** The configuration [make_chat] hands to the factory.  [model_config],
    [model_id] and [provider] are the three named parameters; [kwargs]
    holds the further keyword arguments, none of which can have one of
    these three names. *)
Definition resolve_config (env : Env) (model_config model_id provider : option string)
  (kwargs : Config) : Error + Config :=
  let config := match LanguageDetector.assoc MODEL_CONFIGS "default" with
                | Some c => c
                | None => []
                end in
  let named :=
    match model_config with
    | Some (String c rest) =>
        match LanguageDetector.assoc MODEL_CONFIGS (String c rest) with
        | Some chosen => inr (update config chosen)
        | None =>
            inl (ValueError ("Unknown model config: " ++ String c rest
                             ++ ". Available: " ++ keys_text MODEL_CONFIGS))
        end
    | _ => inr config
    end in
  match named with
  | inl e => inl e
  | inr config =>
      let config :=
        match environ env "HF_MODEL_ID" with
        | Some (String c rest) =>
            if negb (truthy model_config)
            then Json.dict_set config "model_id" (Json.JStr (String c rest))
            else config
        | _ => config
        end in
      let config :=
        match model_id with
        | Some (String c rest) =>
            Json.dict_set config "model_id" (Json.JStr (String c rest))
        | _ => config
        end in
      let config :=
        match provider with
        | Some (String c rest) =>
            Json.dict_set config "provider" (Json.JStr (String c rest))
        | _ => config
        end in
      inr (update config kwargs)
  end.

Definition make_chat (env : Env) (model_config model_id provider : option string)
  (kwargs : Config) : Error + Chat :=
  match resolve_config env model_config model_id provider kwargs with
  | inl e => inl e
  | inr config =>
      let provider_name := provider_of config in
      match LanguageDetector.assoc PROVIDER_FACTORIES provider_name with
      | None =>
          inl (ValueError ("Unknown provider: " ++ provider_name
                           ++ ". Available: " ++ keys_text PROVIDER_FACTORIES))
      | Some factory => factory env config
      end
  end.

(** [make_chat_for_language]; the keyword arguments it forwards are given
    as for [make_chat]. *)
Definition make_chat_for_language (env : Env) (language task : string)
  (model_config model_id provider : option string) (kwargs : Config)
  : Error + Chat :=
  let model_config :=
    if truthy model_config then model_config
    else Some (select_best_model_for_language env language task) in
  make_chat env model_config model_id provider kwargs.

End Hf.

(** ** [json.dumps(value, indent=...)] *)

Module JsonDump.

Definition hex_digit (n : N) : ascii :=
  if (n <? 10)%N then ascii_of_N (48 + n) else ascii_of_N (87 + n).

(** The escape of one character of a string, for ASCII text
    ([ensure_ascii] is on; the strings the sources dump are ASCII). *)
Definition escape_char (c : ascii) : string :=
  let n := N_of_ascii c in
  (if n =? 34 then String "\"%char Py.dq               (* quote *)
   else if n =? 92 then "\\"                          (* backslash *)
   else if n =? 10 then "\n"
   else if n =? 13 then "\r"
   else if n =? 9 then "\t"
   else if n =? 8 then "\b"
   else if n =? 12 then "\f"
   else if (n <? 32) || (n =? 127) then
     "\u00" ++ String (hex_digit (n / 16)) (String (hex_digit (n mod 16)) "")
   else String c "")%N.

Fixpoint escape (s : string) : string :=
  match s with
  | EmptyString => EmptyString
  | String c s' => escape_char c ++ escape s'
  end.

Definition encode_string (s : string) : string := Py.dq ++ escape s ++ Py.dq.

Fixpoint spaces (n : nat) : string :=
  match n with
  | O => EmptyString
  | S n' => String " "%char (spaces n')
  end.

(** The text of a value at nesting depth [level]: items and members on
    lines of their own, indented by [indent] blanks per level; an empty list
    or dict on one line.  A float is written with the text of its literal
    (the sources dump no float). *)
Fixpoint dumps_at (indent level : nat) (v : Json.value) {struct v} : string :=
  let inner := Py.nl ++ spaces (indent * S level) in
  let outer := Py.nl ++ spaces (indent * level) in
  match v with
  | Json.JNull => "null"
  | Json.JBool true => "true"
  | Json.JBool false => "false"
  | Json.JInt z => Py.str_of_Z z
  | Json.JFloat literal => literal
  | Json.JStr s => encode_string s
  | Json.JArr [] => "[]"
  | Json.JArr items =>
      "[" ++ inner
      ++ Py.join ("," ++ inner) (map (dumps_at indent (S level)) items)
      ++ outer ++ "]"
  | Json.JObj [] => "{}"
  | Json.JObj members =>
      "{" ++ inner
      ++ Py.join ("," ++ inner)
           (map (fun kv => encode_string (fst kv) ++ ": "
                           ++ dumps_at indent (S level) (snd kv)) members)
      ++ outer ++ "}"
  end.

(** [json.dumps(v, indent=indent)] *)
Definition dumps (indent : nat) (v : Json.value) : string := dumps_at indent 0 v.

End JsonDump.

(** ** tools/dependency_manager.py *)

Module DependencyManager.

(** [write_file_content(repo_path, file_path, content)] of
    tools/file_operations.py for a [str] content: whether the file could be
    written ([False] stands for any exception of the write, which the
    function catches). *)
Record Files : Type := mkFiles {
  write_file_content : string -> string -> string -> bool
}.

Definition lines (ls : list string) : string := Py.join Py.nl ls.

Definition create_python_requirements (files : Files) (repo_path : string)
  (frameworks : list string) : bool :=
  let requirements := [] in
  let requirements :=
    if Py.mem "fastapi" frameworks
    then (requirements
          ++ ["fastapi>=0.100.0"; "uvicorn[standard]>=0.23.0"; "pydantic>=2.0.0"])%list
    else requirements in
  let requirements :=
    if Py.mem "flask" frameworks
    then (requirements ++ ["flask>=2.3.0"; "werkzeug>=2.3.0"])%list
    else requirements in
  let requirements :=
    if Py.mem "django" frameworks
    then (requirements ++ ["django>=4.2.0"; "djangorestframework>=3.14.0"])%list
    else requirements in
  let requirements :=
    (requirements ++ ["pytest>=7.4.0"; "pytest-asyncio>=0.21.0"])%list in
  let requirements :=
    if Py.mem "fastapi" frameworks
    then (requirements ++ ["httpx>=0.24.0"])%list
    else requirements in
  let content := Py.join Py.nl requirements ++ Py.nl in
  write_file_content files repo_path "requirements.txt" content.

(** The dict [package_data] when it is dumped. *)
Definition package_data (frameworks : list string) (language : string)
  : Json.value :=
  let str := Json.JStr in
  let scripts :=
    [ ("start", str (if String.eqb language "javascript"
                     then "node index.js" else "node dist/index.js"));
      ("test", str "jest");
      ("build", str (if String.eqb language "typescript"
                     then "tsc" else "echo 'No build step needed'")) ] in
  let dependencies := [] in
  let devDependencies := [] in
  let dependencies :=
    if Py.mem "express" frameworks
    then Json.dict_set dependencies "express" (str "^4.18.0") else dependencies in
  let devDependencies :=
    if Py.mem "express" frameworks
    then Json.dict_set devDependencies "@types/express" (str "^4.17.0")
    else devDependencies in
  let dependencies :=
    if Py.mem "react" frameworks
    then Json.dict_set (Json.dict_set dependencies "react" (str "^18.2.0"))
           "react-dom" (str "^18.2.0")
    else dependencies in
  let devDependencies :=
    if Py.mem "react" frameworks
    then Json.dict_set (Json.dict_set devDependencies "@types/react" (str "^18.2.0"))
           "@types/react-dom" (str "^18.2.0")
    else devDependencies in
  let dependencies :=
    if Py.mem "next" frameworks
    then Json.dict_set dependencies "next" (str "^14.0.0") else dependencies in
  let scripts :=
    if Py.mem "next" frameworks
    then Json.dict_set
           (Json.dict_set (Json.dict_set scripts "dev" (str "next dev"))
              "build" (str "next build"))
           "start" (str "next start")
    else scripts in
  let devDependencies :=
    if String.eqb language "typescript"
    then Json.dict_set (Json.dict_set devDependencies "typescript" (str "^5.0.0"))
           "@types/node" (str "^20.0.0")
    else devDependencies in
  let devDependencies := Json.dict_set devDependencies "jest" (str "^29.0.0") in
  Json.JObj
    [ ("name", str "generated-project"); ("version", str "1.0.0");
      ("description", str "Generated project");
      ("main", str (if String.eqb language "javascript"
                    then "index.js" else "dist/index.js"));
      ("scripts", Json.JObj scripts);
      ("dependencies", Json.JObj dependencies);
      ("devDependencies", Json.JObj devDependencies) ].

(** [create_package_json]: an existing package.json that mentions React is
    kept as it is. *)
Definition create_package_json (w : World) (files : Files) (repo_path : string)
  (frameworks : list string) (language : string) : bool :=
  let existing_content :=
    LanguageDetector.read_file_content (listing w repo_path) "package.json" in
  if path_exists w (path_join repo_path "package.json")
     && negb (String.eqb existing_content "")
     && (Py.contains "react" existing_content
         || Py.contains "react-scripts" existing_content)
  then true
  else write_file_content files repo_path "package.json"
         (JsonDump.dumps 2 (package_data frameworks language)).

Definition create_csproj (files : Files) (repo_path : string)
  (frameworks : list string) : bool :=
  let project_type :=
    if existsb (fun f => Py.mem f ["asp.net"; "blazor"; "mvc"]) frameworks
    then "web" else "console" in
  let target_framework := "net8.0" in
  let csproj_content :=
    Py.quoted "<Project Sdk='Microsoft.NET.Sdk"
    ++ (if String.eqb project_type "web" then ".Web" else "")
    ++ Py.quoted "'>" ++ Py.nl
    ++ Py.nl
    ++ "  <PropertyGroup>" ++ Py.nl
    ++ "    <TargetFramework>" ++ target_framework ++ "</TargetFramework>" ++ Py.nl
    ++ "    <Nullable>enable</Nullable>" ++ Py.nl
    ++ "    <ImplicitUsings>enable</ImplicitUsings>" ++ Py.nl
    ++ "  </PropertyGroup>" ++ Py.nl
    ++ Py.nl
    ++ "  <ItemGroup>" ++ Py.nl in
  let csproj_content :=
    if Py.mem "asp.net" frameworks
    then csproj_content
         ++ Py.quoted "    <PackageReference Include='Microsoft.AspNetCore.OpenApi' Version='8.0.0' />"
         ++ Py.nl
         ++ Py.quoted "    <PackageReference Include='Swashbuckle.AspNetCore' Version='6.4.0' />"
         ++ Py.nl
    else csproj_content in
  let csproj_content :=
    csproj_content
    ++ Py.quoted "    <PackageReference Include='Microsoft.NET.Test.Sdk' Version='17.6.0' />"
    ++ Py.nl
    ++ Py.quoted "    <PackageReference Include='xunit' Version='2.4.2' />" ++ Py.nl
    ++ Py.quoted "    <PackageReference Include='xunit.runner.visualstudio' Version='2.4.5' />"
    ++ Py.nl in
  let csproj_content :=
    csproj_content ++ "  </ItemGroup>" ++ Py.nl ++ Py.nl ++ "</Project>" in
  write_file_content files repo_path "Project.csproj" csproj_content.

Definition create_pom_xml (files : Files) (repo_path : string)
  (frameworks : list string) : bool :=
  let pom_content :=
    lines
      [ Py.quoted "<?xml version='1.0' encoding='UTF-8'?>";
        Py.quoted "<project xmlns='http://maven.apache.org/POM/4.0.0'";
        Py.quoted "         xmlns:xsi='http://www.w3.org/2001/XMLSchema-instance'";
        Py.quoted "         xsi:schemaLocation='http://maven.apache.org/POM/4.0.0 ";
        Py.quoted "         http://maven.apache.org/xsd/maven-4.0.0.xsd'>";
        "    <modelVersion>4.0.0</modelVersion>";
        "";
        "    <groupId>com.example</groupId>";
        "    <artifactId>generated-project</artifactId>";
        "    <version>1.0.0</version>";
        "    <packaging>jar</packaging>";
        "";
        "    <properties>";
        "        <maven.compiler.source>17</maven.compiler.source>";
        "        <maven.compiler.target>17</maven.compiler.target>";
        "        <project.build.sourceEncoding>UTF-8</project.build.sourceEncoding>";
        "    </properties>";
        "";
        "    <dependencies>";
        "" ] in
  let pom_content :=
    if Py.mem "spring" frameworks || Py.mem "springboot" frameworks
    then pom_content
         ++ lines
              [ "        <dependency>";
                "            <groupId>org.springframework.boot</groupId>";
                "            <artifactId>spring-boot-starter-web</artifactId>";
                "            <version>3.1.0</version>";
                "        </dependency>";
                "        <dependency>";
                "            <groupId>org.springframework.boot</groupId>";
                "            <artifactId>spring-boot-starter-test</artifactId>";
                "            <version>3.1.0</version>";
                "            <scope>test</scope>";
                "        </dependency>";
                "" ]
    else pom_content in
  let pom_content :=
    pom_content
    ++ lines
         [ "        <dependency>";
           "            <groupId>junit</groupId>";
           "            <artifactId>junit</artifactId>";
           "            <version>4.13.2</version>";
           "            <scope>test</scope>";
           "        </dependency>";
           "    </dependencies>";
           "";
           "    <build>";
           "        <plugins>";
           "            <plugin>";
           "                <groupId>org.apache.maven.plugins</groupId>";
           "                <artifactId>maven-compiler-plugin</artifactId>";
           "                <version>3.11.0</version>";
           "            </plugin>";
           "        </plugins>";
           "    </build>";
           "</project>" ] in
  write_file_content files repo_path "pom.xml" pom_content.

Definition create_go_mod (files : Files) (repo_path : string)
  (frameworks : list string) : bool :=
  let go_mod_content := lines ["module generated-project"; ""; "go 1.21"; ""] in
  let go_mod_content :=
    match frameworks with
    | [] => go_mod_content
    | _ =>
        let go_mod_content := go_mod_content ++ Py.nl ++ "require (" ++ Py.nl in
        let go_mod_content :=
          if Py.mem "gin" frameworks
          then go_mod_content ++ "    github.com/gin-gonic/gin v1.9.1" ++ Py.nl
          else go_mod_content in
        let go_mod_content :=
          if Py.mem "echo" frameworks
          then go_mod_content ++ "    github.com/labstack/echo/v4 v4.11.1" ++ Py.nl
          else go_mod_content in
        go_mod_content ++ ")" ++ Py.nl
    end in
  write_file_content files repo_path "go.mod" go_mod_content.

Definition create_cargo_toml (files : Files) (repo_path : string)
  (frameworks : list string) : bool :=
  let cargo_content :=
    lines
      [ "[package]"; Py.quoted "name = 'generated-project'";
        Py.quoted "version = '0.1.0'"; Py.quoted "edition = '2021'"; "";
        "[dependencies]"; "" ] in
  let tokio :=
    Py.quoted "tokio = { version = '1.0', features = ['full'] }" ++ Py.nl in
  let cargo_content :=
    if Py.mem "actix" frameworks
    then cargo_content ++ Py.quoted "actix-web = '4.4'" ++ Py.nl ++ tokio
    else if Py.mem "warp" frameworks
    then cargo_content ++ Py.quoted "warp = '0.3'" ++ Py.nl ++ tokio
    else cargo_content in
  write_file_content files repo_path "Cargo.toml" cargo_content.

Definition create_dependency_file (w : World) (files : Files) (repo_path : string)
  (project_analysis : ProjectProfile) : bool :=
  let language := primary_language project_analysis in
  let frameworks := frameworks project_analysis in
  if String.eqb language "python"
  then create_python_requirements files repo_path frameworks
  else if Py.mem language ["javascript"; "typescript"]
  then create_package_json w files repo_path frameworks language
  else if String.eqb language "csharp" then create_csproj files repo_path frameworks
  else if String.eqb language "java" then create_pom_xml files repo_path frameworks
  else if String.eqb language "go" then create_go_mod files repo_path frameworks
  else if String.eqb language "rust"
  then create_cargo_toml files repo_path frameworks
  else false.

Definition setup_python_deps (w : World) (repo_path : string) : M (Z * string) :=
  let venv_path := path_join repo_path "venv" in
  let install :=
    let pip_path :=
      if os_is_nt w then path_join (path_join venv_path "Scripts") "pip"
      else path_join (path_join venv_path "bin") "pip" in
    Shell.run w [pip_path; "install"; "-r"; "requirements.txt"] repo_path in
  if negb (path_exists w venv_path)
  then r <- Shell.run w ["python"; "-m"; "venv"; "venv"] repo_path ;;
       if negb (fst r =? 0)
       then ret (fst r, "Failed to create venv: " ++ snd r)
       else install
  else install.

Definition setup_node_deps (w : World) (repo_path : string) : M (Z * string) :=
  if negb (path_exists w (path_join repo_path "package.json"))
  then ret (0, "No package.json found")
  else if path_exists w (path_join repo_path "yarn.lock")
  then Shell.run w ["yarn"; "install"] repo_path
  else Shell.run w ["npm"; "install"] repo_path.

Definition setup_dotnet_deps (w : World) (repo_path : string) : M (Z * string) :=
  Shell.run w ["dotnet"; "restore"] repo_path.

Definition setup_java_deps (w : World) (repo_path : string) : M (Z * string) :=
  if path_exists w (path_join repo_path "pom.xml")
  then Shell.run w ["mvn"; "compile"] repo_path
  else if path_exists w (path_join repo_path "build.gradle")
  then Shell.run w ["gradle"; "build"] repo_path
  else ret (0, "No Maven or Gradle build file found").

Definition setup_go_deps (w : World) (repo_path : string) : M (Z * string) :=
  if path_exists w (path_join repo_path "go.mod")
  then Shell.run w ["go"; "mod"; "tidy"] repo_path
  else ret (0, "No go.mod found").

Definition setup_rust_deps (w : World) (repo_path : string) : M (Z * string) :=
  if path_exists w (path_join repo_path "Cargo.toml")
  then Shell.run w ["cargo"; "build"] repo_path
  else ret (0, "No Cargo.toml found").

Definition setup_project_dependencies (w : World) (files : Files)
  (repo_path : string) (project_analysis : ProjectProfile) : M (Z * string) :=
  let language := primary_language project_analysis in
  try_except
    (if negb (create_dependency_file w files repo_path project_analysis)
     then ret (1, "Failed to create dependency file")
     else if String.eqb language "python" then setup_python_deps w repo_path
     else if Py.mem language ["javascript"; "typescript"]
     then setup_node_deps w repo_path
     else if String.eqb language "csharp" then setup_dotnet_deps w repo_path
     else if String.eqb language "java" then setup_java_deps w repo_path
     else if String.eqb language "go" then setup_go_deps w repo_path
     else if String.eqb language "rust" then setup_rust_deps w repo_path
     else ret (0, "No dependency setup available for " ++ language))
    (on_exception (fun e => (1, "Error setting up dependencies: " ++ exn_str e))).

End DependencyManager.

(** ** tools/language_detector.py: the language a request names *)

Module RequestLanguage.















End RequestLanguage.
(** * Vocabulary of the properties *)

(** What holds of the value a computation returns, when it returns. *)
Definition on_return {A : Type} (m : M A) (P : A -> Prop) : Prop :=
  match result_of m with
  | Ok a => P a
  | Raise _ => True
  end.

(** A computation that returns whatever the world does. *)
Definition returns {A : Type} (m : M A) : Prop :=
  exists a, result_of m = Ok a.

Definition never_raises (r : CodeRunner.Runner) : Prop :=
  forall w repo pa, returns (r w repo pa).

(** [s'] is [s] but for the three verification flags and for [extra] log
    entries added at the end. *)
Definition framed (s s' : BuildState) (extra : list string) : Prop :=
  request s' = request s /\ repo_path s' = repo_path s /\ prd s' = prd s
  /\ rfc s' = rfc s /\ tasks s' = tasks s /\ branch s' = branch s
  /\ pr_url s' = pr_url s /\ dev_attempts s' = dev_attempts s
  /\ logs s' = (logs s ++ extra)%list.

Definition is_dev (n : Node) : bool :=
  match n with dev => true | _ => false end.

(** The counter values after each executed step. *)
Definition attempts_of (r : Run) : list Z :=
  map (fun p => get_dev_attempts (snd p)) (executed r).

Fixpoint nondecreasing_from (a : Z) (l : list Z) : Prop :=
  match l with
  | [] => True
  | x :: rest => a <= x /\ nondecreasing_from x rest
  end.

(** The edges of the compiled graph. *)
Definition edge (n n' : Node) : bool :=
  match n, n' with
  | plan, design | design, dev | dev, tests
  | tests, security | tests, dev | security, pr | security, dev => true
  | _, _ => false
  end.

(** Consecutive nodes of a trace are joined by an edge. *)
Fixpoint chained (l : list Node) : bool :=
  match l with
  | n :: ((n' :: _) as rest) => edge n n' && chained rest
  | _ => true
  end.

Definition node_eqb (n n' : Node) : bool :=
  match n, n' with
  | plan, plan | design, design | dev, dev | tests, tests
  | security, security | pr, pr => true
  | _, _ => false
  end.

(** A trace that is empty, or starts at [n] and follows the edges. *)
Definition path_from (n : Node) (l : list Node) : bool :=
  match l with
  | [] => true
  | x :: _ => node_eqb x n && chained l
  end.

(** The number of entries into the dev step. *)
Fixpoint count_dev (l : list Node) : nat :=
  match l with
  | [] => O
  | n :: rest => (if is_dev n then 1 else 0) + count_dev rest
  end.

(** The number of step executions a traversal that is about to execute [n]
    with the counter at [a] can still make. *)
Definition steps_from (n : Node) (a : Z) : nat :=
  let more := (3 * Z.to_nat (2 - a))%nat in
  match n with
  | plan => 6 + more
  | design => 5 + more
  | dev => 4 + more
  | tests => if (3 <=? a)%Z then 3 else 6 + more
  | security => if (3 <=? a)%Z then 2 else 5 + more
  | pr => 1
  end%nat.

(** The number of entries into dev such a traversal can still make, and
    the number it makes at least before it finishes. *)
Definition dev_entries_from (n : Node) (a : Z) : nat :=
  match n with
  | plan | design | dev => 1 + Z.to_nat (2 - a)
  | tests | security => Z.to_nat (3 - a)
  | pr => 0
  end%nat.

Definition dev_entries_before_end (n : Node) : nat :=
  match n with
  | plan | design | dev => 1
  | _ => 0
  end.

(** What a traversal from [n] with the counter at [a] guarantees. *)
Definition bounded_run (n : Node) (a : Z) (r : Run) : Prop :=
  ending r <> RecursionLimit
  /\ (List.length (executed r) <= steps_from n a)%nat
  /\ path_from n (map fst (executed r)) = true
  /\ (count_dev (map fst (executed r)) <= dev_entries_from n a)%nat
  /\ match ending r with
     | Finished final =>
         last (map fst (executed r)) plan = pr
         /\ (dev_entries_before_end n <= count_dev (map fst (executed r)))%nat
         /\ get_dev_attempts final
            = a + Z.of_nat (count_dev (map fst (executed r)))
     | _ => True
     end.

(** ** Sample worlds and states *)

Definition completes_with (rc : Z) (inv : Invocation) : Res CompletedProcess :=
  Ok (mkCompleted rc "" "").

(** Every command succeeds, except [pip-audit], which exits with 1. *)
Definition audit_fails (inv : Invocation) : Res CompletedProcess :=
  match inv_cmd inv with
  | "pip-audit" :: _ => Ok (mkCompleted 1 "" "")
  | _ => Ok (mkCompleted 0 "" "")
  end.

(** No command is installed. *)
Definition tool_missing (inv : Invocation) : Res CompletedProcess :=
  Raise (FileNotFoundError "[Errno 2] No such file or directory").

Definition sample_world (proc : Invocation -> Res CompletedProcess)
  (tree : list Entry) (answer : string) : World :=
  mkWorld proc (fun _ => false) false (fun _ => tree) (fun _ _ => answer)
    (fun _ => "") [] "pull/1" "PR: assembled"
    (fun _ => "Expecting value") (fun _ => "").

Definition python_tree : list Entry := [File "app.py" "print(1)"].

Definition rust_tree : list Entry :=
  [File "Cargo.toml" "[package]"; Dir "src" [File "main.rs" "fn main() {}"]].

Definition sample_state : BuildState := initial "add a health check" "/repo".

(** Every command exits with 1. *)
Definition all_fail (inv : Invocation) : Res CompletedProcess :=
  Ok (mkCompleted 1 "" "").

(** ** Vocabulary of the dispatch properties *)



Definition runners_languages : list string :=
  ["python"; "javascript"; "typescript"; "csharp"; "java"; "go"; "rust"].




(** Every command the computation starts carries a timeout between 30 and
    180 seconds. *)
Definition timed {A : Type} (m : M A) : Prop :=
  Forall (fun i => exists t, inv_timeout i = Some t /\ 30 <= t <= 180)
    (invocations m).

(** The one command of the security step. *)
Definition audit_invocation (w : World) (repo : string) : Invocation :=
  mkInvocation
    (if path_exists w (path_join repo "requirements.txt")
     then ["pip-audit"; "-r"; "requirements.txt"] else ["pip-audit"])
    repo None.

(** A directory with no source file of a known language. *)
Definition docs_tree : list Entry := [File "README.md" "notes"].

(** ** Vocabulary of the recovery properties *)

(** Values that are not objects (dicts). *)
Definition not_object (v : Json.value) : Prop :=
  match v with
  | Json.JObj _ => False
  | _ => True
  end.

(** An entry of the task list that carries no identifier of its own:
    anything but a dict with a [task_id] or an [id] key. *)
Definition no_own_id (v : Json.value) : Prop :=
  match v with
  | Json.JObj t => Json.dict_get t "task_id" = None /\ Json.dict_get t "id" = None
  | _ => True
  end.

(** The identifiers [task1], ..., [task<n>]. *)
Definition synthesized_ids (n : nat) : list string :=
  map (fun k => "task" ++ Py.str_of_nat k) (seq 1 n).

(** The data the planning step converts: what its recovery block gives for
    the answer of the backend (the parsed answer, the parsed extraction or
    the fallback). *)
Definition planner_data (w : World) (state : BuildState) : Json.value :=
  fst (Planner.recover w state (chat w (Some "planning") [request state])).

(** The dicts among the entries of the task list, in order: the entries
    the conversion keeps.  A dict and a string are walked by their keys and
    their characters, none of which is a dict. *)
Definition task_entries (v : Json.value) : list (list (string * Json.value)) :=
  match v with
  | Json.JArr items =>
      flat_map (fun item => match item with
                            | Json.JObj entry => [entry]
                            | _ => []
                            end) items
  | _ => []
  end.

(** The identifier of the [k]-th kept entry, counting from 1: its
    [task_id] when it has one, else its [id], each as [str] writes it, else
    [task<k>]. *)
Definition expected_id (w : World) (k : nat) (entry : list (string * Json.value))
  : string :=
  match Json.dict_get entry "task_id", Json.dict_get entry "id" with
  | Some v, _ => Planner.py_str w v
  | None, Some v => Planner.py_str w v
  | None, None => "task" ++ Py.str_of_nat k
  end.

(** A scanner that consumes at least one character of what it accepts. *)
Definition consumes (scan : string -> option (Json.value * string)) : Prop :=
  forall t v r, scan t = Some (v, r) -> (String.length r < String.length t)%nat.

(** ** Vocabulary of the analyzer properties *)

Definition entry_name (e : Entry) : string :=
  match e with
  | File n _ => n
  | Dir n _ => n
  end.

(** Pointwise comparison of two lists. *)
Definition all2 {A : Type} (f : A -> A -> bool) : list A -> list A -> bool :=
  fix go (l1 l2 : list A) : bool :=
    match l1, l2 with
    | [], [] => true
    | a :: l1', b :: l2' => f a b && go l1' l2'
    | _, _ => false
    end.

(** Two entries that differ at most in what lies inside excluded
    directories: equal files; directories of the same name whose entries
    correspond one to one, unless the name is in the denylist, in which case
    the contents are unconstrained. *)
Fixpoint same_outside_excluded (e1 e2 : Entry) {struct e1} : bool :=
  match e1, e2 with
  | File n c, File n' c' => String.eqb n n' && String.eqb c c'
  | Dir n entries, Dir n' entries' =>
      String.eqb n n'
      && (Py.mem n LanguageDetector.ignore_dirs
          || all2 same_outside_excluded entries entries')
  | _, _ => false
  end.

(** The same for the entries of two analyzed directories. *)
Definition differ_only_in_excluded (root1 root2 : list Entry) : bool :=
  all2 same_outside_excluded root1 root2.

(** No name of the tree holds a path separator. *)
Fixpoint names_ok (e : Entry) : bool :=
  match e with
  | File n _ => negb (Py.contains "/" n)
  | Dir n entries => negb (Py.contains "/" n) && forallb names_ok entries
  end.

(** A relative path, by components, whose directories are not excluded. *)
Fixpoint dirs_allowed (components : list string) : bool :=
  match components with
  | [] => true
  | [_] => true
  | n :: rest => negb (Py.mem n LanguageDetector.ignore_dirs) && dirs_allowed rest
  end.

(** A project with a dependency cache, and the same project after the cache
    has changed. *)
Definition node_project (modules : list Entry) : list Entry :=
  [ File "package.json" "{}";
    Dir "node_modules" modules;
    Dir "src" [File "index.js" "import express"; File "app.test.js" "test()"] ].

(** The sub-directory step of [walk]. *)
Definition walk_into (rel : list string) (c : Entry) : list (list string) :=
  match c with
  | Dir name _ =>
      if Py.mem name LanguageDetector.ignore_dirs then []
      else LanguageDetector.walk (rel ++ [name])%list c
  | File _ _ => []
  end.


(** ** Vocabulary of the further properties *)

(** Every command the computation starts satisfies [P]. *)
Definition every_invocation {A : Type} (P : Invocation -> Prop) (m : M A) : Prop :=
  Forall P (invocations m).

(** Every command is started in the directory [dir]. *)
Definition in_directory {A : Type} (dir : string) (m : M A) : Prop :=
  every_invocation (fun i => inv_cwd i = dir) m.

(** One syntax check of tools/code_runner.py. *)
Definition syntax_check (tool : list string) (repo file : string) : Invocation :=
  mkInvocation (tool ++ [file])%list repo (Some 30).

(** The command completes with exit code 0 in the world [w]. *)
Definition check_passes (w : World) (i : Invocation) : Prop :=
  exists p, subprocess w i = Ok p /\ returncode p = 0.

(** The exceptions other than [FileNotFoundError]. *)
Definition not_missing_command (e : Exn) : Prop :=
  match e with
  | FileNotFoundError _ => False
  | _ => True
  end.

(** A world in which starting any command raises [e]. *)
Definition commands_raise (e : Exn) (w : World) : World :=
  mkWorld (fun _ => Raise e)
    (path_exists w) (os_is_nt w) (listing w) (chat w) (repo_summary w)
    (dev_phase_logs w) (pr_reference w) (pr_log_entry w)
    (json_error_text w) (repr_text w).

(** A profile of the given primary language and source files. *)
Definition profile_of (language : string) (sources : list string) : ProjectProfile :=
  mkProfile language [] "unknown" [] [] [] [] sources [] [] false [].

(** ** Vocabulary of the further analyzer properties *)

(** The language the analyzer assigns to a listed file. *)
Definition language_of (file_path : string) : option string :=
  LanguageDetector.extension_to_language
    (LanguageDetector.get_file_extension file_path).

Definition is_source (file_path : string) : bool :=
  match language_of file_path with
  | Some _ => true
  | None => false
  end.

Definition has_language (lang file_path : string) : bool :=
  match language_of file_path with
  | Some l => String.eqb l lang
  | None => false
  end.

(** The number of listed files of a language. *)
Definition count_language (lang : string) (files : list string) : Z :=
  Z.of_nat (List.length (filter (has_language lang) files)).

(** [counts.get(lang, 0)] *)
Definition count_in (counts : list (string * Z)) (lang : string) : Z :=
  match LanguageDetector.assoc counts lang with
  | Some n => n
  | None => 0
  end.

(** The languages of the files that have one, in the order of the files. *)
Definition languages_of (files : list string) : list string :=
  flat_map (fun f => match language_of f with
                     | Some l => [l]
                     | None => []
                     end) files.

(** ** Vocabulary of the further orchestration properties *)

(** The request and the repository path are those of [s]. *)
Definition keeps_inputs (s s' : BuildState) : Prop :=
  request s' = request s /\ repo_path s' = repo_path s.

(** The verification flags and the pull-request reference are those of [s]. *)
Definition keeps_verdicts (s s' : BuildState) : Prop :=
  lint_ok s' = lint_ok s /\ tests_ok s' = tests_ok s /\ sec_ok s' = sec_ok s
  /\ pr_url s' = pr_url s.

(** The log of [s'] is the log of [s] with entries added at its end. *)
Definition extends_log (s s' : BuildState) : Prop :=
  exists extra, logs s' = (logs s ++ extra)%list.

(** The nodes a run executed, in order. *)
Definition nodes_of (r : Run) : list Node := map fst (executed r).

(** What the routing after the tests step looks at. *)
Definition tests_verdict (s : BuildState) : bool := tests_ok s && lint_ok s.

(** Every execution of the node [n] in the run returned a state that
    satisfies [P]. *)
Definition every_step (n : Node) (P : BuildState -> bool) (r : Run) : bool :=
  forallb (fun p => negb (node_eqb (fst p) n) || P (snd p)) (executed r).

(** ** Vocabulary of the model-selection properties *)

(** The first name of a list of preferences. *)
Definition first_choice (table : list (string * list string)) (key : string)
  : option string :=
  match LanguageDetector.assoc table key with
  | Some (name :: _) => Some name
  | _ => None
  end.

(** The configurations of [MODEL_CONFIGS] whose provider has no working
    factory. *)
Definition placeholder_configs : list string :=
  ["anthropic_claude"; "anthropic_haiku"; "ollama_codellama"; "ollama_mistral"].

Definition is_error {A : Type} (r : Hf.Error + A) : bool :=
  match r with
  | inl _ => true
  | inr _ => false
  end.

(** An environment with the given variables. *)
Definition env_with (vars : list (string * string)) : Hf.Env :=
  Hf.mkEnv (LanguageDetector.assoc vars) false false.

(** The argument [model_config] is absent (or empty), or names a
    configuration of the Hugging Face provider. *)
Definition names_huggingface_config (model_config : option string) : Prop :=
  Hf.truthy model_config = false
  \/ exists name config,
       model_config = Some name
       /\ LanguageDetector.assoc Hf.MODEL_CONFIGS name = Some config
       /\ Hf.provider_of config = "huggingface".

(** [MODEL_CONFIGS[name]["model_id"]], for [default] when no configuration
    is named. *)
Definition configured_model_id (model_config : option string) : option Json.value :=
  match LanguageDetector.assoc Hf.MODEL_CONFIGS
          (match model_config with
           | Some (String c rest) => String c rest
           | _ => "default"
           end) with
  | Some config => Json.dict_get config "model_id"
  | None => None
  end.

(** The model id [make_chat] settles on: the argument [model_id]; else the
    variable [HF_MODEL_ID] when no configuration is named; else the model
    id of the configuration. *)
Definition effective_model_id (env : Hf.Env) (model_config model_id : option string)
  : option Json.value :=
  match model_id with
  | Some (String c rest) => Some (Json.JStr (String c rest))
  | _ =>
      match Hf.environ env "HF_MODEL_ID" with
      | Some (String c rest) =>
          if Hf.truthy model_config then configured_model_id model_config
          else Some (Json.JStr (String c rest))
      | _ => configured_model_id model_config
      end
  end.

(** ** Vocabulary of the dependency set-up properties *)

(** The languages the dependency manager has a branch for. *)
Definition dependency_languages : list string :=
  ["python"; "javascript"; "typescript"; "csharp"; "java"; "go"; "rust"].

(** A command started in [dir] without a timeout. *)
Definition unbounded_in (dir : string) (i : Invocation) : Prop :=
  inv_cwd i = dir /\ inv_timeout i = None.

(** Every write succeeds. *)
Definition writable : DependencyManager.Files :=
  DependencyManager.mkFiles (fun _ _ _ => true).

(** ** Vocabulary of the request-language properties *)

(** * Properties *)

(** ** Results and handlers *)

Lemma returns_ret {A : Type} (a : A) : returns (ret a).
Proof. exists a. reflexivity. Qed.

Lemma returns_try_except {A : Type} (m : M A) (h : Exn -> M A) :
  (forall e, returns (h e)) -> returns (try_except m h).
Proof.
  intros Hh. destruct m as [[a | e] t]; simpl.
  - exists a. reflexivity.
  - destruct (Hh e) as [v Hv]. exists v.
    unfold try_except. destruct (h e) as [r t']. simpl in *. exact Hv.
Qed.

Lemma returns_on_exception {A : Type} (f : Exn -> A) (e : Exn) :
  returns (on_exception f e).
Proof. apply returns_ret. Qed.

Lemma result_bind {A B : Type} (m : M A) (f : A -> M B) :
  result_of (bind m f) =
  match result_of m with
  | Ok a => result_of (f a)
  | Raise e => Raise e
  end.
Proof.
  destruct m as [[a | e] t]; simpl; [destruct (f a); reflexivity | reflexivity].
Qed.

Lemma invocations_bind {A B : Type} (m : M A) (f : A -> M B) :
  invocations (bind m f) =
  match result_of m with
  | Ok a => (invocations m ++ invocations (f a))%list
  | Raise _ => invocations m
  end.
Proof.
  destruct m as [[a | e] t]; simpl; [destruct (f a); reflexivity | reflexivity].
Qed.

Lemma result_try_except {A : Type} (m : M A) (h : Exn -> M A) :
  result_of (try_except m h) =
  match result_of m with
  | Ok a => Ok a
  | Raise e => result_of (h e)
  end.
Proof.
  destruct m as [[a | e] t]; simpl; [reflexivity | destruct (h e); reflexivity].
Qed.

Lemma invocations_try_except {A : Type} (m : M A) (h : Exn -> M A) :
  invocations (try_except m h) =
  match result_of m with
  | Ok _ => invocations m
  | Raise e => (invocations m ++ invocations (h e))%list
  end.
Proof.
  destruct m as [[a | e] t]; simpl; [reflexivity | destruct (h e); reflexivity].
Qed.

(** ** The recipes of code_runner.py never raise *)

Ltac caught :=
  intros w repo pa; apply returns_try_except; intros e;
  try apply returns_on_exception;
  try (destruct e; apply returns_ret).

Lemma build_java_project_returns : never_raises CodeRunner.build_java_project.
Proof. unfold CodeRunner.build_java_project. caught. Qed.

Lemma build_php_project_returns : never_raises CodeRunner.build_php_project.
Proof. unfold CodeRunner.build_php_project. caught. Qed.

Lemma build_ruby_project_returns : never_raises CodeRunner.build_ruby_project.
Proof. unfold CodeRunner.build_ruby_project. caught. Qed.

Lemma test_runners_return :
  Forall (fun kr => never_raises (snd kr)) CodeRunner.test_runners.
Proof.
  unfold CodeRunner.test_runners.
  repeat constructor; simpl;
    unfold CodeRunner.run_python_tests, CodeRunner.run_javascript_tests,
      CodeRunner.run_typescript_tests, CodeRunner.run_javascript_tests,
      CodeRunner.run_csharp_tests, CodeRunner.run_java_tests,
      CodeRunner.run_go_tests, CodeRunner.run_rust_tests,
      CodeRunner.run_php_tests, CodeRunner.run_ruby_tests; caught.
Qed.

Lemma linters_return :
  Forall (fun kr => never_raises (snd kr)) CodeRunner.linters.
Proof.
  unfold CodeRunner.linters.
  repeat constructor; simpl;
    unfold CodeRunner.run_python_linting, CodeRunner.run_javascript_linting,
      CodeRunner.run_typescript_linting, CodeRunner.run_csharp_linting,
      CodeRunner.run_java_linting, CodeRunner.run_go_linting,
      CodeRunner.run_rust_linting, CodeRunner.run_php_linting,
      CodeRunner.run_ruby_linting; caught.
  - apply build_java_project_returns.
  - apply build_php_project_returns.
  - apply build_ruby_project_returns.
Qed.

Lemma lookup_in (table : list (string * CodeRunner.Runner)) (language : string)
  (r : CodeRunner.Runner) :
  CodeRunner.lookup table language = Some r -> In (language, r) table.
Proof.
  induction table as [| [k r'] rest IH]; simpl; [discriminate |].
  destruct (String.eqb language k) eqn:E.
  - intros H. injection H as ->. apply String.eqb_eq in E. subst. now left.
  - intros H. right. now apply IH.
Qed.

Lemma run_project_tests_returns w repo pa :
  returns (CodeRunner.run_project_tests w repo pa).
Proof.
  unfold CodeRunner.run_project_tests.
  destruct (CodeRunner.lookup _ _) as [r |] eqn:E; [| apply returns_ret].
  apply lookup_in in E.
  exact (proj1 (Forall_forall _ _) test_runners_return _ E w repo pa).
Qed.

Lemma run_project_linting_returns w repo pa :
  returns (CodeRunner.run_project_linting w repo pa).
Proof.
  unfold CodeRunner.run_project_linting.
  destruct (CodeRunner.lookup _ _) as [r |] eqn:E; [| apply returns_ret].
  apply lookup_in in E.
  exact (proj1 (Forall_forall _ _) linters_return _ E w repo pa).
Qed.

(** ** The frame of the verification steps *)

Lemma tests_node_result w s :
  exists lint test,
    result_of (CodeRunner.run_project_linting w (repo_path s)
                 (LanguageDetector.analyze_project_structure w (repo_path s)))
    = Ok lint
    /\ result_of (CodeRunner.run_project_tests w (repo_path s)
                    (LanguageDetector.analyze_project_structure w (repo_path s)))
       = Ok test
    /\ result_of (tests_node w s) =
       Ok (let language :=
             primary_language
               (LanguageDetector.analyze_project_structure w (repo_path s)) in
           let s1 := set_lint_ok s (fst lint =? 0) in
           let s2 := log s1 ("Linter (" ++ language ++ "): exit="
                               ++ Py.str_of_Z (fst lint) ++ Py.nl
                               ++ Py.take 1000 (snd lint)) in
           let s3 := set_tests_ok s2 (fst test =? 0) in
           log s3 ("Tests (" ++ language ++ "): exit="
                     ++ Py.str_of_Z (fst test) ++ Py.nl
                     ++ Py.take 1000 (snd test))).
Proof.
  destruct (run_project_linting_returns w (repo_path s)
              (LanguageDetector.analyze_project_structure w (repo_path s)))
    as [lint Hl].
  destruct (run_project_tests_returns w (repo_path s)
              (LanguageDetector.analyze_project_structure w (repo_path s)))
    as [test Ht].
  exists lint, test. repeat split; try assumption.
  unfold tests_node. rewrite result_bind, Hl. simpl.
  rewrite result_bind. simpl. rewrite Ht. reflexivity.
Qed.

(** C10.  The tests step always returns, and its state differs from the
    input only in [lint_ok], [tests_ok] and two entries added at the end of
    [logs]; the security step, when it returns, differs only in [sec_ok]
    and one entry added at the end of [logs].  All other fields are kept,
    and the older log entries stay in place and in order. *)
Theorem verification_steps_frame (w : World) (s : BuildState) :
  (exists s' a b,
      result_of (tests_node w s) = Ok s'
      /\ framed s s' [a; b] /\ sec_ok s' = sec_ok s)
  /\ on_return (security_node w s)
       (fun s' => exists a,
            framed s s' [a]
            /\ lint_ok s' = lint_ok s /\ tests_ok s' = tests_ok s).
Proof.
  split.
  - destruct (tests_node_result w s) as (lint & test & _ & _ & H).
    eexists. eexists. eexists. split; [exact H |].
    unfold framed. simpl. rewrite <- app_assoc. simpl.
    repeat split; reflexivity.
  - unfold on_return, security_node. rewrite result_bind.
    destruct (result_of (Runners.run_pip_audit w (repo_path s))) as [r | e];
      [| exact I].
    simpl. eexists. unfold framed. simpl. repeat split; reflexivity.
Qed.

(** ** The attempt counter along the graph *)

Lemma dev_attempts_log_all (entries : list string) (s : BuildState) :
  dev_attempts (log_all s entries) = dev_attempts s.
Proof.
  unfold log_all. revert s.
  induction entries as [| e rest IH]; intros s; simpl; [reflexivity |].
  rewrite IH. reflexivity.
Qed.

Lemma recover_dev_attempts (w : World) (s : BuildState) (raw : string) :
  dev_attempts (snd (Planner.recover w s raw)) = dev_attempts s.
Proof.
  unfold Planner.recover.
  destruct (Json.loads raw); [reflexivity |].
  destruct (_ || _); [reflexivity |].
  destruct (Json.loads _); reflexivity.
Qed.

(** What one step execution does to the counter. *)
Lemma run_node_dev_attempts (w : World) (n : Node) (s : BuildState) :
  on_return (run_node w n s)
    (fun s' => get_dev_attempts s' =
               if is_dev n then get_dev_attempts s + 1 else get_dev_attempts s).
Proof.
  unfold on_return. destruct n; simpl.
  - unfold Planner.planner_node.
    pose proof (recover_dev_attempts w
                  (log s ("Planner raw response: "
                          ++ Py.take 200 (chat w (Some "planning") [request s])
                          ++ "..."))
                  (chat w (Some "planning") [request s])) as H.
    destruct (Planner.recover _ _ _) as [data s1]. simpl in H.
    destruct (Planner.build w data) as [[prd_md ts] | e]; simpl; [| exact I].
    unfold get_dev_attempts. simpl. rewrite H. reflexivity.
  - reflexivity.
  - unfold dev_node. rewrite result_bind.
    destruct (String.eqb (branch s) "").
    + rewrite result_bind.
      destruct (result_of (ensure_branch w (repo_path s) "feat/auto-agent"));
        simpl; [| exact I].
      unfold get_dev_attempts. rewrite dev_attempts_log_all. reflexivity.
    + simpl. unfold get_dev_attempts. rewrite dev_attempts_log_all. reflexivity.
  - destruct (tests_node_result w s) as (lint & test & _ & _ & H).
    rewrite H. reflexivity.
  - unfold security_node. rewrite result_bind.
    destruct (result_of (Runners.run_pip_audit w (repo_path s))); [| exact I].
    reflexivity.
  - reflexivity.
Qed.

Lemma tests_next_dev_attempts (s : BuildState) :
  get_dev_attempts (snd (tests_next s)) = get_dev_attempts s.
Proof. unfold tests_next. destruct (3 <=? _); reflexivity. Qed.

Lemma sec_next_dev_attempts (s : BuildState) :
  get_dev_attempts (snd (sec_next s)) = get_dev_attempts s.
Proof. unfold sec_next. destruct (3 <=? _); reflexivity. Qed.

Lemma next_node_dev_attempts (n : Node) (s : BuildState) :
  get_dev_attempts (snd (next_node n s)) = get_dev_attempts s.
Proof.
  destruct n; simpl; try reflexivity.
  - pose proof (tests_next_dev_attempts s). destruct (tests_next s). assumption.
  - pose proof (sec_next_dev_attempts s). destruct (sec_next s). assumption.
Qed.

Lemma ceiling_blocks_dev (s : BuildState) :
  3 <= get_dev_attempts s ->
  fst (tests_next s) = security /\ fst (sec_next s) = pr.
Proof.
  intros H. unfold tests_next, sec_next.
  apply Z.leb_le in H. rewrite H. split; reflexivity.
Qed.

Lemma traverse_nondecreasing (limit : nat) :
  forall worlds k n s,
    nondecreasing_from (get_dev_attempts s)
      (attempts_of (traverse limit worlds k n s)).
Proof.
  induction limit as [| limit IH]; intros worlds k n s; simpl; [exact I |].
  pose proof (run_node_dev_attempts (worlds k) n s) as Hrun.
  unfold on_return in Hrun.
  destruct (result_of (run_node (worlds k) n s)) as [s' | e]; [| exact I].
  pose proof (next_node_dev_attempts n s') as Hnext.
  destruct (next_node n s') as [[n' |] s'']; simpl in *.
  - unfold attempts_of. simpl. split.
    + destruct (is_dev n); lia.
    + rewrite <- Hnext. apply IH.
  - unfold attempts_of. simpl. split; [destruct (is_dev n); lia | exact I].
Qed.

(** C1.  One step execution leaves the counter as it is, except the dev
    step, which adds exactly one; the routing functions do not change it;
    along every run the counter never decreases; and from a state whose
    counter is 3 or more the two routing functions go to security and to pr,
    never to dev, whatever the flags are. *)
Theorem retry_ceiling_invariant (w : World) (n : Node) (s : BuildState) :
  on_return (run_node w n s)
    (fun s' => get_dev_attempts s' =
               if is_dev n then get_dev_attempts s + 1 else get_dev_attempts s)
  /\ get_dev_attempts (snd (next_node n s)) = get_dev_attempts s
  /\ (forall worlds,
         nondecreasing_from (get_dev_attempts s) (attempts_of (invoke worlds s)))
  /\ (3 <= get_dev_attempts s ->
      fst (tests_next s) <> dev /\ fst (sec_next s) <> dev).
Proof.
  split; [apply run_node_dev_attempts |].
  split; [apply next_node_dev_attempts |].
  split; [intros worlds; apply traverse_nondecreasing |].
  intros H. destruct (ceiling_blocks_dev s H) as [Ht Hs].
  rewrite Ht, Hs. split; discriminate.
Qed.


Lemma retry_ceiling_invariant_witness :
  3 <= get_dev_attempts (set_dev_attempts sample_state 3)
  /\ fst (tests_next (set_dev_attempts sample_state 3)) <> dev
  /\ fst (sec_next (set_dev_attempts sample_state 3)) <> dev.
Proof.
  assert (H : 3 <= get_dev_attempts (set_dev_attempts sample_state 3))
    by (vm_compute; discriminate).
  split; [exact H |].
  exact (proj2 (proj2 (proj2
           (retry_ceiling_invariant
              (sample_world (completes_with 0) python_tree "no plan") tests
              (set_dev_attempts sample_state 3)))) H).
Defined.

(** ** Bounded termination of a run *)

(** A bounded run from [n'] stays bounded when the execution of [n] is put
    in front of it. *)
Lemma bounded_run_step (n n' : Node) (a a' : Z) (s' : BuildState) (rest : Run) :
  a' = a + (if is_dev n then 1 else 0) ->
  edge n n' = true ->
  (S (steps_from n' a') <= steps_from n a)%nat ->
  ((if is_dev n then 1 else 0) + dev_entries_from n' a' <= dev_entries_from n a)%nat ->
  (dev_entries_before_end n
   <= (if is_dev n then 1 else 0) + dev_entries_before_end n')%nat ->
  bounded_run n' a' rest ->
  bounded_run n a (mkRun ((n, s') :: executed rest) (ending rest)).
Proof.
  intros Ha Hedge Hsteps Hdev Hmin (H1 & H2 & H3 & H4 & H5).
  unfold bounded_run. simpl.
  split; [assumption |]. split; [lia |].
  destruct (executed rest) as [| [x sx] ex] eqn:Eex; simpl in *.
  - split; [destruct n; reflexivity |]. split; [lia |].
    destruct (ending rest); try exact I.
    destruct H5 as (H5 & _). discriminate.
  - apply andb_prop in H3. destruct H3 as [Hx H3].
    assert (x = n') as -> by (destruct x, n'; try discriminate; reflexivity).
    split.
    { rewrite Hedge. simpl in H3. rewrite H3. destruct n; reflexivity. }
    split; [lia |].
    destruct (ending rest); try exact I.
    destruct H5 as (H5 & H6 & H7).
    split; [assumption |]. split; [lia |].
    rewrite H7, Ha. destruct (is_dev n); lia.
Qed.

Ltac leb_cases :=
  repeat match goal with
    | |- context [?x <=? ?y] =>
        let E := fresh "E" in
        destruct (x <=? y) eqn:E; [apply Z.leb_le in E | apply Z.leb_gt in E]
    | H : context [?x <=? ?y] |- _ =>
        let E := fresh "E" in
        destruct (x <=? y) eqn:E; [apply Z.leb_le in E | apply Z.leb_gt in E]
    end.

Ltac budget Hlimit :=
  unfold dev_to_tests, steps_from, dev_entries_from, dev_entries_before_end,
    is_dev in Hlimit |- *;
  leb_cases; lia.

Lemma traverse_bounded (limit : nat) :
  forall worlds k n s,
    (steps_from n (get_dev_attempts s) <= limit)%nat ->
    bounded_run n (get_dev_attempts s) (traverse limit worlds k n s).
Proof.
  induction limit as [| limit IH]; intros worlds k n s Hlimit.
  - exfalso. destruct n; budget Hlimit.
  - simpl.
    pose proof (run_node_dev_attempts (worlds k) n s) as Hrun.
    unfold on_return in Hrun.
    destruct (result_of (run_node (worlds k) n s)) as [s' | e].
    2:{ unfold bounded_run. simpl. repeat split; try discriminate; lia. }
    destruct n; simpl in Hrun |- *.
    + apply bounded_run_step with (n' := design) (a' := get_dev_attempts s');
        [simpl; lia | reflexivity | budget Hlimit .. | apply IH; budget Hlimit].
    + apply bounded_run_step with (n' := dev) (a' := get_dev_attempts s');
        [simpl; lia | reflexivity | budget Hlimit .. | apply IH; budget Hlimit].
    + apply bounded_run_step with (n' := tests) (a' := get_dev_attempts s');
        [simpl; lia | reflexivity | budget Hlimit .. | apply IH; budget Hlimit].
    + unfold tests_next.
      destruct (3 <=? get_dev_attempts s') eqn:E.
      * apply bounded_run_step with (n' := security) (a' := get_dev_attempts s');
          [simpl; lia | reflexivity | budget Hlimit .. |].
        pose proof (IH worlds (S k) security
                      (log s' "Max dev attempts reached, proceeding to security"))
          as IH'.
        change (get_dev_attempts (log s' _)) with (get_dev_attempts s') in IH'.
        apply IH'. budget Hlimit.
      * destruct (tests_ok s' && lint_ok s').
        -- apply bounded_run_step with (n' := security) (a' := get_dev_attempts s');
             [simpl; lia | reflexivity | budget Hlimit .. | apply IH; budget Hlimit].
        -- apply bounded_run_step with (n' := dev) (a' := get_dev_attempts s');
             [simpl; lia | reflexivity | budget Hlimit .. | apply IH; budget Hlimit].
    + unfold sec_next.
      destruct (3 <=? get_dev_attempts s') eqn:E.
      * apply bounded_run_step with (n' := pr) (a' := get_dev_attempts s');
          [simpl; lia | reflexivity | budget Hlimit .. |].
        pose proof (IH worlds (S k) pr
                      (log s' "Max dev attempts reached, proceeding to PR"))
          as IH'.
        change (get_dev_attempts (log s' _)) with (get_dev_attempts s') in IH'.
        apply IH'. budget Hlimit.
      * destruct (sec_ok s').
        -- apply bounded_run_step with (n' := pr) (a' := get_dev_attempts s');
             [simpl; lia | reflexivity | budget Hlimit .. | apply IH; budget Hlimit].
        -- apply bounded_run_step with (n' := dev) (a' := get_dev_attempts s');
             [simpl; lia | reflexivity | budget Hlimit .. | apply IH; budget Hlimit].
    + unfold bounded_run. simpl. repeat split; try discriminate; try lia.
Qed.

Lemma bounded_from_plan (r : Run) :
  bounded_run plan 0 r ->
  ending r <> RecursionLimit
  /\ (List.length (executed r) <= 12)%nat
  /\ path_from plan (map fst (executed r)) = true
  /\ (count_dev (map fst (executed r)) <= 3)%nat
  /\ match ending r with
     | Finished final =>
         last (map fst (executed r)) plan = pr
         /\ get_dev_attempts final = Z.of_nat (count_dev (map fst (executed r)))
         /\ 1 <= get_dev_attempts final <= 3
     | _ => True
     end.
Proof.
  intros (H1 & H2 & H3 & H4 & H5).
  change (steps_from plan 0) with 12%nat in H2.
  change (dev_entries_from plan 0) with 3%nat in H4.
  repeat split; try assumption.
  destruct (ending r); try exact I.
  destruct H5 as (H5 & H6 & H7).
  change (dev_entries_before_end plan) with 1%nat in H6.
  repeat split; try assumption; lia.
Qed.

Lemma invoke_bounded (worlds : nat -> World) (s0 : BuildState) :
  get_dev_attempts s0 = 0 -> bounded_run plan 0 (invoke worlds s0).
Proof.
  intros H0. rewrite <- H0. unfold invoke.
  apply traverse_bounded. rewrite H0.
  change (steps_from plan 0) with 12%nat. unfold recursion_limit. lia.
Qed.

(** C2 (amended).  A run that starts at plan with the counter at 0 never
    reaches the recursion limit: it is aborted by an exception of a step, or
    it finishes at pr.  It executes at most 12 steps (11 before pr), follows
    the edges of the graph (dev is followed by tests; security comes only
    after tests), enters dev at most 3 times, and when it finishes the
    counter equals the number of entries into dev and lies between 1 and 3. *)
Theorem pipeline_terminates (worlds : nat -> World) (s0 : BuildState) :
  get_dev_attempts s0 = 0 ->
  let r := invoke worlds s0 in
  ending r <> RecursionLimit
  /\ (List.length (executed r) <= 12)%nat
  /\ path_from plan (map fst (executed r)) = true
  /\ (count_dev (map fst (executed r)) <= 3)%nat
  /\ match ending r with
     | Finished final =>
         last (map fst (executed r)) plan = pr
         /\ get_dev_attempts final = Z.of_nat (count_dev (map fst (executed r)))
         /\ 1 <= get_dev_attempts final <= 3
     | _ => True
     end.
Proof.
  intros H0.
  exact (bounded_from_plan (invoke worlds s0) (invoke_bounded worlds s0 H0)).
Qed.

Lemma pipeline_terminates_witness :
  get_dev_attempts sample_state = 0
  /\ let r := invoke (fun _ => sample_world (completes_with 0) python_tree "no plan")
               sample_state in
     ending r <> RecursionLimit
     /\ (List.length (executed r) <= 12)%nat
     /\ path_from plan (map fst (executed r)) = true
     /\ (count_dev (map fst (executed r)) <= 3)%nat
     /\ match ending r with
        | Finished final =>
            last (map fst (executed r)) plan = pr
            /\ get_dev_attempts final = Z.of_nat (count_dev (map fst (executed r)))
            /\ 1 <= get_dev_attempts final <= 3
        | _ => True
        end.
Proof.
  split; [reflexivity |].
  exact (pipeline_terminates
           (fun _ => sample_world (completes_with 0) python_tree "no plan")
           sample_state eq_refl).
Defined.

(** C2 as stated fails.  When the tests pass and the audit fails every
    time, pr is the twelfth step executed, after eleven others; when the
    linter and the tests fail every time, each of the first two entries into
    dev is followed by one verification step only. *)
Lemma ten_steps_do_not_suffice :
  (let r := invoke (fun _ => sample_world audit_fails python_tree "no plan")
              sample_state in
   map fst (executed r)
   = [plan; design; dev; tests; security; dev; tests; security;
      dev; tests; security; pr]
   /\ (exists final, ending r = Finished final /\ get_dev_attempts final = 3)
   /\ (10 < List.length (executed r))%nat)
  /\ (let r := invoke (fun _ => sample_world all_fail python_tree "no plan")
                sample_state in
      map fst (executed r)
      = [plan; design; dev; tests; dev; tests; dev; tests; security; pr]).
Proof.
  split.
  - vm_compute. split; [reflexivity |]. split; [| lia].
    eexists. split; reflexivity.
  - vm_compute. reflexivity.
Qed.

(** ** Capability dispatch: missing recipes and missing tools *)

Ltac split_mem_false H :=
  unfold Py.mem in H; simpl in H;
  repeat (apply orb_false_elim in H;
          let H1 := fresh "Hne" in destruct H as [H1 H]).



Ltac settle_paths :=
  repeat match goal with
    | |- context [path_exists ?w ?p] => destruct (path_exists w p)
    | |- context [os_is_nt ?w] => destruct (os_is_nt w)
    end.











Ltac by_language :=
  repeat match goal with
    | |- context [String.eqb ?l ?k] => destruct (String.eqb l k)
    end.



(** ** The commands of the verification steps *)

Lemma security_node_invocations (w : World) (s : BuildState) :
  invocations (security_node w s) = [audit_invocation w (repo_path s)].
Proof.
  unfold security_node, Runners.run_pip_audit, Runners.run_python_audit,
    audit_invocation, Shell.run, subprocess_run.
  destruct (path_exists w (path_join (repo_path s) "requirements.txt")).
  - destruct (subprocess w (mkInvocation ["pip-audit"; "-r"; "requirements.txt"]
                              (repo_path s) None)) as [p | e] eqn:E;
      simpl; [reflexivity | destruct e; reflexivity].
  - destruct (subprocess w (mkInvocation ["pip-audit"] (repo_path s) None))
      as [p | e] eqn:E;
      simpl; [reflexivity | destruct e; reflexivity].
Qed.

Lemma timed_ret {A : Type} (a : A) : timed (ret a).
Proof. constructor. Qed.

Lemma timed_bind {A B : Type} (m : M A) (f : A -> M B) :
  timed m -> (forall a, timed (f a)) -> timed (bind m f).
Proof.
  unfold timed. intros Hm Hf. rewrite invocations_bind.
  destruct (result_of m) as [a | e]; [| exact Hm].
  apply Forall_app. split; [exact Hm | apply Hf].
Qed.

Lemma timed_try_except {A : Type} (m : M A) (h : Exn -> M A) :
  timed m -> (forall e, timed (h e)) -> timed (try_except m h).
Proof.
  unfold timed. intros Hm Hh. rewrite invocations_try_except.
  destruct (result_of m) as [a | e]; [exact Hm |].
  apply Forall_app. split; [exact Hm | apply Hh].
Qed.

Lemma timed_subprocess (w : World) (cmd : list string) (cwd : string) (t : Z) :
  30 <= t <= 180 -> timed (subprocess_run w cmd cwd (Some t)).
Proof.
  intros Ht. unfold timed, subprocess_run. simpl.
  constructor; [| constructor]. exists t. split; [reflexivity | exact Ht].
Qed.

Ltac timed_step :=
  first
    [ apply timed_ret
    | apply timed_subprocess; lia
    | apply timed_bind; [| intros ?]
    | apply timed_try_except; [| intros ?]
    | match goal with
      | |- timed (on_exception _ _) => apply timed_ret
      | |- timed (if ?b then _ else _) => destruct b
      | |- timed (match ?x with _ => _ end) => destruct x
      end ].

Lemma timed_check_each w tool repo files passed :
  timed (CodeRunner.check_each w tool repo files passed).
Proof.
  induction files as [| f rest IH]; [apply timed_ret |].
  change (CodeRunner.check_each w tool repo (f :: rest) passed)
    with (bind (subprocess_run w (tool ++ [f])%list repo (Some 30))
            (fun result =>
               if negb (returncode result =? 0) then ret (report result)
               else CodeRunner.check_each w tool repo rest passed)).
  apply timed_bind; [apply timed_subprocess; lia | intros r].
  destruct (negb _); [apply timed_ret | exact IH].
Qed.

Lemma timed_build_java w repo pa : timed (CodeRunner.build_java_project w repo pa).
Proof. unfold CodeRunner.build_java_project. cbv zeta. repeat timed_step. Qed.

Lemma timed_build_php w repo pa : timed (CodeRunner.build_php_project w repo pa).
Proof.
  unfold CodeRunner.build_php_project. cbv zeta.
  apply timed_try_except; [| intros e; apply timed_ret].
  destruct (filter _ _); [apply timed_ret | apply timed_check_each].
Qed.

Lemma timed_build_ruby w repo pa : timed (CodeRunner.build_ruby_project w repo pa).
Proof.
  unfold CodeRunner.build_ruby_project. cbv zeta.
  apply timed_try_except; [| intros e; apply timed_ret].
  destruct (filter _ _); [apply timed_ret | apply timed_check_each].
Qed.

Lemma test_runners_timed :
  Forall (fun kr => forall w repo pa, timed (snd kr w repo pa))
    CodeRunner.test_runners.
Proof.
  unfold CodeRunner.test_runners.
  repeat constructor; simpl; intros w repo pa;
    unfold CodeRunner.run_python_tests, CodeRunner.run_typescript_tests,
      CodeRunner.run_javascript_tests, CodeRunner.run_csharp_tests,
      CodeRunner.run_java_tests, CodeRunner.run_go_tests,
      CodeRunner.run_rust_tests, CodeRunner.run_php_tests,
      CodeRunner.run_ruby_tests;
    cbv zeta; repeat timed_step.
Qed.

Lemma linters_timed :
  Forall (fun kr => forall w repo pa, timed (snd kr w repo pa))
    CodeRunner.linters.
Proof.
  unfold CodeRunner.linters.
  repeat constructor; simpl; intros w repo pa;
    unfold CodeRunner.run_python_linting, CodeRunner.run_javascript_linting,
      CodeRunner.run_typescript_linting, CodeRunner.run_csharp_linting,
      CodeRunner.run_java_linting, CodeRunner.run_go_linting,
      CodeRunner.run_rust_linting, CodeRunner.run_php_linting,
      CodeRunner.run_ruby_linting;
    cbv zeta;
    try (apply timed_try_except;
         [repeat timed_step
         | intros e;
           first [apply timed_build_java | apply timed_build_php
                 | apply timed_build_ruby | repeat timed_step]]).
Qed.

Lemma tests_node_timed (w : World) (s : BuildState) : timed (tests_node w s).
Proof.
  unfold tests_node. cbv zeta.
  apply timed_bind.
  - unfold CodeRunner.run_project_linting.
    destruct (CodeRunner.lookup _ _) as [r |] eqn:E; [| apply timed_ret].
    apply lookup_in in E.
    exact (proj1 (Forall_forall _ _) linters_timed _ E w _ _).
  - intros lint. apply timed_bind; [| intros test; apply timed_ret].
    unfold CodeRunner.run_project_tests.
    destruct (CodeRunner.lookup _ _) as [r |] eqn:E; [| apply timed_ret].
    apply lookup_in in E.
    exact (proj1 (Forall_forall _ _) test_runners_timed _ E w _ _).
Qed.




(** C6.  The security step starts one command, [pip-audit], whatever the
    language of the project is: in a Rust project, where the dispatch of
    [run_security_audit] selects [cargo audit], the step still runs
    [pip-audit]. *)
Theorem security_step_runs_pip_audit (w : World) (s : BuildState) :
  invocations (security_node w s) = [audit_invocation w (repo_path s)]
  /\ (let rust := sample_world (completes_with 0) rust_tree "" in
      primary_language
        (LanguageDetector.analyze_project_structure rust (repo_path sample_state))
      = "rust"
      /\ invocations
           (Runners.run_security_audit rust (repo_path sample_state)
              (LanguageDetector.analyze_project_structure rust
                 (repo_path sample_state)))
         = [mkInvocation ["cargo"; "audit"] "/repo" None]
      /\ invocations (security_node rust sample_state)
         = [mkInvocation ["pip-audit"] "/repo" None]).
Proof.
  split; [apply security_node_invocations |].
  cbv zeta. split; [vm_compute; reflexivity |].
  split; vm_compute; reflexivity.
Qed.

(** C7.  Every command of the tests step carries a timeout between 30 and
    180 seconds; the one command of the security step is started through
    [run] of shell.py and carries none. *)
Theorem security_step_has_no_timeout (w : World) (s : BuildState) :
  timed (tests_node w s)
  /\ exists inv,
       invocations (security_node w s) = [inv] /\ inv_timeout inv = None.
Proof.
  split; [apply tests_node_timed |].
  exists (audit_invocation w (repo_path s)).
  split; [apply security_node_invocations | reflexivity].
Qed.

(** ** Strings: searching and slicing *)

Lemma string_app_assoc (a b c : string) : (a ++ b) ++ c = a ++ (b ++ c).
Proof. induction a as [| x a IH]; simpl; [reflexivity | now rewrite IH]. Qed.

Lemma string_length_app (a b : string) :
  String.length (a ++ b) = (String.length a + String.length b)%nat.
Proof. induction a as [| x a IH]; simpl; [reflexivity | now rewrite IH]. Qed.

Lemma prefix_char (c a : ascii) (s : string) :
  prefix (String c "") (String a s) = if ascii_dec c a then true else false.
Proof. simpl. destruct (ascii_dec c a); [destruct s |]; reflexivity. Qed.

Lemma find_opt_char_cons (c a : ascii) (s : string) :
  Py.find_opt (String c "") (String a s) =
  if ascii_dec c a then Some O else option_map S (Py.find_opt (String c "") s).
Proof.
  change (Py.find_opt (String c "") (String a s))
    with (if prefix (String c "") (String a s) then Some O
          else option_map S (Py.find_opt (String c "") s)).
  rewrite prefix_char. destruct (ascii_dec c a); reflexivity.
Qed.

Lemma find_opt_char_nil (c : ascii) : Py.find_opt (String c "") "" = None.
Proof. reflexivity. Qed.

Lemma rfind_opt_char_cons (c a : ascii) (s : string) :
  Py.rfind_opt (String c "") (String a s) =
  match Py.rfind_opt (String c "") s with
  | Some i => Some (S i)
  | None => if ascii_dec c a then Some O else None
  end.
Proof.
  change (Py.rfind_opt (String c "") (String a s))
    with (match Py.rfind_opt (String c "") s with
          | Some i => Some (S i)
          | None => if prefix (String c "") (String a s) then Some O else None
          end).
  rewrite prefix_char. destruct (Py.rfind_opt _ s); [reflexivity |].
  destruct (ascii_dec c a); reflexivity.
Qed.

(** The first occurrence of a character that does not occur before it. *)
Lemma find_opt_app_char (c : ascii) (pre rest : string) :
  Py.find_opt (String c "") pre = None ->
  Py.find_opt (String c "") (pre ++ String c rest) = Some (String.length pre).
Proof.
  induction pre as [| a pre IH]; intros H.
  - simpl append. rewrite find_opt_char_cons.
    destruct (ascii_dec c c); [reflexivity | congruence].
  - simpl append. rewrite find_opt_char_cons in *.
    destruct (ascii_dec c a); [discriminate |].
    destruct (Py.find_opt (String c "") pre) eqn:E; [discriminate |].
    rewrite IH by reflexivity. reflexivity.
Qed.

(** The last occurrence of a character that does not occur after it. *)
Lemma rfind_opt_app_char (c : ascii) (front post : string) :
  Py.rfind_opt (String c "") post = None ->
  Py.rfind_opt (String c "") (front ++ String c post)
  = Some (String.length front).
Proof.
  intros H. induction front as [| a front IH].
  - simpl append. rewrite rfind_opt_char_cons, H.
    destruct (ascii_dec c c); [reflexivity | congruence].
  - simpl append. rewrite rfind_opt_char_cons, IH. reflexivity.
Qed.

Lemma substring_skip (pre s : string) (m : nat) :
  substring (String.length pre) m (pre ++ s) = substring 0 m s.
Proof. induction pre as [| a pre IH]; simpl; [reflexivity | exact IH]. Qed.

Lemma substring_take (mid post : string) :
  substring 0 (String.length mid) (mid ++ post) = mid.
Proof.
  induction mid as [| a mid IH]; simpl.
  - destruct post; reflexivity.
  - now rewrite IH.
Qed.

Lemma slice_middle (pre mid post : string) :
  mid <> "" ->
  Py.slice (pre ++ mid ++ post) (Z.of_nat (String.length pre))
    (Z.of_nat (String.length pre + String.length mid)) = mid.
Proof.
  intros Hmid. unfold Py.slice, Py.clamp, Py.len.
  rewrite !string_length_app.
  assert (Hlen : (0 < String.length mid)%nat)
    by (destruct mid; [congruence | simpl; lia]).
  destruct (Z.of_nat (String.length pre) <? 0) eqn:E1;
    [apply Z.ltb_lt in E1; lia |].
  destruct (Z.of_nat (String.length pre + String.length mid) <? 0) eqn:E2;
    [apply Z.ltb_lt in E2; lia |].
  rewrite !Z.min_r by lia. clear E1 E2.
  destruct (_ <? _) eqn:E3; [| apply Z.ltb_ge in E3; lia].
  replace (Z.to_nat (Z.of_nat (String.length pre + String.length mid)
                     - Z.of_nat (String.length pre)))
    with (String.length mid) by lia.
  rewrite Nat2Z.id, substring_skip. apply substring_take.
Qed.

Lemma find_none (s sub : string) :
  Py.find s sub = -1 <-> Py.find_opt sub s = None.
Proof.
  unfold Py.find. destruct (Py.find_opt sub s); split; intros H;
    try reflexivity; try discriminate; lia.
Qed.

Lemma rfind_none (s sub : string) :
  Py.rfind s sub = -1 <-> Py.rfind_opt sub s = None.
Proof.
  unfold Py.rfind. destruct (Py.rfind_opt sub s); split; intros H;
    try reflexivity; try discriminate; lia.
Qed.

(** The text between the first opening brace and the last closing brace is
    the payload, when no opening brace comes before it and no closing brace
    after it. *)
Lemma brace_extraction (pre body post : string) :
  Py.find pre "{" = -1 ->
  Py.rfind post "}" = -1 ->
  let payload := "{" ++ body ++ "}" in
  let raw := pre ++ payload ++ post in
  Py.find raw "{" = Z.of_nat (String.length pre)
  /\ Py.rfind raw "}" + 1
     = Z.of_nat (String.length pre + String.length payload)
  /\ Py.slice raw (Py.find raw "{") (Py.rfind raw "}" + 1) = payload.
Proof.
  intros Hpre Hpost payload raw.
  apply find_none in Hpre. apply rfind_none in Hpost.
  assert (Hfind : Py.find raw "{" = Z.of_nat (String.length pre)).
  { unfold Py.find, raw, payload. simpl append.
    change (pre ++ String "{" ((body ++ "}") ++ post))
      with (pre ++ String "{"%char ((body ++ "}") ++ post)).
    rewrite (find_opt_app_char "{"%char pre _ Hpre). reflexivity. }
  assert (Hrfind : Py.rfind raw "}" + 1
                   = Z.of_nat (String.length pre + String.length payload)).
  { unfold Py.rfind, raw, payload.
    replace (pre ++ ("{" ++ body ++ "}") ++ post)
      with ((pre ++ "{" ++ body) ++ String "}"%char post).
    - rewrite (rfind_opt_app_char "}"%char _ post Hpost).
      rewrite !string_length_app. simpl String.length. lia.
    - rewrite !string_app_assoc. reflexivity. }
  split; [exact Hfind |]. split; [exact Hrfind |].
  rewrite Hfind, Hrfind. apply slice_middle. discriminate.
Qed.

(** ** Recovery of an embedded payload *)

(** C4 (amended).  When a text is not valid JSON and consists of a payload
    [{...}] that is valid JSON, preceded by prose without an opening brace
    and followed by prose without a closing brace, the extraction from the
    first opening brace to the last closing brace is the payload itself: the
    planner and the router recover the record that parsing the payload
    directly gives. *)
Theorem embedded_payload_recovered (w : World) (state : BuildState)
  (pre body post : string) (data : Json.value) :
  let payload := "{" ++ body ++ "}" in
  let raw := pre ++ payload ++ post in
  Py.find pre "{" = -1 ->
  Py.rfind post "}" = -1 ->
  Json.loads raw = None ->
  Json.loads payload = Some data ->
  fst (Planner.recover w state raw) = data
  /\ Planner.build w (fst (Planner.recover w state raw)) = Planner.build w data
  /\ Router.recover w raw = Ok data
  /\ Router.route_raw w raw = Router.route_raw w payload.
Proof.
  intros payload raw Hpre Hpost Hraw Hpayload.
  destruct (brace_extraction pre body post Hpre Hpost) as (Hfind & Hrfind & Hcut).
  fold payload in Hfind, Hrfind, Hcut. fold raw in Hfind, Hrfind, Hcut.
  assert (Hplanner : fst (Planner.recover w state raw) = data).
  { unfold Planner.recover. rewrite Hraw, Hcut, Hpayload.
    rewrite Hfind, Hrfind.
    destruct (Z.of_nat (String.length pre) =? -1) eqn:E1;
      [apply Z.eqb_eq in E1; lia |].
    destruct (Z.of_nat (String.length pre + String.length payload) =? 0) eqn:E2.
    - apply Z.eqb_eq in E2. unfold payload in E2. simpl in E2. lia.
    - reflexivity. }
  assert (Hrouter : Router.recover w raw = Ok data).
  { unfold Router.recover. rewrite Hraw, Hcut, Hpayload. reflexivity. }
  split; [exact Hplanner |].
  split; [rewrite Hplanner; reflexivity |].
  split; [exact Hrouter |].
  unfold Router.route_raw. rewrite Hrouter.
  unfold Router.recover. rewrite Hpayload. reflexivity.
Qed.

Lemma embedded_payload_recovered_witness :
  let w := sample_world (completes_with 0) python_tree "" in
  let pre := "Here is the route: " in
  let body := Py.quoted "'intent': 'plan'" in
  let post := " Done." in
  let payload := "{" ++ body ++ "}" in
  let raw := pre ++ payload ++ post in
  let data := Json.JObj [("intent", Json.JStr "plan")] in
  (Py.find pre "{" = -1 /\ Py.rfind post "}" = -1
   /\ Json.loads raw = None /\ Json.loads payload = Some data)
  /\ (fst (Planner.recover w sample_state raw) = data
      /\ Planner.build w (fst (Planner.recover w sample_state raw))
         = Planner.build w data
      /\ Router.recover w raw = Ok data
      /\ Router.route_raw w raw = Router.route_raw w payload).
Proof.
  cbv zeta.
  split; [repeat split; vm_compute; reflexivity |].
  exact (embedded_payload_recovered
           (sample_world (completes_with 0) python_tree "") sample_state
           "Here is the route: " (Py.quoted "'intent': 'plan'") " Done."
           (Json.JObj [("intent", Json.JStr "plan")])
           eq_refl eq_refl eq_refl eq_refl).
Defined.

(** C4 as stated fails.  A text that is not valid JSON and holds one
    well-formed payload after prose with a brace of its own: the extraction
    starts at the brace of the prose, so the router raises and the planner
    falls back, where parsing the payload directly gives the record. *)
Lemma prose_with_a_brace_defeats_extraction :
  let w := sample_world (completes_with 0) python_tree "" in
  (let payload := Py.quoted "{'intent': 'plan'}" in
   let raw := "Route {draft}: " ++ payload in
   Json.loads raw = None
   /\ Json.loads payload = Some (Json.JObj [("intent", Json.JStr "plan")])
   /\ Router.route_raw w payload = Ok (Router.mkRouteOut "plan" [])
   /\ Router.route_raw w raw = Raise (JSONDecodeError "Expecting value"))
  /\ (let payload := Py.quoted "{'prd_md': 'P', 'tasks': []}" in
      let raw := "Plan {draft}: " ++ payload in
      Json.loads raw = None
      /\ Planner.build w (fst (Planner.recover w sample_state payload))
         = Ok ("P", [])
      /\ fst (Planner.recover w sample_state raw)
         = Planner.fallback_data (request sample_state)).
Proof.
  cbv zeta. repeat split; vm_compute; reflexivity.
Qed.

(** ** Texts without an opening brace do not parse to an object *)

Lemma scan_elements_not_object scan k :
  forall acc t v r,
    Json.scan_elements scan k acc t = Some (v, r) -> not_object v.
Proof.
  induction k as [| k IH]; intros acc t v r; simpl; [discriminate |].
  destruct (scan t) as [[v1 t1] |]; [| discriminate].
  destruct (Json.skip_ws t1) as [| d t2]; [discriminate |].
  destruct (N_of_ascii d =? 93)%N.
  - intros H. injection H as <- _. exact I.
  - destruct (N_of_ascii d =? 44)%N; [apply IH | discriminate].
Qed.

Lemma scan_number_not_object s v r :
  Json.scan_number s = Some (v, r) -> not_object v.
Proof.
  unfold Json.scan_number.
  destruct (match s with
            | String c s' => if (N_of_ascii c =? 45)%N then (true, s') else (false, s)
            | EmptyString => (false, s)
            end) as [neg s1].
  destruct (Json.int_part s1) as [[ip s2] |]; [| discriminate].
  destruct (Json.frac_part s2) as [fp s3].
  destruct (Json.exp_part s3) as [ep s4].
  destruct fp, ep; intros H; injection H as <- _; exact I.
Qed.

Lemma scan_atom_not_object s v r :
  Json.scan_atom s = Some (v, r) -> not_object v.
Proof.
  unfold Json.scan_atom.
  destruct (Json.strip_prefix "null" s);
    [intros H; injection H as <- _; exact I |].
  destruct (Json.strip_prefix "true" s);
    [intros H; injection H as <- _; exact I |].
  destruct (Json.strip_prefix "false" s);
    [intros H; injection H as <- _; exact I |].
  destruct (Json.scan_number s) as [[v' r'] |] eqn:E.
  - intros H. injection H as <- _. exact (scan_number_not_object s v' r' E).
  - destruct (Json.strip_prefix "NaN" s);
      [intros H; injection H as <- _; exact I |].
    destruct (Json.strip_prefix "Infinity" s);
      [intros H; injection H as <- _; exact I |].
    destruct (Json.strip_prefix "-Infinity" s);
      [intros H; injection H as <- _; exact I | discriminate].
Qed.

(** An object starts with an opening brace. *)
Lemma scan_once_object fuel s members r :
  Json.scan_once fuel s = Some (Json.JObj members, r) ->
  exists rest, s = String "{"%char rest.
Proof.
  destruct fuel as [| fuel]; [discriminate |].
  destruct s as [| c rest]; [discriminate |].
  cbn [Json.scan_once].
  destruct (N_of_ascii c =? 34)%N.
  { destruct (Json.scan_string _ _) as [[str r'] |]; discriminate. }
  destruct (N_of_ascii c =? 123)%N eqn:E.
  { intros _. exists rest. apply N.eqb_eq in E.
    rewrite <- (ascii_N_embedding c), E. reflexivity. }
  destruct (N_of_ascii c =? 91)%N.
  { destruct (Json.skip_ws rest) as [| c1 r1]; [discriminate |].
    destruct (N_of_ascii c1 =? 93)%N; [discriminate |].
    intros H. apply scan_elements_not_object in H. destruct H. }
  intros H. apply scan_atom_not_object in H. destruct H.
Qed.

Lemma find_opt_skip_ws (c : ascii) (s : string) :
  Py.find_opt (String c "") s = None ->
  Py.find_opt (String c "") (Json.skip_ws s) = None.
Proof.
  induction s as [| a s IH]; intros H; simpl; [exact H |].
  destruct (Json.is_ws a); [| exact H].
  apply IH. rewrite find_opt_char_cons in H.
  destruct (ascii_dec c a); [discriminate |].
  destruct (Py.find_opt (String c "") s); [discriminate | reflexivity].
Qed.

Lemma loads_without_brace (s : string) (v : Json.value) :
  Py.find s "{" = -1 -> Json.loads s = Some v -> not_object v.
Proof.
  intros Hfind Hloads. apply find_none in Hfind.
  unfold Json.loads in Hloads.
  destruct (Json.scan_once _ _) as [[v' rest] |] eqn:E; [| discriminate].
  destruct (Json.skip_ws rest); [| discriminate].
  injection Hloads as ->.
  destruct v; try exact I.
  apply scan_once_object in E. destruct E as [rest' E].
  apply (find_opt_skip_ws "{"%char) in Hfind.
  change "{" with (String "{"%char "") in Hfind.
  rewrite E, find_opt_char_cons in Hfind.
  destruct (ascii_dec "{"%char "{"%char); [discriminate | congruence].
Qed.

Lemma substring_without_char (c : ascii) (s : string) :
  Py.find_opt (String c "") s = None ->
  forall n m, Py.find_opt (String c "") (substring n m s) = None.
Proof.
  induction s as [| a s IH]; intros H n m.
  - destruct n, m; reflexivity.
  - rewrite find_opt_char_cons in H.
    destruct (ascii_dec c a) as [| Hne]; [discriminate |].
    assert (Hs : Py.find_opt (String c "") s = None)
      by (destruct (Py.find_opt (String c "") s); [discriminate | reflexivity]).
    destruct n as [| n]; simpl.
    + destruct m as [| m]; [reflexivity |].
      rewrite find_opt_char_cons.
      destruct (ascii_dec c a); [contradiction |].
      rewrite (IH Hs 0%nat m). reflexivity.
    + apply IH. exact Hs.
Qed.

Lemma slice_without_char (s : string) (a b : Z) :
  Py.find s "{" = -1 -> Py.find (Py.slice s a b) "{" = -1.
Proof.
  intros H. apply find_none in H. apply find_none.
  unfold Py.slice. destruct (_ <? _); [| reflexivity].
  apply (substring_without_char "{"%char). exact H.
Qed.

Lemma validate_not_object (v : Json.value) :
  not_object v -> exists e, Router.validate v = Raise e.
Proof.
  destruct v; intros H; try (eexists; reflexivity). destruct H.
Qed.

(** The router raises on every answer without an opening brace. *)
Lemma route_raw_without_brace (w : World) (raw : string) :
  Py.find raw "{" = -1 -> exists e, Router.route_raw w raw = Raise e.
Proof.
  intros H. unfold Router.route_raw, Router.recover.
  destruct (Json.loads raw) as [data |] eqn:E.
  - destruct (validate_not_object data (loads_without_brace raw data H E))
      as [e He].
    rewrite He. exists e. reflexivity.
  - destruct (Json.loads (Py.slice raw _ _)) as [data |] eqn:E'.
    + pose proof (slice_without_char raw (Py.find raw "{")
                    (Py.rfind raw "}" + 1) H) as Hs.
      destruct (validate_not_object data (loads_without_brace _ data Hs E'))
        as [e He].
      rewrite He. exists e. reflexivity.
    + eexists. reflexivity.
Qed.

(** The planner raises when the answer is an object without [prd_md]. *)
Lemma planner_node_without_prd (w : World) (state : BuildState)
  (d : list (string * Json.value)) :
  Json.loads (chat w (Some "planning") [request state]) = Some (Json.JObj d) ->
  Json.dict_get d "prd_md" = None ->
  exists e, result_of (Planner.planner_node w state) = Raise e.
Proof.
  intros Hloads Hprd. unfold Planner.planner_node, Planner.recover.
  rewrite Hloads. unfold Planner.build.
  destruct (Json.dict_get d "tasks") as [v |]; [| eexists; reflexivity].
  destruct (Planner.convert_tasks w v) as [converted | e];
    [| eexists; reflexivity].
  rewrite Hprd. eexists. reflexivity.
Qed.

(** The prompt of the router cannot be formatted: its first replacement
    field is [{plan, design, ...}], which the call does not supply. *)
Lemma router_prompt_fails (text state_summary : string) :
  Prompt.format_messages Router.router_prompt
    [("text", text); ("state_summary", state_summary)]
  = Prompt.Failed
      (KeyError "'plan, design, dev, tests, security, pr, status, help'").
Proof. reflexivity. Qed.

Lemma route_raises (w : World) (text : string) (state : BuildState) :
  Router.route w text state
  = Raise (KeyError "'plan, design, dev, tests, security, pr, status, help'").
Proof.
  unfold Router.route. cbv zeta. rewrite router_prompt_fails. reflexivity.
Qed.

(** C3.  The recovery is not total.  The router raises whenever the answer
    of the backend has no opening brace: the part of [route] that handles
    the answer has no fallback, so that for plain prose the second
    [json.loads] raises its [JSONDecodeError]; [route] as a whole raises
    already when it formats its prompt.  The planner raises whenever the
    answer is a JSON object without [prd_md]. *)
Theorem recovery_can_raise (w : World) (state : BuildState) (text : string)
  (d : list (string * Json.value)) :
  (Py.find (chat w None [text; Router.summarize_state state]) "{" = -1 ->
   (exists e, Router.route w text state = Raise e)
   /\ (exists e,
         Router.route_raw w (chat w None [text; Router.summarize_state state])
         = Raise e))
  /\ (Json.loads (chat w (Some "planning") [request state]) = Some (Json.JObj d) ->
      Json.dict_get d "prd_md" = None ->
      exists e, result_of (Planner.planner_node w state) = Raise e).
Proof.
  split.
  - intros H. split.
    + eexists. apply route_raises.
    + apply route_raw_without_brace. exact H.
  - apply planner_node_without_prd.
Qed.

Lemma recovery_can_raise_witness :
  (let w := sample_world (completes_with 0) python_tree "I cannot help with that." in
   Py.find (chat w None ["deploy it"; Router.summarize_state sample_state]) "{" = -1
   /\ (exists e, Router.route w "deploy it" sample_state = Raise e)
   /\ (exists e,
         Router.route_raw w
           (chat w None ["deploy it"; Router.summarize_state sample_state])
         = Raise e))
  /\ (let w := sample_world (completes_with 0) python_tree
                 (Py.quoted "{'tasks': []}") in
      Json.loads (chat w (Some "planning") [request sample_state])
      = Some (Json.JObj [("tasks", Json.JArr [])])
      /\ exists e, result_of (Planner.planner_node w sample_state) = Raise e).
Proof.
  cbv zeta. split.
  - split; [reflexivity |].
    exact (proj1 (recovery_can_raise
                    (sample_world (completes_with 0) python_tree
                       "I cannot help with that.")
                    sample_state "deploy it" []) eq_refl).
  - split; [reflexivity |].
    exact (proj2 (recovery_can_raise
                    (sample_world (completes_with 0) python_tree
                       (Py.quoted "{'tasks': []}"))
                    sample_state "" [("tasks", Json.JArr [])]) eq_refl eq_refl).
Defined.

(** ** Task identifiers *)

Lemma str_of_nat_inj (n m : nat) : Py.str_of_nat n = Py.str_of_nat m -> n = m.
Proof.
  unfold Py.str_of_nat. intros H.
  apply Unsigned.to_uint_inj.
  assert (Hs : Some (Nat.to_uint n) = Some (Nat.to_uint m))
    by (rewrite <- !NilEmpty.usu, H; reflexivity).
  now injection Hs.
Qed.

Lemma synthesized_ids_S (n : nat) :
  synthesized_ids (S n)
  = (synthesized_ids n ++ [("task" ++ Py.str_of_nat (n + 1))%string])%list.
Proof.
  unfold synthesized_ids. rewrite seq_S, map_app. simpl.
  rewrite (Nat.add_comm n 1). reflexivity.
Qed.

Lemma synthesized_ids_NoDup (n : nat) : NoDup (synthesized_ids n).
Proof.
  unfold synthesized_ids. generalize (seq_NoDup n 1).
  induction (seq 1 n) as [| k l IH]; intros H; simpl; [constructor |].
  inversion H as [| ? ? Hk Hl]; subst. constructor; [| apply IH; exact Hl].
  intros Hin. apply in_map_iff in Hin. destruct Hin as (j & Hj & Hjl).
  injection Hj as Hj. apply str_of_nat_inj in Hj. subst. contradiction.
Qed.

Lemma synthesized_ids_nonempty (n : nat) :
  Forall (fun i => i <> "") (synthesized_ids n).
Proof.
  unfold synthesized_ids. apply Forall_forall. intros i Hin.
  apply in_map_iff in Hin. destruct Hin as (k & <- & _). discriminate.
Qed.

(** The conversion loop numbers the dicts it meets, as long as none of them
    carries an identifier. *)
Lemma convert_step_numbered (w : World) (acc : list (string * Json.value))
  (task : Json.value) :
  map fst acc = synthesized_ids (List.length acc) ->
  no_own_id task ->
  map fst (Planner.convert_step w acc task)
  = synthesized_ids (List.length (Planner.convert_step w acc task)).
Proof.
  intros Hacc Htask. destruct task; simpl; try exact Hacc.
  destruct Htask as [H1 H2]. rewrite H1, H2.
  rewrite map_app, length_app. simpl.
  rewrite Nat.add_1_r at 2. rewrite synthesized_ids_S, Hacc. reflexivity.
Qed.

Lemma convert_numbered (w : World) (items : list Json.value) :
  Forall no_own_id items ->
  forall acc,
    map fst acc = synthesized_ids (List.length acc) ->
    map fst (fold_left (Planner.convert_step w) items acc)
    = synthesized_ids (List.length (fold_left (Planner.convert_step w) items acc)).
Proof.
  induction 1 as [| task items Htask _ IH]; intros acc Hacc; simpl;
    [exact Hacc |].
  apply IH. apply convert_step_numbered; assumption.
Qed.

Lemma validate_tasks_ids (converted : list (string * Json.value)) :
  forall ts,
    Planner.validate_tasks converted = Some ts ->
    map task_id ts = map fst converted.
Proof.
  induction converted as [| [i v] rest IH]; intros ts; simpl.
  - intros H. injection H as <-. reflexivity.
  - unfold Planner.validate_task. simpl.
    destruct v; try discriminate.
    destruct (Planner.validate_tasks rest) as [rest' |]; [| discriminate].
    intros H. injection H as <-. simpl. rewrite (IH rest' eq_refl). reflexivity.
Qed.

Lemma build_synthesized_ids (w : World) (d : list (string * Json.value))
  (items : list Json.value) (prd_md : string) (ts : list Task) :
  Json.dict_get d "tasks" = Some (Json.JArr items) ->
  Forall no_own_id items ->
  Planner.build w (Json.JObj d) = Ok (prd_md, ts) ->
  map task_id ts = synthesized_ids (List.length ts).
Proof.
  intros Htasks Hitems. unfold Planner.build. rewrite Htasks. simpl.
  destruct (Json.dict_get d "prd_md") as [[] |]; try discriminate.
  destruct (Planner.validate_tasks _) as [ts' |] eqn:E; [| discriminate].
  intros H. injection H as _ <-.
  pose proof (validate_tasks_ids _ _ E) as Hids.
  rewrite Hids.
  rewrite <- (length_map task_id ts'), Hids, length_map.
  apply convert_numbered; [exact Hitems | reflexivity].
Qed.

Lemma build_converted (w : World) (d : list (string * Json.value))
  (prd_md : string) (ts : list Task) :
  Planner.build w (Json.JObj d) = Ok (prd_md, ts) ->
  exists v converted,
    Json.dict_get d "tasks" = Some v
    /\ Planner.convert_tasks w v = Ok converted
    /\ map task_id ts = map fst converted.
Proof.
  unfold Planner.build.
  destruct (Json.dict_get d "tasks") as [v |] eqn:Hv; [| discriminate].
  destruct (Planner.convert_tasks w v) as [converted | e] eqn:Hc; [| discriminate].
  destruct (Json.dict_get d "prd_md") as [[] |]; try discriminate.
  destruct (Planner.validate_tasks converted) as [ts' |] eqn:E; [| discriminate].
  intros H. injection H as _ <-.
  exists v, converted. split; [reflexivity |]. split; [exact Hc |].
  exact (validate_tasks_ids _ _ E).
Qed.

(** The conversion loop appends one entry for each dict of the list, with
    the identifier of its position. *)
Lemma convert_entries (w : World) (items : list Json.value) :
  forall acc,
    exists new,
      fold_left (Planner.convert_step w) items acc = (acc ++ new)%list
      /\ List.length new = List.length (task_entries (Json.JArr items))
      /\ forall k entry,
           nth_error (task_entries (Json.JArr items)) k = Some entry ->
           nth_error (map fst new) k
           = Some (expected_id w (List.length acc + k + 1) entry).
Proof.
  induction items as [| item items IH]; intros acc.
  - exists []. rewrite app_nil_r. repeat split.
    intros [| k] entry H; discriminate H.
  - assert (Hskip : (forall entry, item <> Json.JObj entry) ->
                    Planner.convert_step w acc item = acc
                    /\ task_entries (Json.JArr (item :: items))
                       = task_entries (Json.JArr items)).
    { intros Hn. destruct item; try (split; reflexivity).
      exfalso. exact (Hn _ eq_refl). }
    destruct item as [ | | | | | | entry ];
      try (destruct Hskip as [Hstep Hentries]; [intros entry; discriminate |];
           cbn [fold_left]; rewrite Hstep, Hentries; apply IH).
    clear Hskip. cbn [fold_left].
    set (x := (expected_id w (List.length acc + 1) entry,
               match Json.dict_get entry "task_desc" with
               | Some v => v
               | None => match Json.dict_get entry "title" with
                         | Some v => v
                         | None => Json.JStr "Untitled task"
                         end
               end)).
    assert (Hstep : Planner.convert_step w acc (Json.JObj entry) = (acc ++ [x])%list).
    { unfold Planner.convert_step, x, expected_id.
      destruct (Json.dict_get entry "task_id"); [reflexivity |].
      destruct (Json.dict_get entry "id"); reflexivity. }
    rewrite Hstep. destruct (IH (acc ++ [x])%list) as (new & Hfold & Hlen & Hnth).
    exists (x :: new). rewrite Hfold, <- app_assoc.
    split; [reflexivity |].
    split; [cbn [task_entries flat_map app List.length] in *; rewrite Hlen; reflexivity |].
    intros [| k] e He.
    + cbn [task_entries flat_map app nth_error] in He. injection He as <-.
      cbn [map nth_error fst]. unfold x. cbn [fst].
      rewrite Nat.add_0_r. reflexivity.
    + cbn [task_entries flat_map app nth_error] in He.
      cbn [map nth_error]. rewrite (Hnth k e He).
      rewrite length_app. cbn [List.length].
      replace (List.length acc + 1 + k + 1)%nat with (List.length acc + S k + 1)%nat
        by lia.
      reflexivity.
Qed.

Lemma entries_without_own_id (items : list Json.value) :
  Forall (fun entry => no_own_id (Json.JObj entry))
    (task_entries (Json.JArr items)) ->
  Forall no_own_id items.
Proof.
  induction items as [| item items IH]; intros H; [constructor |].
  destruct item; try (constructor; [exact I | apply IH; exact H]).
  cbn [task_entries flat_map app] in H. inversion H as [| ? ? Hd Hrest]; subst.
  constructor; [exact Hd | apply IH; exact Hrest].
Qed.

Lemma recover_data_log (w : World) (state : BuildState) (line raw : string) :
  fst (Planner.recover w (log state line) raw) = fst (Planner.recover w state raw).
Proof.
  unfold Planner.recover. destruct (Json.loads raw); [reflexivity |].
  cbv zeta. destruct (_ || _); [reflexivity |].
  destruct (Json.loads _); reflexivity.
Qed.

(** C8 (amended).  Whenever the planning step returns, whichever way its
    data was recovered (the parsed answer, the parsed extraction or the
    fallback), the data is an object with a task list, and the stored tasks
    are the dict entries of that list, in order: the [k]-th of them
    (counting from 1) has the identifier [str(task_id)] of its entry when
    the entry has a [task_id], else [str(id)] when it has an [id], else
    [task<k>].  Hence, when no entry carries an identifier of its own, the
    identifiers are [task1], ..., [task<n>]: unique and non-empty. *)
Theorem synthesized_task_ids (w : World) (state s' : BuildState) :
  result_of (Planner.planner_node w state) = Ok s' ->
  exists d v,
    planner_data w state = Json.JObj d
    /\ Json.dict_get d "tasks" = Some v
    /\ List.length (tasks s') = List.length (task_entries v)
    /\ (forall k entry,
          nth_error (task_entries v) k = Some entry ->
          nth_error (map task_id (tasks s')) k
          = Some (expected_id w (k + 1) entry))
    /\ (Forall (fun entry => no_own_id (Json.JObj entry)) (task_entries v) ->
        map task_id (tasks s') = synthesized_ids (List.length (tasks s'))
        /\ NoDup (map task_id (tasks s'))
        /\ Forall (fun i => i <> "") (map task_id (tasks s'))).
Proof.
  unfold Planner.planner_node, planner_data. cbv zeta.
  rewrite <- (recover_data_log w state
                ("Planner raw response: "
                 ++ Py.take 200 (chat w (Some "planning") [request state]) ++ "...")).
  destruct (Planner.recover w _ _) as [data st] eqn:E. cbn [fst].
  destruct (Planner.build w data) as [[prd_md ts] | e] eqn:B; [| discriminate].
  intros H. injection H as <-. cbn [tasks log set_tasks set_prd].
  assert (Hd : exists d, data = Json.JObj d).
  { destruct data; try discriminate B. eexists. reflexivity. }
  destruct Hd as [d ->].
  destruct (build_converted w d prd_md ts B) as (v & converted & Hv & Hc & Hids).
  exists d, v. split; [reflexivity |]. split; [exact Hv |].
  assert (Hspec : List.length ts = List.length (task_entries v)
                  /\ forall k entry,
                       nth_error (task_entries v) k = Some entry ->
                       nth_error (map task_id ts) k
                       = Some (expected_id w (k + 1) entry)).
  { rewrite <- (length_map task_id ts), Hids.
    destruct v as [ | | | | | elements | ]; try discriminate Hc; injection Hc as <-;
      try (split; [reflexivity | intros [| k] entry Hk; discriminate Hk]).
    destruct (convert_entries w elements []) as (new & Hfold & Hlen & Hnth).
    rewrite Hfold. cbn [app]. rewrite length_map.
    split; [exact Hlen |]. intros k entry Hk. exact (Hnth k entry Hk). }
  destruct Hspec as [Hlen Hnth]. split; [exact Hlen |]. split; [exact Hnth |].
  intros Hfree.
  assert (Hsyn : map task_id ts = synthesized_ids (List.length ts)).
  { destruct v as [ | | | | | elements | ]; try discriminate Hc;
      try (injection Hc as <-; destruct ts; [reflexivity | discriminate Hids]).
    apply (build_synthesized_ids w d elements prd_md ts Hv);
      [apply entries_without_own_id; exact Hfree | exact B]. }
  rewrite Hsyn. split; [reflexivity |].
  split; [apply synthesized_ids_NoDup | apply synthesized_ids_nonempty].
Qed.

Lemma synthesized_task_ids_witness :
  let w := sample_world (completes_with 0) python_tree
             (Py.quoted
                ("Here is the plan: {'prd_md': 'P', 'tasks': [{'title': 'x'}, 7, "
                 ++ "{'id': 12, 'task_desc': 'y'}, {'task_id': 'a', 'id': 'b', "
                 ++ "'title': 'z'}, {'title': 'u'}]} Done.")) in
  exists s' d v,
    result_of (Planner.planner_node w sample_state) = Ok s'
    /\ map task_id (tasks s') = ["task1"; "12"; "a"; "task4"]
    /\ planner_data w sample_state = Json.JObj d
    /\ Json.dict_get d "tasks" = Some v
    /\ List.length (tasks s') = List.length (task_entries v)
    /\ (forall k entry,
          nth_error (task_entries v) k = Some entry ->
          nth_error (map task_id (tasks s')) k
          = Some (expected_id w (k + 1) entry))
    /\ (Forall (fun entry => no_own_id (Json.JObj entry)) (task_entries v) ->
        map task_id (tasks s') = synthesized_ids (List.length (tasks s'))
        /\ NoDup (map task_id (tasks s'))
        /\ Forall (fun i => i <> "") (map task_id (tasks s'))).
Proof.
  cbv zeta.
  destruct (result_of
              (Planner.planner_node
                 (sample_world (completes_with 0) python_tree
                    (Py.quoted
                       ("Here is the plan: {'prd_md': 'P', 'tasks': [{'title': 'x'}, 7, "
                        ++ "{'id': 12, 'task_desc': 'y'}, {'task_id': 'a', 'id': 'b', "
                        ++ "'title': 'z'}, {'title': 'u'}]} Done.")))
                 sample_state)) as [s' | e] eqn:E; [| vm_compute in E; discriminate E].
  destruct (synthesized_task_ids _ _ s' E) as (d & v & H).
  exists s', d, v. split; [reflexivity |]. split; [| exact H].
  vm_compute in E. injection E as <-. reflexivity.
Defined.

(** C8 as stated fails.  Identifiers supplied upstream are kept: two tasks
    with the same [id] stay duplicates, an empty [id] stays empty, and the
    identifier synthesized for the fifth entry collides with the [id] of
    the fourth. *)
Lemma upstream_ids_are_kept :
  let w := sample_world (completes_with 0) python_tree
             (Py.quoted
                ("{'prd_md': 'P', 'tasks': [{'id': 'a', 'title': 't'}, "
                 ++ "{'id': 'a', 'title': 'u'}, {'id': '', 'title': 'v'}, "
                 ++ "{'id': 'task5', 'title': 'x'}, {'title': 'y'}]}")) in
  exists s',
    result_of (Planner.planner_node w sample_state) = Ok s'
    /\ map task_id (tasks s') = ["a"; "a"; ""; "task5"; "task5"].
Proof.
  cbv zeta. eexists. split; vm_compute; reflexivity.
Qed.

(** ** The analyzer and the excluded directories *)

Arguments Py.mem : simpl never.
Arguments Py.contains : simpl never.

Lemma Entry_nested_ind (P : Entry -> Prop) :
  (forall n c, P (File n c)) ->
  (forall n entries, Forall P entries -> P (Dir n entries)) ->
  forall e, P e.
Proof.
  intros HF HD. fix IH 1. intros [n c | n entries]; [apply HF | apply HD].
  induction entries as [| e rest IHrest]; constructor; [apply IH | exact IHrest].
Qed.

Lemma same_outside_name (a b : Entry) :
  same_outside_excluded a b = true -> entry_name a = entry_name b.
Proof.
  destruct a, b; simpl; try discriminate; intros H;
    apply andb_prop in H; destruct H as [H _]; now apply String.eqb_eq in H.
Qed.

Lemma files_here_same (rel : list string) (entries : list Entry) :
  forall entries',
    all2 same_outside_excluded entries entries' = true ->
    LanguageDetector.files_here rel entries
    = LanguageDetector.files_here rel entries'.
Proof.
  induction entries as [| a rest IH]; intros [| b rest']; simpl;
    try discriminate; [reflexivity |].
  intros H. apply andb_prop in H. destruct H as [Hab Hrest].
  specialize (IH rest' Hrest).
  destruct a as [n c | n sub], b as [n' c' | n' sub']; simpl in Hab;
    try discriminate.
  - apply andb_prop in Hab. destruct Hab as [Hn _].
    apply String.eqb_eq in Hn. subst n'. rewrite IH. reflexivity.
  - exact IH.
Qed.

Lemma walk_dir (rel : list string) (n : string) (entries : list Entry) :
  LanguageDetector.walk rel (Dir n entries)
  = (LanguageDetector.files_here rel entries
     ++ flat_map (walk_into rel) entries)%list.
Proof. reflexivity. Qed.

Lemma walk_same (e1 : Entry) :
  forall e2 rel,
    same_outside_excluded e1 e2 = true ->
    Py.mem (entry_name e1) LanguageDetector.ignore_dirs = false ->
    LanguageDetector.walk rel e1 = LanguageDetector.walk rel e2.
Proof.
  induction e1 as [n c | n entries IH] using Entry_nested_ind;
    intros e2 rel Hsame Hname.
  - destruct e2; [reflexivity | discriminate].
  - destruct e2 as [| n' entries']; [discriminate |].
    simpl in Hsame, Hname. rewrite Hname in Hsame. simpl in Hsame.
    apply andb_prop in Hsame. destruct Hsame as [_ Hall].
    rewrite !walk_dir. rewrite (files_here_same rel entries entries' Hall).
    f_equal. clear Hname. revert entries' Hall.
    induction IH as [| a rest Ha _ IHrest]; intros [| b rest']; simpl;
      try discriminate; [reflexivity |].
    intros H. apply andb_prop in H. destruct H as [Hab Hrest].
    rewrite (IHrest rest' Hrest). f_equal.
    pose proof (same_outside_name a b Hab) as Hnames.
    destruct a as [an ac | an asub], b as [bn bc | bn bsub];
      try discriminate; [reflexivity |].
    simpl in Hnames. subst bn. unfold walk_into.
    destruct (Py.mem an LanguageDetector.ignore_dirs) eqn:E; [reflexivity |].
    apply Ha; [exact Hab | exact E].
Qed.

Lemma list_all_files_same (root1 root2 : list Entry) :
  differ_only_in_excluded root1 root2 = true ->
  LanguageDetector.list_all_files root1 = LanguageDetector.list_all_files root2.
Proof.
  intros H. unfold LanguageDetector.list_all_files. f_equal.
  apply walk_same; [| reflexivity].
  simpl. exact H.
Qed.

Lemma files_here_in (rel : list string) (entries : list Entry)
  (components : list string) :
  In components (LanguageDetector.files_here rel entries) ->
  exists name content,
    In (File name content) entries /\ components = (rel ++ [name])%list.
Proof.
  induction entries as [| a rest IH]; simpl; [contradiction |].
  destruct a as [n c | n sub].
  - destruct (Py.mem n LanguageDetector.ignore_files).
    + intros H. destruct (IH H) as (name & content & Hin & Heq).
      exists name, content. split; [right; exact Hin | exact Heq].
    + intros [H | H].
      * exists n, c. split; [left; reflexivity | symmetry; exact H].
      * destruct (IH H) as (name & content & Hin & Heq).
        exists name, content. split; [right; exact Hin | exact Heq].
  - intros H. destruct (IH H) as (name & content & Hin & Heq).
    exists name, content. split; [right; exact Hin | exact Heq].
Qed.

(** Every path [walk] lists goes through directories that are not excluded
    and, in a tree with proper names, consists of names without separator. *)
Lemma walk_paths (e : Entry) :
  forall rel components,
    In components (LanguageDetector.walk rel e) ->
    exists tail,
      components = (rel ++ tail)%list /\ tail <> []
      /\ dirs_allowed tail = true
      /\ (names_ok e = true ->
          Forall (fun n => Py.contains "/" n = false) tail).
Proof.
  induction e as [n c | n entries IH] using Entry_nested_ind;
    intros rel components Hin.
  - destruct Hin.
  - rewrite walk_dir in Hin. apply in_app_or in Hin. destruct Hin as [Hin | Hin].
    + apply files_here_in in Hin. destruct Hin as (name & content & Hin & ->).
      exists [name]. repeat split; try reflexivity; try discriminate.
      intros Hok. simpl in Hok. apply andb_prop in Hok. destruct Hok as [_ Hok].
      rewrite forallb_forall in Hok. specialize (Hok _ Hin). simpl in Hok.
      constructor; [| constructor].
      destruct (Py.contains "/" name); [discriminate | reflexivity].
    + apply in_flat_map in Hin. destruct Hin as (c & Hc & Hin).
      rewrite Forall_forall in IH. specialize (IH c Hc).
      destruct c as [cn cc | cn csub]; [destruct Hin |].
      unfold walk_into in Hin.
      destruct (Py.mem cn LanguageDetector.ignore_dirs) eqn:E; [destruct Hin |].
      destruct (IH _ _ Hin) as (tail & -> & Hne & Hdirs & Hnames).
      exists (cn :: tail). split; [rewrite <- app_assoc; reflexivity |].
      split; [discriminate |]. split.
      * destruct tail as [| t tail']; [congruence |].
        change (dirs_allowed (cn :: t :: tail'))
          with (negb (Py.mem cn LanguageDetector.ignore_dirs)
                && dirs_allowed (t :: tail')).
        rewrite E, Hdirs. reflexivity.
      * intros Hok. simpl in Hok. apply andb_prop in Hok. destruct Hok as [_ Hok].
        rewrite forallb_forall in Hok. specialize (Hok _ Hc).
        pose proof Hok as Hok'. simpl in Hok'. apply andb_prop in Hok'.
        destruct Hok' as [Hcn _].
        constructor; [| exact (Hnames Hok)].
        destruct (Py.contains "/" cn); [discriminate | reflexivity].
Qed.

Lemma entry_named_same (name : string) (entries : list Entry) :
  forall entries',
    all2 same_outside_excluded entries entries' = true ->
    match LanguageDetector.entry_named name entries,
          LanguageDetector.entry_named name entries' with
    | Some a, Some b => same_outside_excluded a b = true /\ entry_name a = name
    | None, None => True
    | _, _ => False
    end.
Proof.
  induction entries as [| a rest IH]; intros [| b rest']; simpl;
    try discriminate; [exact (fun _ => I) |].
  intros H. apply andb_prop in H. destruct H as [Hab Hrest].
  pose proof (same_outside_name a b Hab) as Hnames.
  change (match a with File n _ => n | Dir n _ => n end) with (entry_name a).
  change (match b with File n _ => n | Dir n _ => n end) with (entry_name b).
  rewrite <- Hnames.
  destruct (String.eqb (entry_name a) name) eqn:E.
  - split; [exact Hab | now apply String.eqb_eq].
  - apply IH. exact Hrest.
Qed.

Lemma resolve_same (components : list string) :
  forall entries entries',
    all2 same_outside_excluded entries entries' = true ->
    dirs_allowed components = true ->
    LanguageDetector.resolve entries components
    = LanguageDetector.resolve entries' components.
Proof.
  induction components as [| name rest IH]; intros entries entries' Hall Hdirs;
    [reflexivity |].
  pose proof (entry_named_same name entries entries' Hall) as Hnamed.
  destruct rest as [| name2 rest'].
  - simpl.
    destruct (LanguageDetector.entry_named name entries) as [a |],
             (LanguageDetector.entry_named name entries') as [b |];
      try contradiction; [| reflexivity].
    destruct Hnamed as [Hab _].
    destruct a as [n c | n sub], b as [n' c' | n' sub']; try discriminate;
      [| reflexivity].
    simpl in Hab. apply andb_prop in Hab. destruct Hab as [_ Hc].
    apply String.eqb_eq in Hc. now subst.
  - change (dirs_allowed (name :: name2 :: rest'))
      with (negb (Py.mem name LanguageDetector.ignore_dirs)
            && dirs_allowed (name2 :: rest')) in Hdirs.
    apply andb_prop in Hdirs. destruct Hdirs as [Hname Hrest].
    change (LanguageDetector.resolve entries (name :: name2 :: rest'))
      with (match LanguageDetector.entry_named name entries with
            | Some (Dir _ sub) => LanguageDetector.resolve sub (name2 :: rest')
            | _ => None
            end).
    change (LanguageDetector.resolve entries' (name :: name2 :: rest'))
      with (match LanguageDetector.entry_named name entries' with
            | Some (Dir _ sub) => LanguageDetector.resolve sub (name2 :: rest')
            | _ => None
            end).
    destruct (LanguageDetector.entry_named name entries) as [a |],
             (LanguageDetector.entry_named name entries') as [b |];
      try contradiction; [| reflexivity].
    destruct Hnamed as [Hab Hn].
    destruct a as [n c | n sub], b as [n' c' | n' sub']; try discriminate;
      [reflexivity |].
    simpl in Hn. subst n. simpl in Hab.
    apply andb_prop in Hab. destruct Hab as [_ Hsub].
    destruct (Py.mem name LanguageDetector.ignore_dirs); [discriminate |].
    simpl in Hsub. apply IH; assumption.
Qed.

Lemma split_no_sep (c : ascii) (x : string) :
  Py.find_opt (String c "") x = None -> Py.split c x = [x].
Proof.
  induction x as [| a x IH]; intros H; [reflexivity |].
  rewrite find_opt_char_cons in H.
  destruct (ascii_dec c a) as [| Hne]; [discriminate |].
  destruct (Py.find_opt (String c "") x); [discriminate |].
  simpl. rewrite (IH eq_refl).
  destruct (Ascii.eqb a c) eqn:E; [| reflexivity].
  apply Ascii.eqb_eq in E. congruence.
Qed.

Lemma split_app_sep (c : ascii) (x r : string) :
  Py.find_opt (String c "") x = None ->
  Py.split c (x ++ String c r) = x :: Py.split c r.
Proof.
  induction x as [| a x IH]; intros H.
  - simpl. rewrite Ascii.eqb_refl. reflexivity.
  - rewrite find_opt_char_cons in H.
    destruct (ascii_dec c a) as [| Hne]; [discriminate |].
    destruct (Py.find_opt (String c "") x); [discriminate |].
    simpl. rewrite (IH eq_refl).
    destruct (Ascii.eqb a c) eqn:E; [| reflexivity].
    apply Ascii.eqb_eq in E. congruence.
Qed.

Lemma contains_false (sub s : string) :
  Py.contains sub s = false -> Py.find_opt sub s = None.
Proof.
  unfold Py.contains. destruct (Py.find_opt sub s); [discriminate | reflexivity].
Qed.

(** A relative path splits back into its components. *)
Lemma split_rel_path (tail : list string) :
  tail <> [] ->
  Forall (fun n => Py.contains "/" n = false) tail ->
  Py.split "/"%char (LanguageDetector.rel_path tail) = tail.
Proof.
  unfold LanguageDetector.rel_path.
  induction tail as [| x rest IH]; intros Hne Hall; [congruence |].
  inversion Hall as [| ? ? Hx Hrest]; subst.
  apply contains_false in Hx.
  destruct rest as [| y rest'].
  - simpl. apply split_no_sep. exact Hx.
  - change (Py.join "/" (x :: y :: rest'))
      with (x ++ String "/"%char (Py.join "/" (y :: rest'))).
    rewrite (split_app_sep "/"%char x _ Hx).
    rewrite IH; [reflexivity | discriminate | exact Hrest].
Qed.

(** The files the analyzer lists read the same in both trees. *)
Lemma read_file_content_same (root1 root2 : list Entry) (p : string) :
  differ_only_in_excluded root1 root2 = true ->
  forallb names_ok root1 = true ->
  In p (LanguageDetector.list_all_files root1) ->
  LanguageDetector.read_file_content root1 p
  = LanguageDetector.read_file_content root2 p.
Proof.
  intros Hsame Hok Hin.
  unfold LanguageDetector.list_all_files in Hin.
  apply in_map_iff in Hin. destruct Hin as (components & <- & Hin).
  destruct (walk_paths _ _ _ Hin) as (tail & Heq & Hne & Hdirs & Hnames).
  simpl in Heq. subst components.
  assert (Hroot : names_ok (Dir "" root1) = true) by (simpl; exact Hok).
  unfold LanguageDetector.read_file_content.
  rewrite (split_rel_path tail Hne (Hnames Hroot)).
  rewrite (resolve_same tail root1 root2 Hsame Hdirs). reflexivity.
Qed.

Lemma fold_left_ext_in {A B : Type} (f g : A -> B -> A) (l : list B) :
  (forall a x, In x l -> f a x = g a x) ->
  forall a, fold_left f l a = fold_left g l a.
Proof.
  induction l as [| x l IH]; intros H a; simpl; [reflexivity |].
  rewrite (H a x (or_introl eq_refl)). apply IH.
  intros a' x' Hx'. apply H. right. exact Hx'.
Qed.

Lemma detect_frameworks_same (root1 root2 : list Entry) (files : list string)
  (structure : ProjectProfile) :
  (forall p, In p files ->
             LanguageDetector.read_file_content root1 p
             = LanguageDetector.read_file_content root2 p) ->
  LanguageDetector.detect_frameworks_and_type root1 files structure
  = LanguageDetector.detect_frameworks_and_type root2 files structure.
Proof.
  intros H. unfold LanguageDetector.detect_frameworks_and_type.
  destruct (LanguageDetector.assoc _ _) as [table |]; [| reflexivity].
  f_equal. apply fold_left_ext_in.
  intros found p Hp. rewrite (H p Hp). reflexivity.
Qed.

(** C9.  Two directory trees with proper names that differ only in what
    lies inside excluded directories (at any depth) give the same
    [ProjectProfile], field for field. *)
Theorem analyzer_ignores_excluded (root1 root2 : list Entry) :
  forallb names_ok root1 = true ->
  differ_only_in_excluded root1 root2 = true ->
  LanguageDetector.analyze root1 = LanguageDetector.analyze root2.
Proof.
  intros Hok Hsame.
  unfold LanguageDetector.analyze.
  rewrite <- (list_all_files_same root1 root2 Hsame).
  cbv zeta. do 2 f_equal.
  apply detect_frameworks_same.
  intros p Hp. apply read_file_content_same; assumption.
Qed.

Lemma analyzer_ignores_excluded_witness :
  let before := node_project [File "left-pad.js" "module.exports = 1"] in
  let after :=
    node_project [Dir "express" [File "index.js" "import React"];
                  File "setup.py" "import pytest"; File "x_test.go" ""] in
  forallb names_ok before = true
  /\ differ_only_in_excluded before after = true
  /\ LanguageDetector.analyze before = LanguageDetector.analyze after.
Proof.
  cbv zeta.
  split; [reflexivity |]. split; [reflexivity |].
  exact (analyzer_ignores_excluded
           (node_project [File "left-pad.js" "module.exports = 1"])
           (node_project [Dir "express" [File "index.js" "import React"];
                          File "setup.py" "import pytest"; File "x_test.go" ""])
           eq_refl eq_refl).
Defined.


(** ** The bounds of the scanner are ample *)

Lemma skip_ws_length (s : string) :
  (String.length (Json.skip_ws s) <= String.length s)%nat.
Proof.
  induction s as [| a s IH]; simpl; [lia |].
  destruct (Json.is_ws a); simpl; lia.
Qed.

Lemma hex4_length (s : string) (u : N) (r : string) :
  Json.hex4 s = Some (u, r) -> String.length s = (4 + String.length r)%nat.
Proof.
  destruct s as [| a [| b [| c [| d rest]]]]; simpl; try discriminate.
  destruct (Json.hex_val a), (Json.hex_val b), (Json.hex_val c), (Json.hex_val d);
    try discriminate.
  intros H. injection H as _ <-. reflexivity.
Qed.

Lemma is_backslash_u_length (s r : string) :
  Json.is_backslash_u s = Some r -> String.length s = (2 + String.length r)%nat.
Proof.
  destruct s as [| a [| b rest]]; simpl; try discriminate.
  destruct (_ && _); [| discriminate].
  intros H. injection H as <-. reflexivity.
Qed.

Ltac crack H :=
  repeat match type of H with
    | context [match ?x with _ => _ end] =>
        let E := fresh "E" in destruct x eqn:E; try discriminate H
    end.

Lemma scan_string_length (fuel : nat) :
  forall s x r,
    Json.scan_string fuel s = Some (x, r) ->
    (String.length r < String.length s)%nat.
Proof.
  induction fuel as [| fuel IH]; intros s x r H; [discriminate |].
  destruct s as [| c rest]; [discriminate |].
  cbn [Json.scan_string] in H. cbv zeta in H.
  crack H;
    repeat match goal with
      | E : Json.scan_string fuel _ = Some _ |- _ => apply IH in E
      | E : Json.hex4 _ = Some _ |- _ => apply hex4_length in E
      | E : Json.is_backslash_u _ = Some _ |- _ =>
          apply is_backslash_u_length in E
      end;
    injection H as _ <-; simpl in *; lia.
Qed.

Ltac lengths :=
  repeat match goal with
    | E : Json.hex4 _ = Some (_, _) |- _ => apply hex4_length in E
    | E : Json.is_backslash_u _ = Some _ |- _ => apply is_backslash_u_length in E
    end.

Ltac agree IH :=
  repeat first
    [ reflexivity
    | rewrite IH by (lengths; simpl in *; lia)
    | match goal with
      | |- context [match ?x with _ => _ end] =>
          let E := fresh "E" in destruct x eqn:E
      end ].

(** More fuel than the text has characters changes nothing. *)
Lemma scan_string_fuel (f1 : nat) :
  forall f2 s,
    (String.length s < f1)%nat -> (String.length s < f2)%nat ->
    Json.scan_string f1 s = Json.scan_string f2 s.
Proof.
  induction f1 as [| f1 IH]; intros f2 s H1 H2; [lia |].
  destruct f2 as [| f2]; [lia |].
  destruct s as [| c rest]; [reflexivity |].
  cbn [Json.scan_string]. cbv zeta. simpl in H1, H2.
  specialize (IH f2).
  agree IH.
Qed.

Lemma take_digits_length (s : string) :
  forall d r,
    Json.take_digits s = (d, r) ->
    String.length s = (String.length d + String.length r)%nat.
Proof.
  induction s as [| c s IH]; intros d r; simpl.
  - intros H. injection H as <- <-. reflexivity.
  - destruct (Json.is_digit c).
    + destruct (Json.take_digits s) as [d' r'] eqn:E.
      intros H. injection H as <- <-. simpl. rewrite (IH d' r' eq_refl). reflexivity.
    + intros H. injection H as <- <-. reflexivity.
Qed.

Lemma strip_prefix_length (lit : string) :
  forall s r,
    Json.strip_prefix lit s = Some r ->
    String.length s = (String.length lit + String.length r)%nat.
Proof.
  induction lit as [| a lit IH]; intros s r; simpl.
  - intros H. injection H as <-. reflexivity.
  - destruct s as [| b s]; [discriminate |].
    destruct (Ascii.eqb a b); [| discriminate].
    intros H. simpl. rewrite (IH s r H). reflexivity.
Qed.

Ltac digit_facts :=
  repeat match goal with
    | E : Json.take_digits _ = (_, _) |- _ => apply take_digits_length in E
    | E : Json.strip_prefix _ _ = Some _ |- _ => apply strip_prefix_length in E
    end.

Lemma int_part_length (s ip r : string) :
  Json.int_part s = Some (ip, r) -> (String.length r < String.length s)%nat.
Proof.
  unfold Json.int_part. intros H. crack H;
    injection H as _ <-; digit_facts; simpl in *; lia.
Qed.

Lemma frac_part_length (s fp r : string) :
  Json.frac_part s = (fp, r) -> (String.length r <= String.length s)%nat.
Proof.
  unfold Json.frac_part. intros H. crack H;
    injection H as _ <-; digit_facts; simpl in *; lia.
Qed.

Lemma exp_part_length (s ep r : string) :
  Json.exp_part s = (ep, r) -> (String.length r <= String.length s)%nat.
Proof.
  unfold Json.exp_part. intros H. crack H;
    try match goal with
      | E : match ?t with _ => _ end = (_, ?u) |- _ =>
          assert (String.length u <= String.length t)%nat
            by (clear - E; crack E; injection E as _ <-; simpl; lia)
      end;
    injection H as _ <-; digit_facts; simpl in *; lia.
Qed.

Lemma scan_number_length (s : string) (v : Json.value) (r : string) :
  Json.scan_number s = Some (v, r) -> (String.length r < String.length s)%nat.
Proof.
  unfold Json.scan_number.
  destruct (match s with
            | String c s' => if (N_of_ascii c =? 45)%N then (true, s') else (false, s)
            | EmptyString => (false, s)
            end) as [neg s1] eqn:E0.
  assert (H1 : (String.length s1 <= String.length s)%nat).
  { destruct s as [| c s']; [injection E0 as _ <-; lia |].
    destruct (N_of_ascii c =? 45)%N; injection E0 as _ <-; simpl; lia. }
  destruct (Json.int_part s1) as [[ip s2] |] eqn:E1; [| discriminate].
  destruct (Json.frac_part s2) as [fp s3] eqn:E2.
  destruct (Json.exp_part s3) as [ep s4] eqn:E3.
  apply int_part_length in E1. apply frac_part_length in E2.
  apply exp_part_length in E3.
  destruct fp, ep; intros H; injection H as _ <-; lia.
Qed.

Lemma scan_atom_length (s : string) (v : Json.value) (r : string) :
  Json.scan_atom s = Some (v, r) -> (String.length r < String.length s)%nat.
Proof.
  unfold Json.scan_atom. intros H. crack H;
    first [injection H as _ <- | injection H as ->]; digit_facts;
    try match goal with
      | E : Json.scan_number _ = Some _ |- _ => apply scan_number_length in E
      end;
    simpl in *; lia.
Qed.

Ltac ws_facts :=
  repeat match goal with
    | E : Json.skip_ws ?x = _ |- _ =>
        let H := fresh "Hws" in
        pose proof (skip_ws_length x) as H; rewrite E in H; clear E
    end;
  repeat match goal with
    | E : context [String.length (Json.skip_ws ?x)] |- _ =>
        lazymatch goal with
        | _ : (String.length (Json.skip_ws x) <= String.length x)%nat |- _ => fail
        | _ => pose proof (skip_ws_length x)
        end
    end.

Lemma scan_members_length scan (k : nat) :
  consumes scan ->
  forall acc t v r,
    Json.scan_members scan k acc t = Some (v, r) ->
    (String.length r < String.length t)%nat.
Proof.
  intros Hc. induction k as [| k IH]; intros acc t v r H; [discriminate |].
  cbn [Json.scan_members] in H. cbv zeta in H.
  crack H;
    repeat match goal with
      | E : Json.scan_string _ _ = Some _ |- _ => apply scan_string_length in E
      | E : scan _ = Some _ |- _ => apply Hc in E
      end.
  - injection H as _ <-. ws_facts. simpl in *. lia.
  - apply IH in H. ws_facts. simpl in *. lia.
Qed.

Lemma scan_elements_length scan (k : nat) :
  consumes scan ->
  forall acc t v r,
    Json.scan_elements scan k acc t = Some (v, r) ->
    (String.length r < String.length t)%nat.
Proof.
  intros Hc. induction k as [| k IH]; intros acc t v r H; [discriminate |].
  cbn [Json.scan_elements] in H.
  crack H;
    repeat match goal with
      | E : scan _ = Some _ |- _ => apply Hc in E
      end.
  - injection H as _ <-. ws_facts. simpl in *. lia.
  - apply IH in H. ws_facts. simpl in *. lia.
Qed.

(** Every value the scanner accepts takes at least one character. *)
Lemma scan_once_consumes (fuel : nat) : consumes (Json.scan_once fuel).
Proof.
  induction fuel as [| fuel IH]; intros t v r H; [discriminate |].
  cbn [Json.scan_once] in H. cbv zeta in H.
  destruct t as [| c rest]; [discriminate |].
  destruct (N_of_ascii c =? 34)%N.
  { destruct (Json.scan_string _ rest) as [[str r0] |] eqn:E; [| discriminate].
    apply scan_string_length in E. injection H as _ <-. simpl. lia. }
  destruct (N_of_ascii c =? 123)%N.
  { destruct (Json.skip_ws rest) as [| c1 r1] eqn:E; [discriminate |].
    destruct (N_of_ascii c1 =? 125)%N.
    - injection H as _ <-. ws_facts. simpl in *. lia.
    - apply (scan_members_length _ _ IH) in H. ws_facts. simpl in *. lia. }
  destruct (N_of_ascii c =? 91)%N.
  { destruct (Json.skip_ws rest) as [| c1 r1] eqn:E; [discriminate |].
    destruct (N_of_ascii c1 =? 93)%N.
    - injection H as _ <-. ws_facts. simpl in *. lia.
    - apply (scan_elements_length _ _ IH) in H. ws_facts. simpl in *. lia. }
  apply scan_atom_length in H. exact H.
Qed.

(** Two scanners that agree on the texts no longer than [t] give the same
    members and the same items of [t]. *)
Lemma scan_members_agree scan1 scan2 (k : nat) :
  consumes scan1 ->
  forall acc t,
    (forall t', (String.length t' <= String.length t)%nat -> scan1 t' = scan2 t') ->
    Json.scan_members scan1 k acc t = Json.scan_members scan2 k acc t.
Proof.
  intros Hc. induction k as [| k IH]; intros acc t Hag; [reflexivity |].
  cbn [Json.scan_members]. cbv zeta.
  destruct t as [| q t1]; [reflexivity |].
  destruct (N_of_ascii q =? 34)%N; [| reflexivity].
  destruct (Json.scan_string _ t1) as [[key t2] |] eqn:E1; [| reflexivity].
  apply scan_string_length in E1.
  destruct (Json.skip_ws t2) as [| colon t3] eqn:E2; [reflexivity |].
  destruct (N_of_ascii colon =? 58)%N; [| reflexivity].
  pose proof (skip_ws_length t3) as Ht3. ws_facts.
  rewrite <- Hag by (simpl in *; lia).
  destruct (scan1 (Json.skip_ws t3)) as [[v t4] |] eqn:E3; [| reflexivity].
  apply Hc in E3.
  destruct (Json.skip_ws t4) as [| d t5] eqn:E4; [reflexivity |].
  destruct (N_of_ascii d =? 125)%N; [reflexivity |].
  destruct (N_of_ascii d =? 44)%N; [| reflexivity].
  pose proof (skip_ws_length t5) as Ht5. ws_facts.
  apply IH. intros t' Ht'. apply Hag. simpl in *. lia.
Qed.

Lemma scan_elements_agree scan1 scan2 (k : nat) :
  consumes scan1 ->
  forall acc t,
    (forall t', (String.length t' <= String.length t)%nat -> scan1 t' = scan2 t') ->
    Json.scan_elements scan1 k acc t = Json.scan_elements scan2 k acc t.
Proof.
  intros Hc. induction k as [| k IH]; intros acc t Hag; [reflexivity |].
  cbn [Json.scan_elements].
  rewrite <- Hag by lia.
  destruct (scan1 t) as [[v t1] |] eqn:E1; [| reflexivity].
  apply Hc in E1.
  destruct (Json.skip_ws t1) as [| d t2] eqn:E2; [reflexivity |].
  destruct (N_of_ascii d =? 93)%N; [reflexivity |].
  destruct (N_of_ascii d =? 44)%N; [| reflexivity].
  pose proof (skip_ws_length t2) as Ht2. ws_facts.
  apply IH. intros t' Ht'. apply Hag. simpl in *. lia.
Qed.

(** The bound on the number of members, and on the number of items, is
    ample: any bound above the length of the text gives the same result. *)
Lemma scan_members_fuel scan (k1 : nat) :
  consumes scan ->
  forall k2 acc t,
    (String.length t < k1)%nat -> (String.length t < k2)%nat ->
    Json.scan_members scan k1 acc t = Json.scan_members scan k2 acc t.
Proof.
  intros Hc. induction k1 as [| k1 IH]; intros k2 acc t H1 H2; [lia |].
  destruct k2 as [| k2]; [lia |].
  cbn [Json.scan_members]. cbv zeta.
  destruct t as [| q t1]; [reflexivity |].
  destruct (N_of_ascii q =? 34)%N; [| reflexivity].
  destruct (Json.scan_string _ t1) as [[key t2] |] eqn:E1; [| reflexivity].
  apply scan_string_length in E1.
  destruct (Json.skip_ws t2) as [| colon t3] eqn:E2; [reflexivity |].
  destruct (N_of_ascii colon =? 58)%N; [| reflexivity].
  pose proof (skip_ws_length t3) as Ht3. ws_facts.
  destruct (scan (Json.skip_ws t3)) as [[v t4] |] eqn:E3; [| reflexivity].
  apply Hc in E3.
  destruct (Json.skip_ws t4) as [| d t5] eqn:E4; [reflexivity |].
  destruct (N_of_ascii d =? 125)%N; [reflexivity |].
  destruct (N_of_ascii d =? 44)%N; [| reflexivity].
  pose proof (skip_ws_length t5) as Ht5. ws_facts.
  apply IH; simpl in *; lia.
Qed.

Lemma scan_elements_fuel scan (k1 : nat) :
  consumes scan ->
  forall k2 acc t,
    (String.length t < k1)%nat -> (String.length t < k2)%nat ->
    Json.scan_elements scan k1 acc t = Json.scan_elements scan k2 acc t.
Proof.
  intros Hc. induction k1 as [| k1 IH]; intros k2 acc t H1 H2; [lia |].
  destruct k2 as [| k2]; [lia |].
  cbn [Json.scan_elements].
  destruct (scan t) as [[v t1] |] eqn:E1; [| reflexivity].
  apply Hc in E1.
  destruct (Json.skip_ws t1) as [| d t2] eqn:E2; [reflexivity |].
  destruct (N_of_ascii d =? 93)%N; [reflexivity |].
  destruct (N_of_ascii d =? 44)%N; [| reflexivity].
  pose proof (skip_ws_length t2) as Ht2. ws_facts.
  apply IH; simpl in *; lia.
Qed.

(** The bound on the nesting depth is ample: any bound above the length of
    the text gives the same result. *)
Lemma scan_once_fuel (f1 : nat) :
  forall f2 s,
    (String.length s < f1)%nat -> (String.length s < f2)%nat ->
    Json.scan_once f1 s = Json.scan_once f2 s.
Proof.
  induction f1 as [| f1 IH]; intros f2 s H1 H2; [lia |].
  destruct f2 as [| f2]; [lia |].
  cbn [Json.scan_once]. cbv zeta.
  destruct s as [| c rest]; [reflexivity |].
  destruct (N_of_ascii c =? 34)%N; [reflexivity |].
  pose proof (skip_ws_length rest) as Hrest.
  assert (Hag : forall t',
             (String.length t' <= String.length (Json.skip_ws rest))%nat ->
             Json.scan_once f1 t' = Json.scan_once f2 t').
  { intros t' Ht'. apply IH; simpl in *; lia. }
  destruct (N_of_ascii c =? 123)%N.
  { destruct (Json.skip_ws rest) as [| c1 r1] eqn:E; [reflexivity |].
    destruct (N_of_ascii c1 =? 125)%N; [reflexivity |].
    apply scan_members_agree; [apply scan_once_consumes | exact Hag]. }
  destruct (N_of_ascii c =? 91)%N.
  { destruct (Json.skip_ws rest) as [| c1 r1] eqn:E; [reflexivity |].
    destruct (N_of_ascii c1 =? 93)%N; [reflexivity |].
    apply scan_elements_agree; [apply scan_once_consumes | exact Hag]. }
  reflexivity.
Qed.

(** [json.loads] with any bound on the nesting depth above the length of the
    text is [json.loads]. *)
Lemma loads_fuel (fuel : nat) (s : string) :
  (String.length s < fuel)%nat ->
  match Json.scan_once fuel (Json.skip_ws s) with
  | Some (v, rest) =>
      match Json.skip_ws rest with
      | EmptyString => Some v
      | String _ _ => None
      end
  | None => None
  end = Json.loads s.
Proof.
  intros H. unfold Json.loads.
  pose proof (skip_ws_length s) as Hs.
  rewrite (scan_once_fuel fuel (S (String.length s)) (Json.skip_ws s)) by lia.
  reflexivity.
Qed.

(** * Further properties of the sources *)

(** ** The dispatchers of code_runner.py *)

Lemma build_runners_return :
  Forall (fun kr => never_raises (snd kr)) CodeRunner.build_runners.
Proof.
  unfold CodeRunner.build_runners.
  repeat constructor; simpl;
    unfold CodeRunner.build_python_project, CodeRunner.build_javascript_project,
      CodeRunner.build_typescript_project, CodeRunner.build_csharp_project,
      CodeRunner.build_java_project, CodeRunner.build_go_project,
      CodeRunner.build_rust_project, CodeRunner.build_php_project,
      CodeRunner.build_ruby_project; caught.
Qed.

(** X1.  The three dispatchers of code_runner.py (tests, build, lint) never
    raise: whatever the language, the profile and the outcome of the commands
    (an exit code, a timeout, a command that cannot be started, any other
    exception), each returns a pair of an exit code and a message. *)
Theorem code_runner_never_raises (w : World) (repo : string) (pa : ProjectProfile) :
  returns (CodeRunner.run_project_tests w repo pa)
  /\ returns (CodeRunner.run_project_build w repo pa)
  /\ returns (CodeRunner.run_project_linting w repo pa).
Proof.
  split; [apply run_project_tests_returns |].
  split; [| apply run_project_linting_returns].
  unfold CodeRunner.run_project_build.
  destruct (CodeRunner.lookup _ _) as [r |] eqn:E; [| apply returns_ret].
  apply lookup_in in E.
  exact (proj1 (Forall_forall _ _) build_runners_return _ E w repo pa).
Qed.

(** ** Where the commands run *)

Lemma every_ret {A : Type} (P : Invocation -> Prop) (a : A) :
  every_invocation P (ret a).
Proof. constructor. Qed.

Lemma every_bind {A B : Type} (P : Invocation -> Prop) (m : M A) (f : A -> M B) :
  every_invocation P m -> (forall a, every_invocation P (f a)) ->
  every_invocation P (bind m f).
Proof.
  unfold every_invocation. intros Hm Hf. rewrite invocations_bind.
  destruct (result_of m) as [a | e]; [| exact Hm].
  apply Forall_app. split; [exact Hm | apply Hf].
Qed.

Lemma every_try_except {A : Type} (P : Invocation -> Prop) (m : M A)
  (h : Exn -> M A) :
  every_invocation P m -> (forall e, every_invocation P (h e)) ->
  every_invocation P (try_except m h).
Proof.
  unfold every_invocation. intros Hm Hh. rewrite invocations_try_except.
  destruct (result_of m) as [a | e]; [exact Hm |].
  apply Forall_app. split; [exact Hm | apply Hh].
Qed.

Lemma in_directory_subprocess (w : World) (cmd : list string) (cwd : string)
  (t : option Z) :
  in_directory cwd (subprocess_run w cmd cwd t).
Proof. repeat constructor. Qed.

Lemma in_directory_shell (w : World) (cmd : list string) (cwd : string) :
  in_directory cwd (Shell.run w cmd cwd).
Proof.
  unfold Shell.run. apply every_bind; [apply in_directory_subprocess |].
  intros p. apply every_ret.
Qed.

Ltac located :=
  unfold in_directory;
  first
    [ apply every_ret
    | apply in_directory_subprocess
    | apply in_directory_shell
    | apply every_bind; [| intros ?]
    | apply every_try_except; [| intros ?]
    | match goal with
      | |- every_invocation _ (on_exception _ _) => apply every_ret
      | |- every_invocation _ (on_file_not_found _ ?e) =>
          is_var e; destruct e; unfold on_file_not_found
      | |- every_invocation _ (raise _) => constructor
      | |- every_invocation _ (if ?b then _ else _) => destruct b
      | |- every_invocation _ (match ?x with _ => _ end) => destruct x
      end ].

Lemma in_directory_check_each w tool repo files passed :
  in_directory repo (CodeRunner.check_each w tool repo files passed).
Proof.
  induction files as [| f rest IH]; [apply every_ret |].
  change (CodeRunner.check_each w tool repo (f :: rest) passed)
    with (bind (subprocess_run w (tool ++ [f])%list repo (Some 30))
            (fun result =>
               if negb (returncode result =? 0) then ret (report result)
               else CodeRunner.check_each w tool repo rest passed)).
  apply every_bind; [apply in_directory_subprocess | intros r].
  destruct (negb _); [apply every_ret | exact IH].
Qed.

Lemma in_directory_build_java w repo pa :
  in_directory repo (CodeRunner.build_java_project w repo pa).
Proof. unfold CodeRunner.build_java_project. cbv zeta. repeat located. Qed.

Lemma in_directory_build_php w repo pa :
  in_directory repo (CodeRunner.build_php_project w repo pa).
Proof.
  unfold CodeRunner.build_php_project. cbv zeta.
  apply every_try_except; [| intros e; apply every_ret].
  destruct (filter _ _); [apply every_ret | apply in_directory_check_each].
Qed.

Lemma in_directory_build_ruby w repo pa :
  in_directory repo (CodeRunner.build_ruby_project w repo pa).
Proof.
  unfold CodeRunner.build_ruby_project. cbv zeta.
  apply every_try_except; [| intros e; apply every_ret].
  destruct (filter _ _); [apply every_ret | apply in_directory_check_each].
Qed.

Lemma test_runners_located :
  Forall (fun kr => forall w repo pa, in_directory repo (snd kr w repo pa))
    CodeRunner.test_runners.
Proof.
  unfold CodeRunner.test_runners.
  repeat constructor; simpl; intros w repo pa;
    unfold CodeRunner.run_python_tests, CodeRunner.run_typescript_tests,
      CodeRunner.run_javascript_tests, CodeRunner.run_csharp_tests,
      CodeRunner.run_java_tests, CodeRunner.run_go_tests,
      CodeRunner.run_rust_tests, CodeRunner.run_php_tests,
      CodeRunner.run_ruby_tests;
    cbv zeta; repeat located.
Qed.

Lemma build_runners_located :
  Forall (fun kr => forall w repo pa, in_directory repo (snd kr w repo pa))
    CodeRunner.build_runners.
Proof.
  unfold CodeRunner.build_runners.
  repeat constructor; simpl; intros w repo pa;
    first [ apply in_directory_build_java | apply in_directory_build_php
          | apply in_directory_build_ruby
          | unfold CodeRunner.build_python_project,
              CodeRunner.build_typescript_project,
              CodeRunner.build_javascript_project,
              CodeRunner.build_csharp_project, CodeRunner.build_go_project,
              CodeRunner.build_rust_project;
            cbv zeta; repeat located ].
Qed.

Lemma linters_located :
  Forall (fun kr => forall w repo pa, in_directory repo (snd kr w repo pa))
    CodeRunner.linters.
Proof.
  unfold CodeRunner.linters.
  repeat constructor; simpl; intros w repo pa;
    unfold CodeRunner.run_python_linting, CodeRunner.run_javascript_linting,
      CodeRunner.run_typescript_linting, CodeRunner.run_csharp_linting,
      CodeRunner.run_java_linting, CodeRunner.run_go_linting,
      CodeRunner.run_rust_linting, CodeRunner.run_php_linting,
      CodeRunner.run_ruby_linting;
    cbv zeta;
    try (apply every_try_except;
         [repeat located
         | intros e;
           first [apply in_directory_build_java | apply in_directory_build_php
                 | apply in_directory_build_ruby | repeat located]]).
Qed.

Lemma in_directory_lookup (table : list (string * CodeRunner.Runner))
  (fallback : string) (w : World) (repo : string) (pa : ProjectProfile) :
  Forall (fun kr => forall w repo pa, in_directory repo (snd kr w repo pa)) table ->
  in_directory repo
    match CodeRunner.lookup table (primary_language pa) with
    | Some runner => runner w repo pa
    | None => ret (0, fallback ++ primary_language pa)
    end.
Proof.
  intros H. destruct (CodeRunner.lookup _ _) as [r |] eqn:E; [| apply every_ret].
  apply lookup_in in E.
  exact (proj1 (Forall_forall _ _) H _ E w repo pa).
Qed.

Lemma runners_located (w : World) (repo : string) (pa : ProjectProfile) :
  in_directory repo (Runners.run_tests w repo pa)
  /\ in_directory repo (Runners.run_linter w repo pa)
  /\ in_directory repo (Runners.run_security_audit w repo pa).
Proof.
  unfold Runners.run_tests, Runners.run_linter, Runners.run_security_audit.
  cbv zeta. generalize (primary_language pa). intros language.
  repeat split;
    unfold Runners.run_python_tests, Runners.run_python_linter,
      Runners.run_python_audit, Runners.run_node_tests, Runners.run_node_linter,
      Runners.run_node_audit, Runners.run_dotnet_tests,
      Runners.run_dotnet_linter, Runners.run_dotnet_audit,
      Runners.run_java_tests, Runners.run_java_linter, Runners.run_java_audit,
      Runners.run_go_tests, Runners.run_go_linter, Runners.run_go_audit,
      Runners.run_rust_tests, Runners.run_rust_linter, Runners.run_rust_audit;
    cbv zeta; repeat located.
Qed.

(** X2.  Every command the capability dispatchers start, in code_runner.py
    and in runners.py, and hence every command of the tests step and of the
    security step, is started with the repository as its working directory:
    no recipe runs a command anywhere else. *)
Theorem commands_run_in_the_repository (w : World) (repo : string)
  (pa : ProjectProfile) (s : BuildState) :
  in_directory repo (CodeRunner.run_project_tests w repo pa)
  /\ in_directory repo (CodeRunner.run_project_build w repo pa)
  /\ in_directory repo (CodeRunner.run_project_linting w repo pa)
  /\ in_directory repo (Runners.run_tests w repo pa)
  /\ in_directory repo (Runners.run_linter w repo pa)
  /\ in_directory repo (Runners.run_security_audit w repo pa)
  /\ in_directory (repo_path s) (tests_node w s)
  /\ in_directory (repo_path s) (security_node w s).
Proof.
  split; [apply in_directory_lookup, test_runners_located |].
  split; [apply in_directory_lookup, build_runners_located |].
  split; [apply in_directory_lookup, linters_located |].
  split; [apply runners_located |].
  split; [apply runners_located |].
  split; [apply runners_located |].
  split.
  - unfold tests_node. cbv zeta.
    apply every_bind; [apply in_directory_lookup, linters_located |].
    intros lint. apply every_bind; [| intros test; apply every_ret].
    apply in_directory_lookup, test_runners_located.
  - unfold in_directory, every_invocation.
    rewrite security_node_invocations. repeat constructor.
Qed.

(** ** The syntax checks of PHP and Ruby projects *)

(** The loop passes over the files whose check succeeds. *)
Lemma check_each_passing (w : World) (tool : list string) (repo : string)
  (pre rest : list string) (passed : Z * string) :
  (forall g, In g pre -> check_passes w (syntax_check tool repo g)) ->
  CodeRunner.check_each w tool repo (pre ++ rest) passed
  = (fst (CodeRunner.check_each w tool repo rest passed),
     (map (syntax_check tool repo) pre
      ++ snd (CodeRunner.check_each w tool repo rest passed))%list).
Proof.
  induction pre as [| g pre IH]; intros Hpre.
  - simpl. destruct (CodeRunner.check_each w tool repo rest passed); reflexivity.
  - destruct (Hpre g (or_introl eq_refl)) as (p & Hp & Hcode).
    unfold syntax_check in Hp.
    simpl. unfold subprocess_run, bind. rewrite Hp, Hcode. simpl.
    rewrite IH by (intros g' Hg'; apply Hpre; right; exact Hg').
    reflexivity.
Qed.

(** X3.  The syntax check of a PHP project stops at the first file whose
    check fails: when the PHP source files before [f] pass [php -l] and
    the check of [f] completes with a non-zero exit code, the result is that
    exit code with the output of that check, and the commands started are
    the checks of the files up to [f], one each, in order; the files after
    [f] are not checked. *)
Theorem syntax_check_stops_at_first_failure (w : World) (repo : string)
  (pa : ProjectProfile) (pre : list string) (f : string) (post : list string)
  (p : CompletedProcess) :
  filter (fun g => Py.endswith g ".php") (source_files pa) = (pre ++ f :: post)%list ->
  (forall g, In g pre -> check_passes w (syntax_check ["php"; "-l"] repo g)) ->
  subprocess w (syntax_check ["php"; "-l"] repo f) = Ok p ->
  returncode p <> 0 ->
  CodeRunner.build_php_project w repo pa
  = (Ok (returncode p, stdout p ++ stderr p),
     map (syntax_check ["php"; "-l"] repo) (pre ++ [f])%list).
Proof.
  intros Hfiles Hpre Hf Hcode.
  unfold CodeRunner.build_php_project. cbv zeta. rewrite Hfiles.
  assert (Hloop :
            CodeRunner.check_each w ["php"; "-l"] repo (pre ++ f :: post)
              (0, "All PHP files syntax check passed")
            = (Ok (returncode p, stdout p ++ stderr p),
               map (syntax_check ["php"; "-l"] repo) (pre ++ [f])%list)).
  { rewrite (check_each_passing w ["php"; "-l"] repo pre (f :: post) _ Hpre).
    unfold syntax_check in Hf. simpl in Hf.
    simpl. unfold subprocess_run, bind. rewrite Hf.
    apply Z.eqb_neq in Hcode. rewrite Hcode. simpl.
    rewrite map_app. reflexivity. }
  destruct (pre ++ f :: post)%list as [| g l] eqn:E.
  - destruct pre; discriminate E.
  - rewrite Hloop. reflexivity.
Qed.

(** X3, an instance: three PHP files, of which the second fails. *)
Lemma syntax_check_stops_at_first_failure_witness :
  CodeRunner.build_php_project
    (sample_world
       (fun i => if Py.mem "b.php" (inv_cmd i)
                 then Ok (mkCompleted 255 "Parse error" "")
                 else Ok (mkCompleted 0 "" ""))
       [] "")
    "/repo" (profile_of "php" ["a.php"; "notes.md"; "b.php"; "c.php"])
  = (Ok (255, "Parse error"),
     [syntax_check ["php"; "-l"] "/repo" "a.php";
      syntax_check ["php"; "-l"] "/repo" "b.php"]).
Proof.
  apply (syntax_check_stops_at_first_failure _ "/repo"
           (profile_of "php" ["a.php"; "notes.md"; "b.php"; "c.php"])
           ["a.php"] "b.php" ["c.php"] (mkCompleted 255 "Parse error" "")).
  - reflexivity.
  - intros g [<- | []]. exists (mkCompleted 0 "" ""). split; reflexivity.
  - reflexivity.
  - discriminate.
Defined.

(** ** What the recipes of runners.py let through *)

Ltac runners_recipes :=
  unfold Runners.run_python_tests, Runners.run_python_linter,
    Runners.run_python_audit, Runners.run_node_tests, Runners.run_node_linter,
    Runners.run_node_audit, Runners.run_dotnet_tests,
    Runners.run_dotnet_linter, Runners.run_dotnet_audit,
    Runners.run_java_tests, Runners.run_java_linter, Runners.run_java_audit,
    Runners.run_go_tests, Runners.run_go_linter, Runners.run_go_audit,
    Runners.run_rust_tests, Runners.run_rust_linter, Runners.run_rust_audit.

(** X4.  The recipes of runners.py handle a missing command only.  When
    starting a command fails with any other exception (a permission error,
    say), the lint and audit dispatchers raise it for every language they
    know, and so does the security step, which then ends the run. *)
Theorem runners_let_other_errors_through (w : World) (e : Exn) (repo : string)
  (pa : ProjectProfile) (s : BuildState) :
  not_missing_command e ->
  Py.mem (primary_language pa) runners_languages = true ->
  result_of (Runners.run_linter (commands_raise e w) repo pa) = Raise e
  /\ result_of (Runners.run_security_audit (commands_raise e w) repo pa) = Raise e
  /\ result_of (security_node (commands_raise e w) s) = Raise e
  /\ (forall worlds k limit,
        worlds k = commands_raise e w ->
        traverse (S limit) worlds k security s = mkRun [] (Aborted e)).
Proof.
  intros He Hlang.
  assert (Hsec : result_of (security_node (commands_raise e w) s) = Raise e).
  { unfold security_node, Runners.run_pip_audit, Runners.run_python_audit.
    cbv zeta. simpl path_exists.
    destruct (path_exists w _); destruct e; simpl in *;
      first [contradiction | reflexivity]. }
  split; [| split; [| split; [exact Hsec |]]].
  - revert Hlang.
    unfold Runners.run_linter, runners_languages, Py.mem. simpl.
    generalize (primary_language pa). intros language.
    destruct (String.eqb language "python");
      destruct (String.eqb language "javascript");
      destruct (String.eqb language "typescript");
      destruct (String.eqb language "csharp");
      destruct (String.eqb language "java");
      destruct (String.eqb language "go");
      destruct (String.eqb language "rust");
      simpl; intros H; try discriminate H;
      runners_recipes; destruct e; simpl in *;
      first [contradiction | reflexivity].
  - revert Hlang.
    unfold Runners.run_security_audit, runners_languages, Py.mem. simpl.
    generalize (primary_language pa). intros language.
    destruct (String.eqb language "python");
      destruct (String.eqb language "javascript");
      destruct (String.eqb language "typescript");
      destruct (String.eqb language "csharp");
      destruct (String.eqb language "java");
      destruct (String.eqb language "go");
      destruct (String.eqb language "rust");
      simpl; intros H; try discriminate H;
      runners_recipes; cbv zeta; simpl path_exists;
      settle_paths; destruct e; simpl in *;
      first [contradiction | reflexivity].
  - intros worlds k limit Hk. simpl. rewrite Hk.
    change (result_of (run_node (commands_raise e w) security s))
      with (result_of (security_node (commands_raise e w) s)).
    rewrite Hsec. reflexivity.
Qed.

(** X4, an instance: a permission error on a Go project. *)
Lemma runners_let_other_errors_through_witness :
  result_of
    (Runners.run_linter
       (commands_raise (OtherException "[Errno 13] Permission denied")
          (sample_world (completes_with 0) [] ""))
       "/repo" (profile_of "go" ["main.go"]))
  = Raise (OtherException "[Errno 13] Permission denied").
Proof.
  exact (proj1 (runners_let_other_errors_through
                  (sample_world (completes_with 0) [] "")
                  (OtherException "[Errno 13] Permission denied") "/repo"
                  (profile_of "go" ["main.go"]) sample_state I eq_refl)).
Defined.

(** ** The tally of languages *)

Lemma count_in_bump (counts : list (string * Z)) (l lang : string) :
  count_in (LanguageDetector.bump counts l) lang
  = count_in counts lang + (if String.eqb lang l then 1 else 0).
Proof.
  unfold count_in.
  induction counts as [| [k n] rest IH]; simpl.
  - destruct (String.eqb lang l); reflexivity.
  - destruct (String.eqb l k) eqn:Elk; simpl.
    + apply String.eqb_eq in Elk. subst k.
      destruct (String.eqb lang l); lia.
    + destruct (String.eqb lang k) eqn:Ek; [| exact IH].
      apply String.eqb_eq in Ek. subst k.
      rewrite String.eqb_sym, Elk. lia.
Qed.

Lemma keys_bump (counts : list (string * Z)) (l : string) :
  map fst (LanguageDetector.bump counts l)
  = if Py.mem l (map fst counts) then map fst counts
    else (map fst counts ++ [l])%list.
Proof.
  unfold Py.mem.
  induction counts as [| [k n] rest IH]; simpl; [reflexivity |].
  destruct (String.eqb l k); simpl; [reflexivity |].
  rewrite IH. destruct (existsb _ _); reflexivity.
Qed.

Lemma mem_In (x : string) (xs : list string) :
  Py.mem x xs = true <-> In x xs.
Proof.
  unfold Py.mem. rewrite existsb_exists. split.
  - intros (y & Hy & E). apply String.eqb_eq in E. subst. exact Hy.
  - intros H. exists x. split; [exact H | apply String.eqb_refl].
Qed.

Lemma mem_not_In (x : string) (xs : list string) :
  Py.mem x xs = false <-> ~ In x xs.
Proof.
  rewrite <- mem_In. destruct (Py.mem x xs); split; congruence.
Qed.

Lemma NoDup_snoc (x : string) (xs : list string) :
  NoDup xs -> ~ In x xs -> NoDup (xs ++ [x])%list.
Proof.
  intros Hxs Hx. induction Hxs as [| y ys Hy Hys IH]; simpl.
  - constructor; [intros [] | constructor].
  - constructor.
    + rewrite in_app_iff. intros [H | [H | []]]; [exact (Hy H) |].
      apply Hx. left. symmetry. exact H.
    + apply IH. intros H. apply Hx. right. exact H.
Qed.

(** The tally after the files of the languages [ls]. *)
Lemma tally_counts (ls : list string) :
  forall counts lang,
    count_in (fold_left LanguageDetector.bump ls counts) lang
    = count_in counts lang
      + Z.of_nat (List.length (filter (String.eqb lang) ls)).
Proof.
  induction ls as [| l ls IH]; intros counts lang; simpl; [lia |].
  rewrite IH, count_in_bump.
  destruct (String.eqb lang l); simpl List.length; lia.
Qed.

Lemma tally_keys (ls : list string) :
  forall counts,
    NoDup (map fst counts) ->
    NoDup (map fst (fold_left LanguageDetector.bump ls counts))
    /\ forall k, In k (map fst (fold_left LanguageDetector.bump ls counts))
                 <-> In k (map fst counts) \/ In k ls.
Proof.
  induction ls as [| l ls IH]; intros counts Hnd; simpl.
  - split; [exact Hnd | intros k; tauto].
  - assert (Hnd' : NoDup (map fst (LanguageDetector.bump counts l))).
    { rewrite keys_bump. destruct (Py.mem l (map fst counts)) eqn:E;
        [exact Hnd | apply NoDup_snoc; [exact Hnd | now apply mem_not_In]]. }
    destruct (IH _ Hnd') as [H1 H2]. split; [exact H1 |].
    intros k. rewrite H2, keys_bump.
    destruct (Py.mem l (map fst counts)) eqn:E.
    + apply mem_In in E. split; [tauto |].
      intros [H | [H | H]]; [tauto | subst; tauto | tauto].
    + rewrite in_app_iff. simpl. tauto.
Qed.

(** The first loop of the analyzer, by the languages of the files. *)
Lemma tally_fold (files : list string) :
  forall counts sources,
    fold_left LanguageDetector.tally_step files (counts, sources)
    = (fold_left LanguageDetector.bump (languages_of files) counts,
       (sources ++ filter is_source files)%list).
Proof.
  unfold languages_of.
  induction files as [| f files IH]; intros counts sources; simpl.
  - rewrite app_nil_r. reflexivity.
  - unfold LanguageDetector.tally_step at 2. unfold is_source.
    fold (language_of f).
    destruct (language_of f) as [l |]; simpl.
    + rewrite IH, <- app_assoc. reflexivity.
    + destruct (fold_left _ _ _) eqn:E in |- *.
      rewrite IH in E. rewrite <- E. reflexivity.
Qed.

Lemma languages_count (lang : string) (files : list string) :
  Z.of_nat (List.length (filter (String.eqb lang) (languages_of files)))
  = count_language lang files.
Proof.
  unfold count_language, languages_of, has_language. f_equal.
  induction files as [| f files IH]; simpl; [reflexivity |].
  destruct (language_of f) as [l |]; simpl; [| exact IH].
  rewrite (String.eqb_sym lang l).
  destruct (String.eqb l lang); simpl; rewrite IH; reflexivity.
Qed.

Lemma languages_In (lang : string) (files : list string) :
  In lang (languages_of files)
  <-> exists f, In f files /\ language_of f = Some lang.
Proof.
  unfold languages_of. rewrite in_flat_map. split.
  - intros (f & Hf & Hl). exists f. split; [exact Hf |].
    destruct (language_of f) as [l |]; [| destruct Hl].
    destruct Hl as [-> | []]. reflexivity.
  - intros (f & Hf & Hl). exists f. split; [exact Hf |].
    rewrite Hl. left. reflexivity.
Qed.

(** [max] returns a key whose count no other count exceeds. *)
Lemma max_key_spec (rest : list (string * Z)) :
  forall best,
    exists n,
      In (LanguageDetector.max_key best rest, n) (best :: rest)
      /\ forall kn, In kn (best :: rest) -> snd kn <= n.
Proof.
  induction rest as [| [k m] rest IH]; intros [bk bn].
  - exists bn. simpl. split; [left; reflexivity |].
    intros kn [<- | []]. simpl. lia.
  - simpl. destruct (bn <? m) eqn:E.
    + apply Z.ltb_lt in E.
      destruct (IH (k, m)) as (n & Hin & Hmax). exists n. split.
      * right. exact Hin.
      * intros kn [<- | H]; [| exact (Hmax kn H)].
        specialize (Hmax (k, m) (or_introl eq_refl)). simpl in *. lia.
    + apply Z.ltb_ge in E.
      destruct (IH (bk, bn)) as (n & Hin & Hmax). exists n. split.
      * destruct Hin as [Hin | Hin]; [left; exact Hin | right; right; exact Hin].
      * intros kn [<- | [<- | H]].
        -- exact (Hmax _ (or_introl eq_refl)).
        -- specialize (Hmax _ (or_introl eq_refl)). simpl in *. lia.
        -- apply Hmax. right. exact H.
Qed.

Lemma count_in_NoDup (counts : list (string * Z)) (k : string) (n : Z) :
  NoDup (map fst counts) -> In (k, n) counts -> count_in counts k = n.
Proof.
  unfold count_in.
  induction counts as [| [k' n'] rest IH]; simpl; [intros _ [] |].
  intros Hnd [H | H].
  - injection H as -> ->. rewrite String.eqb_refl. reflexivity.
  - inversion Hnd as [| ? ? Hk Hrest]; subst.
    destruct (String.eqb k k') eqn:E.
    + apply String.eqb_eq in E. subst k'. exfalso. apply Hk.
      apply (in_map fst) in H. exact H.
    + apply IH; assumption.
Qed.

Lemma count_in_keys (counts : list (string * Z)) (k : string) :
  ~ In k (map fst counts) -> count_in counts k = 0.
Proof.
  unfold count_in.
  induction counts as [| [k' n'] rest IH]; simpl; [reflexivity |].
  intros H. destruct (String.eqb k k') eqn:E.
  - apply String.eqb_eq in E. subst. exfalso. apply H. left. reflexivity.
  - apply IH. intros Hin. apply H. right. exact Hin.
Qed.

(** The fields of the profile, as the loops of the analyzer compute them. *)
Lemma analyze_tally (root : list Entry) :
  let files := LanguageDetector.list_all_files root in
  let counts := fold_left LanguageDetector.bump (languages_of files) [] in
  let p := LanguageDetector.analyze root in
  primary_language p
  = match counts with
    | [] => "unknown"
    | first :: rest => LanguageDetector.max_key first rest
    end
  /\ secondary_languages p
     = match counts with
       | [] => []
       | _ => filter (fun lang => negb (String.eqb lang (primary_language p)))
                (map fst counts)
       end
  /\ source_files p = filter is_source files.
Proof.
  cbv zeta. unfold LanguageDetector.analyze. cbv zeta.
  rewrite tally_fold. simpl fst. simpl snd.
  unfold LanguageDetector.find_test_files, LanguageDetector.find_entry_points,
    LanguageDetector.detect_frameworks_and_type,
    LanguageDetector.analyze_config_files.
  cbv zeta.
  destruct (LanguageDetector.assoc LanguageDetector.framework_patterns _);
    repeat split; reflexivity.
Qed.

Lemma assoc_In {A : Type} (table : list (string * A)) (k : string) (v : A) :
  LanguageDetector.assoc table k = Some v -> In v (map snd table).
Proof.
  induction table as [| [k' v'] rest IH]; simpl; [discriminate |].
  destruct (String.eqb k k').
  - intros H. injection H as ->. left. reflexivity.
  - intros H. right. exact (IH H).
Qed.

(** No extension stands for the language [unknown]. *)
Lemma language_of_known (f : string) : language_of f <> Some "unknown".
Proof.
  unfold language_of, LanguageDetector.extension_to_language. intros H.
  apply assoc_In in H. simpl in H.
  repeat (destruct H as [H | H]; [discriminate H |]). exact H.
Qed.

Lemma tally_empty (files : list string) :
  fold_left LanguageDetector.bump (languages_of files) [] = [] ->
  forall f, In f files -> language_of f = None.
Proof.
  intros H f Hf.
  destruct (language_of f) as [l |] eqn:E; [| reflexivity].
  assert (Hin : In l (languages_of files)) by (apply languages_In; eauto).
  destruct (tally_keys (languages_of files) [] (NoDup_nil _)) as [_ Hkeys].
  rewrite H in Hkeys. simpl in Hkeys.
  destruct (proj2 (Hkeys l) (or_intror Hin)).
Qed.

(** The primary language is [unknown] exactly when no listed file has a
    language. *)
Lemma primary_language_unknown (root : list Entry) :
  primary_language (LanguageDetector.analyze root) = "unknown"
  <-> forall f, In f (LanguageDetector.list_all_files root) ->
                language_of f = None.
Proof.
  destruct (analyze_tally root) as (Hprimary & _ & _). cbv zeta in Hprimary.
  set (files := LanguageDetector.list_all_files root) in *.
  set (p := LanguageDetector.analyze root) in *.
  destruct (tally_keys (languages_of files) [] (NoDup_nil _)) as [_ Hkeys].
  destruct (fold_left LanguageDetector.bump (languages_of files) [])
    as [| first rest] eqn:E.
  - split; [intros _; apply tally_empty; exact E | intros _; exact Hprimary].
  - destruct (max_key_spec rest first) as (n & Hin & _).
    rewrite <- Hprimary in Hin.
    assert (Hsome : exists f, In f files
                              /\ language_of f = Some (primary_language p)).
    { apply languages_In. apply (in_map fst) in Hin. simpl fst in Hin.
      destruct (proj1 (Hkeys _) Hin) as [[] | H]. exact H. }
    destruct Hsome as (f & Hf & Hl). split.
    + intros Hu. rewrite Hu in Hl. destruct (language_of_known f Hl).
    + intros Hnone. rewrite (Hnone f Hf) in Hl. discriminate.
Qed.

(** X5.  The primary language of the profile is a most frequent one: no
    language has more listed files than the primary language has.  And the
    primary language is [unknown] exactly when no listed file has an
    extension of the extension map. *)
Theorem primary_language_is_most_frequent (root : list Entry) (lang : string) :
  count_language lang (LanguageDetector.list_all_files root)
  <= count_language (primary_language (LanguageDetector.analyze root))
       (LanguageDetector.list_all_files root)
  /\ (primary_language (LanguageDetector.analyze root) = "unknown"
      <-> forall f, In f (LanguageDetector.list_all_files root) ->
                    language_of f = None).
Proof.
  split; [| apply primary_language_unknown].
  destruct (analyze_tally root) as (Hprimary & _ & _). cbv zeta in Hprimary.
  set (files := LanguageDetector.list_all_files root) in *.
  set (p := LanguageDetector.analyze root) in *.
  pose proof (tally_counts (languages_of files) []) as Hcount.
  destruct (tally_keys (languages_of files) [] (NoDup_nil _)) as [Hnd Hkeys].
  assert (Hget : forall l, count_language l files
                           = count_in (fold_left LanguageDetector.bump
                                         (languages_of files) []) l).
  { intros l. rewrite Hcount, languages_count. unfold count_in. simpl. lia. }
  destruct (fold_left LanguageDetector.bump (languages_of files) [])
    as [| first rest] eqn:E.
  - rewrite !Hget. unfold count_in. simpl. lia.
  - destruct (max_key_spec rest first) as (n & Hin & Hmax).
    rewrite <- Hprimary in Hin.
    rewrite !Hget. rewrite (count_in_NoDup _ _ _ Hnd Hin).
    destruct (in_dec string_dec lang (map fst (first :: rest))) as [Hk | Hk].
    + apply in_map_iff in Hk. destruct Hk as ([k m] & Hfst & Hk).
      simpl in Hfst. subst k.
      rewrite (count_in_NoDup _ _ _ Hnd Hk). exact (Hmax _ Hk).
    + rewrite (count_in_keys _ _ Hk).
      rewrite <- (count_in_NoDup _ _ _ Hnd Hin), <- Hget.
      unfold count_language. lia.
Qed.

(** X6.  The source files of the profile are the listed files that have a
    language, in the order of the listing.  The secondary languages are the
    other languages of those files: each once, and never the primary one. *)
Theorem source_files_and_secondary_languages (root : list Entry) :
  source_files (LanguageDetector.analyze root)
  = filter is_source (LanguageDetector.list_all_files root)
  /\ NoDup (secondary_languages (LanguageDetector.analyze root))
  /\ forall l,
       In l (secondary_languages (LanguageDetector.analyze root))
       <-> l <> primary_language (LanguageDetector.analyze root)
           /\ exists f, In f (LanguageDetector.list_all_files root)
                        /\ language_of f = Some l.
Proof.
  destruct (analyze_tally root) as (_ & Hsecondary & Hsources).
  cbv zeta in Hsecondary, Hsources.
  set (files := LanguageDetector.list_all_files root) in *.
  set (p := LanguageDetector.analyze root) in *.
  destruct (tally_keys (languages_of files) [] (NoDup_nil _)) as [Hnd Hkeys].
  split; [exact Hsources |].
  assert (Hsec : secondary_languages p
                 = filter (fun lang => negb (String.eqb lang (primary_language p)))
                     (map fst (fold_left LanguageDetector.bump
                                 (languages_of files) []))).
  { rewrite Hsecondary. destruct (fold_left _ _ _); reflexivity. }
  rewrite Hsec. split; [apply NoDup_filter; exact Hnd |].
  intros l. rewrite filter_In, Hkeys, languages_In. simpl.
  rewrite negb_true_iff, String.eqb_neq. tauto.
Qed.

(** ** The lists of the profile *)

Lemma add_once_NoDup (xs : list string) (x : string) :
  NoDup xs -> NoDup (LanguageDetector.add_once xs x).
Proof.
  intros H. unfold LanguageDetector.add_once.
  destruct (Py.mem x xs) eqn:E; [exact H |].
  apply NoDup_snoc; [exact H | now apply mem_not_In].
Qed.

Lemma match_star_patterns_spec (patterns : list (string * (string * string)))
  (file_path filename : string) :
  forall acc,
    NoDup (snd acc) ->
    NoDup (snd (LanguageDetector.match_star_patterns patterns file_path filename acc))
    /\ forall f,
         In f (fst (LanguageDetector.match_star_patterns patterns file_path
                      filename acc)) ->
         In f (fst acc) \/ f = file_path.
Proof.
  induction patterns as [| [pattern [lang tool]] rest IH]; intros acc Hnd.
  - simpl. split; [exact Hnd | tauto].
  - simpl. destruct (_ && _).
    + destruct (IH ((fst acc ++ [file_path])%list,
                    LanguageDetector.add_once (snd acc) tool)) as [H1 H2];
        [apply add_once_NoDup; exact Hnd |].
      split; [exact H1 |].
      intros f Hf. destruct (H2 f Hf) as [H | H]; [| right; exact H].
      simpl in H. apply in_app_or in H. destruct H as [H | [H | []]];
        [left; exact H | right; symmetry; exact H].
    + apply IH. exact Hnd.
Qed.

Lemma config_step_spec (acc : list string * list string) (file_path : string) :
  NoDup (snd acc) ->
  NoDup (snd (LanguageDetector.config_step acc file_path))
  /\ forall f, In f (fst (LanguageDetector.config_step acc file_path)) ->
               In f (fst acc) \/ f = file_path.
Proof.
  intros Hnd. unfold LanguageDetector.config_step. cbv zeta.
  destruct (LanguageDetector.assoc LanguageDetector.config_patterns _)
    as [[lang tool] |].
  - destruct (match_star_patterns_spec LanguageDetector.config_patterns file_path
                (LanguageDetector.basename file_path)
                ((fst acc ++ [file_path])%list,
                 LanguageDetector.add_once (snd acc) tool)) as [H1 H2];
      [apply add_once_NoDup; exact Hnd |].
    split; [exact H1 |].
    intros f Hf. destruct (H2 f Hf) as [H | H]; [| right; exact H].
    simpl in H. apply in_app_or in H. destruct H as [H | [H | []]];
      [left; exact H | right; symmetry; exact H].
  - apply match_star_patterns_spec. exact Hnd.
Qed.

(** An invariant of a loop body that holds at the start holds at the end. *)
Lemma fold_left_preserves {A B : Type} (P : A -> Prop) (step : A -> B -> A)
  (l : list B) :
  (forall a x, In x l -> P a -> P (step a x)) ->
  forall a, P a -> P (fold_left step l a).
Proof.
  induction l as [| x l IH]; intros Hstep a Ha; [exact Ha |].
  cbn [fold_left]. apply IH.
  - intros a' x' Hx'. apply Hstep. right. exact Hx'.
  - apply Hstep; [left; reflexivity | exact Ha].
Qed.

Lemma config_fold_spec (files : list string) :
  NoDup (snd (fold_left LanguageDetector.config_step files ([], [])))
  /\ incl (fst (fold_left LanguageDetector.config_step files ([], []))) files.
Proof.
  apply (fold_left_preserves
           (fun acc : list string * list string =>
              NoDup (snd acc) /\ incl (fst acc) files)).
  - intros acc x Hx [Hnd Hincl].
    destruct (config_step_spec acc x Hnd) as [H1 H2].
    split; [exact H1 |].
    intros f Hf. destruct (H2 f Hf) as [H | H]; [exact (Hincl f H) |].
    subst f. exact Hx.
  - split; [constructor | intros f []].
Qed.

Lemma frameworks_in_NoDup (content : string)
  (table : list (string * list string)) :
  forall found,
    NoDup found -> NoDup (LanguageDetector.frameworks_in content table found).
Proof.
  unfold LanguageDetector.frameworks_in.
  induction table as [| entry table IH]; intros found Hnd; simpl; [exact Hnd |].
  apply IH. destruct (existsb _ _); [apply add_once_NoDup |]; exact Hnd.
Qed.

Lemma frameworks_fold_NoDup (root : list Entry) (language : string)
  (table : list (string * list string)) (files : list string) :
  NoDup (fold_left
           (fun found file_path =>
              if Py.endswith_any file_path
                   (LanguageDetector.get_source_extensions language)
              then LanguageDetector.frameworks_in
                     (LanguageDetector.read_file_content root file_path)
                     table found
              else found)
           files []).
Proof.
  apply (fold_left_preserves (fun found : list string => NoDup found)).
  - intros found f _ Hnd.
    destruct (Py.endswith_any _ _); [apply frameworks_in_NoDup |]; exact Hnd.
  - constructor.
Qed.

(** The stages of the analyzer, field by field. *)
Lemma find_test_files_fields (files : list string) (s : ProjectProfile) :
  build_tools (LanguageDetector.find_test_files files s) = build_tools s
  /\ frameworks (LanguageDetector.find_test_files files s) = frameworks s
  /\ config_files (LanguageDetector.find_test_files files s) = config_files s
  /\ entry_points (LanguageDetector.find_test_files files s) = entry_points s
  /\ has_tests (LanguageDetector.find_test_files files s)
     = (0 <? Z.of_nat (List.length
                         (test_files (LanguageDetector.find_test_files files s))))
  /\ (test_files s = [] ->
      incl (test_files (LanguageDetector.find_test_files files s)) files).
Proof.
  repeat split; try reflexivity.
  intros Hs f. unfold LanguageDetector.find_test_files. cbv zeta.
  unfold LanguageDetector.with_tests. cbn [test_files]. rewrite Hs.
  cbn [app]. intros Hf. apply filter_In in Hf. tauto.
Qed.

Lemma find_entry_points_fields (files : list string) (s : ProjectProfile) :
  build_tools (LanguageDetector.find_entry_points files s) = build_tools s
  /\ frameworks (LanguageDetector.find_entry_points files s) = frameworks s
  /\ config_files (LanguageDetector.find_entry_points files s) = config_files s
  /\ test_files (LanguageDetector.find_entry_points files s) = test_files s
  /\ (entry_points s = [] ->
      incl (entry_points (LanguageDetector.find_entry_points files s)) files).
Proof.
  repeat split; try reflexivity.
  intros Hs f. unfold LanguageDetector.find_entry_points.
  unfold LanguageDetector.with_entry_points. cbn [entry_points]. rewrite Hs.
  cbn [app]. intros Hf. apply filter_In in Hf. tauto.
Qed.

Lemma detect_frameworks_fields (root : list Entry) (files : list string)
  (s : ProjectProfile) :
  build_tools (LanguageDetector.detect_frameworks_and_type root files s)
  = build_tools s
  /\ config_files (LanguageDetector.detect_frameworks_and_type root files s)
     = config_files s
  /\ entry_points (LanguageDetector.detect_frameworks_and_type root files s)
     = entry_points s
  /\ test_files (LanguageDetector.detect_frameworks_and_type root files s)
     = test_files s
  /\ (frameworks s = [] ->
      NoDup (frameworks (LanguageDetector.detect_frameworks_and_type root files s))).
Proof.
  unfold LanguageDetector.detect_frameworks_and_type. cbv zeta.
  destruct (LanguageDetector.assoc LanguageDetector.framework_patterns _)
    as [table |]; repeat split; try reflexivity; intros Hs.
  - unfold LanguageDetector.with_frameworks. cbn [frameworks]. rewrite Hs.
    apply frameworks_fold_NoDup.
  - rewrite Hs. constructor.
Qed.

Lemma analyze_config_files_fields (files : list string) (s : ProjectProfile) :
  frameworks (LanguageDetector.analyze_config_files files s) = frameworks s
  /\ entry_points (LanguageDetector.analyze_config_files files s) = entry_points s
  /\ test_files (LanguageDetector.analyze_config_files files s) = test_files s
  /\ build_tools (LanguageDetector.analyze_config_files files s)
     = snd (fold_left LanguageDetector.config_step files
              (config_files s, build_tools s))
  /\ config_files (LanguageDetector.analyze_config_files files s)
     = fst (fold_left LanguageDetector.config_step files
              (config_files s, build_tools s)).
Proof. repeat split; reflexivity. Qed.

(** X7.  In the profile of a directory, no build tool and no framework is
    recorded twice; every configuration file, source file, entry point and
    test file of the profile is a listed file; and [has_tests] holds exactly
    when there is a test file. *)
Theorem profile_lists_are_consistent (root : list Entry) :
  NoDup (build_tools (LanguageDetector.analyze root))
  /\ NoDup (frameworks (LanguageDetector.analyze root))
  /\ incl (config_files (LanguageDetector.analyze root))
       (LanguageDetector.list_all_files root)
  /\ incl (source_files (LanguageDetector.analyze root))
       (LanguageDetector.list_all_files root)
  /\ incl (entry_points (LanguageDetector.analyze root))
       (LanguageDetector.list_all_files root)
  /\ incl (test_files (LanguageDetector.analyze root))
       (LanguageDetector.list_all_files root)
  /\ (has_tests (LanguageDetector.analyze root) = true
      <-> test_files (LanguageDetector.analyze root) <> []).
Proof.
  destruct (analyze_tally root) as (_ & _ & Hsources). cbv zeta in Hsources.
  rewrite Hsources. clear Hsources.
  unfold LanguageDetector.analyze. cbv zeta.
  set (files := LanguageDetector.list_all_files root).
  set (s0 := mkProfile _ _ _ _ _ _ _ _ _ _ _ _).
  set (s1 := LanguageDetector.analyze_config_files files s0).
  set (s2 := LanguageDetector.detect_frameworks_and_type root files s1).
  set (s3 := LanguageDetector.find_entry_points files s2).
  destruct (find_test_files_fields files s3) as (T1 & T2 & T3 & T4 & T5 & T6).
  destruct (find_entry_points_fields files s2) as (E1 & E2 & E3 & E4 & E5).
  destruct (detect_frameworks_fields root files s1) as (D1 & D2 & D3 & D4 & D5).
  destruct (analyze_config_files_fields files s0) as (C1 & C2 & C3 & C4 & C5).
  fold s1 in C1, C2, C3, C4, C5. fold s2 in D1, D2, D3, D4, D5.
  fold s3 in E1, E2, E3, E4, E5.
  destruct (config_fold_spec files) as [Htools Hconfigs].
  change (config_files s0, build_tools s0)
    with (@nil string, @nil string) in C4, C5.
  split; [rewrite T1, E1, D1, C4; exact Htools |].
  split; [rewrite T2, E2; apply D5; rewrite C1; reflexivity |].
  split; [rewrite T3, E3, D2, C5; exact Hconfigs |].
  split; [intros f Hf; apply filter_In in Hf; tauto |].
  split; [rewrite T4; apply E5; rewrite D3, C2; reflexivity |].
  split; [apply T6; rewrite E4, D4, C3; reflexivity |].
  rewrite T5.
  destruct (test_files (LanguageDetector.find_test_files files s3)) as [| x l].
  - split; [discriminate | congruence].
  - split; [discriminate | intros _; apply Z.ltb_lt; simpl List.length; lia].
Qed.

(** ** What the listing holds *)

Lemma files_here_kept (rel : list string) (entries : list Entry)
  (components : list string) :
  In components (LanguageDetector.files_here rel entries) ->
  exists name,
    components = (rel ++ [name])%list
    /\ Py.mem name LanguageDetector.ignore_files = false.
Proof.
  induction entries as [| a rest IH]; simpl; [contradiction |].
  destruct a as [n c | n sub]; [| exact IH].
  destruct (Py.mem n LanguageDetector.ignore_files) eqn:E; [exact IH |].
  intros [H | H]; [| exact (IH H)].
  exists n. split; [symmetry; exact H | exact E].
Qed.

Lemma files_here_complete (rel : list string) (entries : list Entry)
  (name content : string) :
  In (File name content) entries ->
  Py.mem name LanguageDetector.ignore_files = false ->
  In (rel ++ [name])%list (LanguageDetector.files_here rel entries).
Proof.
  intros Hin Hname.
  induction entries as [| a rest IH]; simpl; [destruct Hin |].
  destruct Hin as [-> | Hin].
  - rewrite Hname. left. reflexivity.
  - destruct a as [n c | n sub]; [| exact (IH Hin)].
    destruct (Py.mem n LanguageDetector.ignore_files);
      [exact (IH Hin) | right; exact (IH Hin)].
Qed.

Lemma last_app_nonempty (rel tail : list string) :
  tail <> [] -> last (rel ++ tail)%list "" = last tail "".
Proof.
  intros Hne. induction rel as [| x rel IH]; [reflexivity |].
  simpl. destruct (rel ++ tail)%list eqn:E; [| exact IH].
  apply app_eq_nil in E. destruct E as [_ E]. congruence.
Qed.

(** The last component of every path [walk] lists is a kept file name. *)
Lemma walk_last (e : Entry) :
  forall rel components,
    In components (LanguageDetector.walk rel e) ->
    exists tail,
      components = (rel ++ tail)%list /\ tail <> []
      /\ Py.mem (last tail "") LanguageDetector.ignore_files = false.
Proof.
  induction e as [n c | n entries IH] using Entry_nested_ind;
    intros rel components Hin.
  - destruct Hin.
  - rewrite walk_dir in Hin. apply in_app_or in Hin. destruct Hin as [Hin | Hin].
    + apply files_here_kept in Hin. destruct Hin as (name & -> & Hname).
      exists [name]. repeat split; [discriminate | exact Hname].
    + apply in_flat_map in Hin. destruct Hin as (c & Hc & Hin).
      rewrite Forall_forall in IH. specialize (IH c Hc).
      destruct c as [cn cc | cn csub]; [destruct Hin |].
      unfold walk_into in Hin.
      destruct (Py.mem cn LanguageDetector.ignore_dirs); [destruct Hin |].
      destruct (IH _ _ Hin) as (tail & -> & Hne & Hlast).
      exists (cn :: tail). split; [rewrite <- app_assoc; reflexivity |].
      split; [discriminate |].
      destruct tail as [| t tail']; [congruence | exact Hlast].
Qed.

Lemma entry_named_In (name : string) (entries : list Entry) (e : Entry) :
  LanguageDetector.entry_named name entries = Some e ->
  In e entries /\ entry_name e = name.
Proof.
  induction entries as [| a rest IH]; simpl; [discriminate |].
  destruct (String.eqb _ name) eqn:E.
  - intros H. injection H as ->. split; [left; reflexivity |].
    apply String.eqb_eq in E. destruct e; exact E.
  - intros H. destruct (IH H) as [Hin Hname]. split; [right |]; assumption.
Qed.

(** Every file outside the excluded directories whose name is kept is
    listed. *)
Lemma walk_complete (components : list string) :
  forall rel n entries content,
    LanguageDetector.resolve entries components = Some content ->
    dirs_allowed components = true ->
    Py.mem (last components "") LanguageDetector.ignore_files = false ->
    In (rel ++ components)%list (LanguageDetector.walk rel (Dir n entries)).
Proof.
  induction components as [| name rest IH];
    intros rel n entries content Hres Hdirs Hlast; [discriminate |].
  rewrite walk_dir. apply in_or_app.
  destruct rest as [| r rest'].
  - left. simpl in Hres, Hlast.
    destruct (LanguageDetector.entry_named name entries) as [[fn fc | dn ds] |]
      eqn:E; try discriminate.
    apply entry_named_In in E. destruct E as [Hin Hname].
    simpl in Hname. subst fn.
    exact (files_here_complete rel entries name fc Hin Hlast).
  - right.
    change (LanguageDetector.resolve entries (name :: r :: rest'))
      with (match LanguageDetector.entry_named name entries with
            | Some (Dir _ sub) => LanguageDetector.resolve sub (r :: rest')
            | _ => None
            end) in Hres.
    change (dirs_allowed (name :: r :: rest'))
      with (negb (Py.mem name LanguageDetector.ignore_dirs)
            && dirs_allowed (r :: rest')) in Hdirs.
    apply andb_prop in Hdirs. destruct Hdirs as [Hname Hdirs].
    apply negb_true_iff in Hname.
    destruct (LanguageDetector.entry_named name entries) as [[fn fc | dn ds] |]
      eqn:E; try discriminate.
    apply entry_named_In in E. destruct E as [Hin Hdn].
    simpl in Hdn. subst dn.
    apply in_flat_map. exists (Dir name ds). split; [exact Hin |].
    unfold walk_into. rewrite Hname.
    replace (rel ++ name :: r :: rest')%list
      with ((rel ++ [name]) ++ r :: rest')%list
      by (rewrite <- app_assoc; reflexivity).
    apply (IH (rel ++ [name])%list name ds content Hres Hdirs).
    exact Hlast.
Qed.

(** X8.  In a tree with proper names, the listing of the analyzer holds the
    files that lie outside the excluded directories and whose name is not an
    excluded file name, and no other: no listed path has an excluded
    directory among its directories or an excluded name as its file name, and
    every file that has neither is listed. *)
Theorem listing_skips_exactly_the_excluded (root : list Entry) :
  forallb names_ok root = true ->
  (forall f,
      In f (LanguageDetector.list_all_files root) ->
      dirs_allowed (Py.split "/"%char f) = true
      /\ Py.mem (last (Py.split "/"%char f) "") LanguageDetector.ignore_files
         = false)
  /\ (forall components content,
         LanguageDetector.resolve root components = Some content ->
         dirs_allowed components = true ->
         Py.mem (last components "") LanguageDetector.ignore_files = false ->
         In (LanguageDetector.rel_path components)
           (LanguageDetector.list_all_files root)).
Proof.
  intros Hok. split.
  - intros f Hin. unfold LanguageDetector.list_all_files in Hin.
    apply in_map_iff in Hin. destruct Hin as (components & <- & Hin).
    destruct (walk_paths _ _ _ Hin) as (tail & Heq & Hne & Hdirs & Hnames).
    destruct (walk_last _ _ _ Hin) as (tail' & Heq' & _ & Hlast).
    simpl in Heq, Heq'. subst components. subst tail'.
    assert (Hroot : names_ok (Dir "" root) = true) by (simpl; exact Hok).
    rewrite (split_rel_path tail Hne (Hnames Hroot)).
    split; [exact Hdirs | exact Hlast].
  - intros components content Hres Hdirs Hlast.
    unfold LanguageDetector.list_all_files. apply in_map.
    exact (walk_complete components [] "" root content Hres Hdirs Hlast).
Qed.

(** X8, an instance: a project with a dependency cache and a git
    directory. *)
Lemma listing_skips_exactly_the_excluded_witness :
  forallb names_ok
    [Dir ".git" [File "config" ""]; File ".gitignore" "venv";
     Dir "src" [File "app.py" "print(1)"; Dir "build" [File "app.pyc" ""]]]
  = true
  /\ In "src/app.py"
       (LanguageDetector.list_all_files
          [Dir ".git" [File "config" ""]; File ".gitignore" "venv";
           Dir "src" [File "app.py" "print(1)";
                      Dir "build" [File "app.pyc" ""]]]).
Proof.
  split; [reflexivity |].
  exact (proj2 (listing_skips_exactly_the_excluded
                  [Dir ".git" [File "config" ""]; File ".gitignore" "venv";
                   Dir "src" [File "app.py" "print(1)";
                              Dir "build" [File "app.pyc" ""]]]
                  eq_refl)
           ["src"; "app.py"] "print(1)" eq_refl eq_refl eq_refl).
Defined.

(** ** The tests step on a repository without sources *)

(** X9.  When no listed file of the repository has an extension of the
    extension map (an empty or missing directory, or documentation only),
    the tests step starts no command and sets both [lint_ok] and [tests_ok]:
    the profile has the language [unknown], for which neither table has a
    recipe, and both dispatchers answer with exit code 0. *)
Theorem tests_step_passes_without_sources (w : World) (s : BuildState) :
  (forall f,
      In f (LanguageDetector.list_all_files (listing w (repo_path s))) ->
      language_of f = None) ->
  exists s',
    tests_node w s = (Ok s', [])
    /\ lint_ok s' = true /\ tests_ok s' = true.
Proof.
  intros Hnone. apply primary_language_unknown in Hnone.
  unfold tests_node, LanguageDetector.analyze_project_structure. cbv zeta.
  set (p := LanguageDetector.analyze (listing w (repo_path s))) in *.
  unfold CodeRunner.run_project_linting, CodeRunner.run_project_tests.
  cbv zeta. rewrite Hnone.
  change (CodeRunner.lookup CodeRunner.linters "unknown") with (@None CodeRunner.Runner).
  change (CodeRunner.lookup CodeRunner.test_runners "unknown")
    with (@None CodeRunner.Runner).
  eexists. split; [reflexivity |]. split; reflexivity.
Qed.

(** X9, an instance: a repository that holds a README only. *)
Lemma tests_step_passes_without_sources_witness :
  exists s',
    tests_node (sample_world tool_missing docs_tree "") sample_state = (Ok s', [])
    /\ lint_ok s' = true /\ tests_ok s' = true.
Proof.
  apply (tests_step_passes_without_sources
           (sample_world tool_missing docs_tree "") sample_state).
  intros f [<- | []]. reflexivity.
Defined.

(** ** What the steps write *)

Lemma log_all_fields (entries : list string) :
  forall s,
    log_all s entries
    = mkState (request s) (repo_path s) (prd s) (rfc s) (tasks s) (branch s)
        (lint_ok s) (tests_ok s) (sec_ok s) (pr_url s) (dev_attempts s)
        (logs s ++ entries)%list.
Proof.
  unfold log_all.
  induction entries as [| e entries IH]; intros s; cbn [fold_left].
  - rewrite app_nil_r. destruct s; reflexivity.
  - rewrite IH. unfold log. cbn. rewrite <- app_assoc. reflexivity.
Qed.

(** The recovery of the planner touches the log only. *)
Lemma recover_fields (w : World) (s : BuildState) (raw : string) :
  exists extra, snd (Planner.recover w s raw) = log_all s extra.
Proof.
  unfold Planner.recover.
  destruct (Json.loads raw); [exists []; reflexivity |].
  cbv zeta.
  destruct (_ || _); [eexists [_; _]; reflexivity |].
  destruct (Json.loads _); [eexists [_; _]; reflexivity |].
  eexists [_; _; _]; reflexivity.
Qed.

Lemma ensure_branch_result (w : World) (repo name : string) :
  on_return (ensure_branch w repo name) (fun b => b = name).
Proof.
  unfold on_return, ensure_branch. rewrite result_bind.
  destruct (result_of (Shell.run w _ repo)); [| exact I].
  rewrite result_bind.
  destruct (result_of (Shell.run w _ repo)); [| exact I].
  reflexivity.
Qed.

Lemma planner_node_fields (w : World) (s : BuildState) :
  on_return (Planner.planner_node w s)
    (fun s' =>
       keeps_inputs s s' /\ keeps_verdicts s s' /\ extends_log s s'
       /\ rfc s' = rfc s /\ branch s' = branch s
       /\ dev_attempts s' = dev_attempts s).
Proof.
  unfold on_return, Planner.planner_node. cbv zeta.
  destruct (recover_fields w
              (log s ("Planner raw response: "
                      ++ Py.take 200 (chat w (Some "planning") [request s])
                      ++ "..."))
              (chat w (Some "planning") [request s])) as [extra Hextra].
  destruct (Planner.recover _ _ _) as [data s1]. cbn [snd] in Hextra.
  destruct (Planner.build w data) as [[prd_md ts] | e]; [| exact I].
  cbn [result_of ret fst]. subst s1. rewrite log_all_fields.
  unfold keeps_inputs, keeps_verdicts, extends_log. cbn.
  repeat split. rewrite <- !app_assoc. eexists. reflexivity.
Qed.

Lemma architect_node_fields (w : World) (s : BuildState) :
  on_return (architect_node w s)
    (fun s' =>
       keeps_inputs s s' /\ keeps_verdicts s s' /\ extends_log s s'
       /\ prd s' = prd s /\ tasks s' = tasks s /\ branch s' = branch s
       /\ dev_attempts s' = dev_attempts s).
Proof.
  unfold on_return, architect_node, keeps_inputs, keeps_verdicts, extends_log.
  cbn. repeat split. eexists. reflexivity.
Qed.

Lemma dev_node_fields (w : World) (s : BuildState) :
  on_return (dev_node w s)
    (fun s' =>
       keeps_inputs s s' /\ keeps_verdicts s s' /\ extends_log s s'
       /\ prd s' = prd s /\ rfc s' = rfc s /\ tasks s' = tasks s
       /\ branch s' = (if String.eqb (branch s) "" then "feat/auto-agent"
                       else branch s)).
Proof.
  unfold on_return, dev_node. cbv zeta. rewrite result_bind.
  destruct (String.eqb (branch s) "").
  - rewrite result_bind.
    pose proof (ensure_branch_result w (repo_path s) "feat/auto-agent") as Hb.
    unfold on_return in Hb.
    destruct (result_of (ensure_branch w (repo_path s) "feat/auto-agent"))
      as [b |]; [| exact I].
    subst b. cbn [result_of ret fst]. rewrite log_all_fields.
    unfold keeps_inputs, keeps_verdicts, extends_log. cbn.
    repeat split. rewrite <- app_assoc. eexists. reflexivity.
  - cbn [result_of ret fst]. rewrite log_all_fields.
    unfold keeps_inputs, keeps_verdicts, extends_log. cbn.
    repeat split. rewrite <- app_assoc. eexists. reflexivity.
Qed.

(** X10.  Each of the first three steps writes its own fields only.  The
    planning step changes the PRD and the tasks, the design step the RFC,
    the dev step the branch (set to [feat/auto-agent] when it was empty, kept
    otherwise) and the attempt counter; each keeps the request, the
    repository path, the three verification flags and the pull-request
    reference, and only adds entries at the end of the log. *)
Theorem step_field_ownership (w : World) (s : BuildState) :
  on_return (Planner.planner_node w s)
    (fun s' =>
       keeps_inputs s s' /\ keeps_verdicts s s' /\ extends_log s s'
       /\ rfc s' = rfc s /\ branch s' = branch s
       /\ dev_attempts s' = dev_attempts s)
  /\ on_return (architect_node w s)
       (fun s' =>
          keeps_inputs s s' /\ keeps_verdicts s s' /\ extends_log s s'
          /\ prd s' = prd s /\ tasks s' = tasks s /\ branch s' = branch s
          /\ dev_attempts s' = dev_attempts s)
  /\ on_return (dev_node w s)
       (fun s' =>
          keeps_inputs s s' /\ keeps_verdicts s s' /\ extends_log s s'
          /\ prd s' = prd s /\ rfc s' = rfc s /\ tasks s' = tasks s
          /\ branch s' = (if String.eqb (branch s) "" then "feat/auto-agent"
                          else branch s)).
Proof.
  split; [apply planner_node_fields |].
  split; [apply architect_node_fields | apply dev_node_fields].
Qed.

(** ** The request, the repository path and the log along a run *)

Lemma keeps_inputs_trans (a b c : BuildState) :
  keeps_inputs a b -> keeps_inputs b c -> keeps_inputs a c.
Proof. unfold keeps_inputs. intros [H1 H2] [H3 H4]. split; congruence. Qed.

Lemma extends_log_trans (a b c : BuildState) :
  extends_log a b -> extends_log b c -> extends_log a c.
Proof.
  unfold extends_log. intros [x Hx] [y Hy]. exists (x ++ y)%list.
  rewrite Hy, Hx, app_assoc. reflexivity.
Qed.

(** What a step other than the pull-request step keeps. *)
Lemma run_node_keeps (w : World) (n : Node) (s : BuildState) :
  n <> pr ->
  on_return (run_node w n s)
    (fun s' => keeps_inputs s s' /\ extends_log s s').
Proof.
  intros Hn. unfold on_return. destruct n; simpl run_node.
  - pose proof (planner_node_fields w s) as H. unfold on_return in H.
    destruct (result_of (Planner.planner_node w s)); [tauto | exact I].
  - pose proof (architect_node_fields w s) as H. unfold on_return in H.
    destruct (result_of (architect_node w s)); [tauto | exact I].
  - pose proof (dev_node_fields w s) as H. unfold on_return in H.
    destruct (result_of (dev_node w s)); [tauto | exact I].
  - destruct (tests_node_result w s) as (lint & test & _ & _ & H).
    rewrite H. unfold keeps_inputs, extends_log. cbn.
    repeat split. rewrite <- app_assoc. eexists. reflexivity.
  - unfold security_node. rewrite result_bind.
    destruct (result_of (Runners.run_pip_audit w (repo_path s))); [| exact I].
    unfold keeps_inputs, extends_log. cbn. repeat split. eexists. reflexivity.
  - congruence.
Qed.

Lemma next_node_keeps (n : Node) (s : BuildState) :
  keeps_inputs s (snd (next_node n s)) /\ extends_log s (snd (next_node n s)).
Proof.
  assert (Hsame : keeps_inputs s s /\ extends_log s s).
  { split; [split; reflexivity | exists []; rewrite app_nil_r; reflexivity]. }
  assert (Hlog : forall e, keeps_inputs s (log s e) /\ extends_log s (log s e)).
  { intros e. split; [split; reflexivity | exists [e]; reflexivity]. }
  destruct n; cbn [next_node]; try exact Hsame.
  - unfold tests_next. cbv zeta.
    destruct (3 <=? get_dev_attempts s); [apply Hlog | exact Hsame].
  - unfold sec_next. cbv zeta.
    destruct (3 <=? get_dev_attempts s); [apply Hlog | exact Hsame].
Qed.

Lemma traverse_keeps (s0 : BuildState) (limit : nat) :
  forall worlds k n s,
    keeps_inputs s0 s -> extends_log s0 s ->
    Forall (fun p => fst p <> pr ->
                     keeps_inputs s0 (snd p) /\ extends_log s0 (snd p))
      (executed (traverse limit worlds k n s)).
Proof.
  induction limit as [| limit IH]; intros worlds k n s Hin Hlog;
    cbn [traverse]; [constructor |].
  pose proof (run_node_keeps (worlds k) n s) as Hrun. unfold on_return in Hrun.
  destruct (result_of (run_node (worlds k) n s)) as [s' | e]; [| constructor].
  assert (Hs' : n <> pr -> keeps_inputs s0 s' /\ extends_log s0 s').
  { intros Hn. destruct (Hrun Hn) as [H1 H2]. split;
      [exact (keeps_inputs_trans _ _ _ Hin H1)
      | exact (extends_log_trans _ _ _ Hlog H2)]. }
  pose proof (next_node_keeps n s') as Hnext.
  destruct (next_node n s') as [[n' |] s''] eqn:E; cbn [executed].
  - constructor; [exact Hs' |].
    assert (Hn : n <> pr) by (intros ->; discriminate E).
    destruct (Hs' Hn) as [H1 H2]. cbn [snd] in Hnext. destruct Hnext as [H3 H4].
    apply IH; [exact (keeps_inputs_trans _ _ _ H1 H3)
              | exact (extends_log_trans _ _ _ H2 H4)].
  - constructor; [exact Hs' | constructor].
Qed.

(** X11.  Along every run, each state a step other than the pull-request
    step returns has the request and the repository path of the initial
    state, and a log that starts with the log of the initial state: no step
    and no routing function rewrites the inputs or removes a log entry. *)
Theorem run_keeps_inputs_and_log (worlds : nat -> World) (s0 : BuildState) :
  Forall (fun p => fst p <> pr ->
                   keeps_inputs s0 (snd p) /\ extends_log s0 (snd p))
    (executed (invoke worlds s0)).
Proof.
  apply traverse_keeps.
  - split; reflexivity.
  - exists []. rewrite app_nil_r. reflexivity.
Qed.

(** ** The path of a run whose checks all pass, or never pass *)

Lemma traverse_raise (limit : nat) (worlds : nat -> World) (k : nat) (n : Node)
  (s : BuildState) (e : Exn) :
  result_of (run_node (worlds k) n s) = Raise e ->
  traverse (S limit) worlds k n s = mkRun [] (Aborted e).
Proof. intros H. cbn [traverse]. rewrite H. reflexivity. Qed.

Lemma traverse_step (limit : nat) (worlds : nat -> World) (k : nat) (n n' : Node)
  (s s' s'' : BuildState) :
  result_of (run_node (worlds k) n s) = Ok s' ->
  next_node n s' = (Some n', s'') ->
  traverse (S limit) worlds k n s
  = mkRun ((n, s') :: executed (traverse limit worlds (S k) n' s''))
      (ending (traverse limit worlds (S k) n' s'')).
Proof. intros H E. cbn [traverse]. rewrite H, E. reflexivity. Qed.

Lemma traverse_last (limit : nat) (worlds : nat -> World) (k : nat)
  (s s' : BuildState) :
  result_of (run_node (worlds k) pr s) = Ok s' ->
  traverse (S limit) worlds k pr s = mkRun [(pr, s')] (Finished s').
Proof. intros H. cbn [traverse]. rewrite H. reflexivity. Qed.

Lemma every_step_cons (n m : Node) (P : BuildState -> bool) (s : BuildState)
  (rest : list (Node * BuildState)) (e e' : Ending) :
  every_step n P (mkRun ((m, s) :: rest) e) = true ->
  (node_eqb m n = true -> P s = true) /\ every_step n P (mkRun rest e') = true.
Proof.
  unfold every_step. cbn [executed forallb fst snd]. intros H.
  apply andb_prop in H. destruct H as [H1 H2]. split; [| exact H2].
  intros Hm. rewrite Hm in H1. exact H1.
Qed.

Lemma tests_next_pass (s : BuildState) :
  tests_verdict s = true -> fst (tests_next s) = security.
Proof.
  unfold tests_next, tests_verdict. intros H. cbv zeta.
  destruct (3 <=? get_dev_attempts s); [reflexivity |].
  cbn [fst]. rewrite H. reflexivity.
Qed.

Lemma sec_next_pass (s : BuildState) :
  sec_ok s = true -> fst (sec_next s) = pr.
Proof.
  unfold sec_next. intros H. cbv zeta.
  destruct (3 <=? get_dev_attempts s); [reflexivity |].
  cbn [fst]. rewrite H. reflexivity.
Qed.

Lemma tests_next_fail (s : BuildState) :
  tests_verdict s = false ->
  tests_next s
  = if 3 <=? get_dev_attempts s
    then (security, log s "Max dev attempts reached, proceeding to security")
    else (dev, s).
Proof.
  unfold tests_next, tests_verdict. intros H. cbv zeta. rewrite H. reflexivity.
Qed.

(** The continuation of a run from an executed step. *)
Ltac run_step Hend :=
  match type of Hend with
  | ending (traverse (S ?l) ?ws ?k ?n ?s) = Finished _ =>
      let s' := fresh "s" in
      let E := fresh "E" in
      let A := fresh "A" in
      destruct (result_of (run_node (ws k) n s)) as [s' | ?] eqn:E;
      [ pose proof (run_node_dev_attempts (ws k) n s) as A;
        unfold on_return in A; rewrite E in A; cbn [is_dev] in A
      | rewrite (traverse_raise l ws k n s _ E) in Hend; discriminate Hend ]
  end.

Lemma ending_run (r0 r : Run) (m : Node) (s : BuildState) :
  r0 = mkRun ((m, s) :: executed r) (ending r) -> ending r0 = ending r.
Proof. intros ->. reflexivity. Qed.

Lemma every_step_run (n : Node) (P : BuildState -> bool) (r0 r : Run) (m : Node)
  (s : BuildState) :
  r0 = mkRun ((m, s) :: executed r) (ending r) ->
  every_step n P r0 = true ->
  (node_eqb m n = true -> P s = true) /\ every_step n P r = true.
Proof.
  intros ->. unfold every_step. cbn [executed forallb fst snd]. intros H.
  apply andb_prop in H. destruct H as [H1 H2]. split; [| exact H2].
  intros Hm. rewrite Hm in H1. exact H1.
Qed.

Lemma nodes_of_run (r0 r : Run) (m : Node) (s : BuildState) (l : list Node)
  (Q : Prop) :
  r0 = mkRun ((m, s) :: executed r) (ending r) ->
  nodes_of r = l /\ Q -> nodes_of r0 = m :: l /\ Q.
Proof. intros -> [<- HQ]. split; [reflexivity | exact HQ]. Qed.

Lemma next_node_tests (s : BuildState) :
  next_node tests s = (Some (fst (tests_next s)), snd (tests_next s)).
Proof. cbn [next_node]. destruct (tests_next s). reflexivity. Qed.

Lemma next_node_security (s : BuildState) :
  next_node security s = (Some (fst (sec_next s)), snd (sec_next s)).
Proof. cbn [next_node]. destruct (sec_next s). reflexivity. Qed.

(** X12.  A run that finishes and in which every tests step finds lint and
    tests passing and every security step finds the audit passing executes
    exactly the six steps plan, design, dev, tests, security, pr, once each,
    and ends with the attempt counter one above its initial value. *)
Theorem passing_checks_give_the_short_run (worlds : nat -> World)
  (s0 final : BuildState) :
  ending (invoke worlds s0) = Finished final ->
  every_step tests tests_verdict (invoke worlds s0) = true ->
  every_step security sec_ok (invoke worlds s0) = true ->
  nodes_of (invoke worlds s0) = [plan; design; dev; tests; security; pr]
  /\ get_dev_attempts final = get_dev_attempts s0 + 1.
Proof.
  unfold invoke, recursion_limit. intros Hend Htests Hsec.
  (* plan *)
  run_step Hend.
  pose proof (traverse_step 24 worlds 0 plan design s0 s s E eq_refl) as T.
  rewrite (ending_run _ _ _ _ T) in Hend.
  apply (every_step_run _ _ _ _ _ _ T) in Htests. destruct Htests as [_ Htests].
  apply (every_step_run _ _ _ _ _ _ T) in Hsec. destruct Hsec as [_ Hsec].
  apply (nodes_of_run _ _ _ _ _ _ T). clear T.
  (* design *)
  run_step Hend.
  pose proof (traverse_step 23 worlds 1 design dev s s1 s1 E0 eq_refl) as T.
  rewrite (ending_run _ _ _ _ T) in Hend.
  apply (every_step_run _ _ _ _ _ _ T) in Htests. destruct Htests as [_ Htests].
  apply (every_step_run _ _ _ _ _ _ T) in Hsec. destruct Hsec as [_ Hsec].
  apply (nodes_of_run _ _ _ _ _ _ T). clear T.
  (* dev *)
  run_step Hend.
  pose proof (traverse_step 22 worlds 2 dev tests s1 s2 s2 E1 eq_refl) as T.
  rewrite (ending_run _ _ _ _ T) in Hend.
  apply (every_step_run _ _ _ _ _ _ T) in Htests. destruct Htests as [_ Htests].
  apply (every_step_run _ _ _ _ _ _ T) in Hsec. destruct Hsec as [_ Hsec].
  apply (nodes_of_run _ _ _ _ _ _ T). clear T.
  (* tests *)
  run_step Hend.
  pose proof (traverse_step 21 worlds 3 tests _ s2 s3 _ E2 (next_node_tests s3))
    as T.
  apply (every_step_run _ _ _ _ _ _ T) in Htests.
  destruct Htests as [Hpass Htests]. specialize (Hpass eq_refl).
  rewrite (tests_next_pass s3 Hpass) in T, Htests.
  rewrite (ending_run _ _ _ _ T) in Hend.
  apply (every_step_run _ _ _ _ _ _ T) in Hsec. destruct Hsec as [_ Hsec].
  apply (nodes_of_run _ _ _ _ _ _ T). clear T.
  pose proof (tests_next_dev_attempts s3) as A3'.
  (* security *)
  run_step Hend.
  pose proof (traverse_step 20 worlds 4 security _ _ s4 _ E3
                (next_node_security s4)) as T.
  apply (every_step_run _ _ _ _ _ _ T) in Hsec.
  destruct Hsec as [Hpass' Hsec]. specialize (Hpass' eq_refl).
  rewrite (sec_next_pass s4 Hpass') in T, Hsec.
  rewrite (ending_run _ _ _ _ T) in Hend.
  apply (nodes_of_run _ _ _ _ _ _ T). clear T.
  pose proof (sec_next_dev_attempts s4) as A4'.
  (* pr *)
  run_step Hend.
  rewrite (traverse_last 19 worlds 5 _ s5 E4) in Hend |- *.
  cbn [ending] in Hend. injection Hend as <-.
  split; [reflexivity | lia].
Qed.

(** X12, an instance: every command exits with 0. *)
Lemma passing_checks_give_the_short_run_witness :
  exists final,
    ending (invoke (fun _ => sample_world (completes_with 0) python_tree "no plan")
              sample_state) = Finished final
    /\ every_step tests tests_verdict
         (invoke (fun _ => sample_world (completes_with 0) python_tree "no plan")
            sample_state) = true
    /\ every_step security sec_ok
         (invoke (fun _ => sample_world (completes_with 0) python_tree "no plan")
            sample_state) = true
    /\ nodes_of
         (invoke (fun _ => sample_world (completes_with 0) python_tree "no plan")
            sample_state)
       = [plan; design; dev; tests; security; pr]
    /\ get_dev_attempts final = get_dev_attempts sample_state + 1.
Proof.
  destruct (ending (invoke (fun _ => sample_world (completes_with 0) python_tree
                                       "no plan") sample_state))
    as [final | e |] eqn:E; try (vm_compute in E; discriminate E).
  exists final.
  assert (Ht : every_step tests tests_verdict
                 (invoke (fun _ => sample_world (completes_with 0) python_tree
                                     "no plan") sample_state) = true)
    by (vm_compute; reflexivity).
  assert (Hs : every_step security sec_ok
                 (invoke (fun _ => sample_world (completes_with 0) python_tree
                                     "no plan") sample_state) = true)
    by (vm_compute; reflexivity).
  split; [reflexivity |]. split; [exact Ht |]. split; [exact Hs |].
  exact (passing_checks_give_the_short_run _ _ final E Ht Hs).
Defined.

Lemma sec_next_ceiling (s : BuildState) :
  3 <= get_dev_attempts s ->
  sec_next s = (pr, log s "Max dev attempts reached, proceeding to PR").
Proof.
  intros H. unfold sec_next. cbv zeta. apply Z.leb_le in H. rewrite H.
  reflexivity.
Qed.

(** X13.  A run that starts with the attempt counter at 0, finishes, and in
    which no tests step finds both lint and tests passing executes exactly
    plan, design, three rounds of dev and tests, then security and pr: after
    the third failed round the ceiling sends the run on to the security step
    and from there to the pull-request step, whatever the audit says. *)
Theorem failing_tests_give_three_rounds (worlds : nat -> World)
  (s0 final : BuildState) :
  get_dev_attempts s0 = 0 ->
  ending (invoke worlds s0) = Finished final ->
  every_step tests (fun s => negb (tests_verdict s)) (invoke worlds s0) = true ->
  nodes_of (invoke worlds s0)
  = [plan; design; dev; tests; dev; tests; dev; tests; security; pr]
  /\ get_dev_attempts final = 3.
Proof.
  unfold invoke, recursion_limit. intros H0 Hend Htests.
  (* plan *)
  run_step Hend.
  pose proof (traverse_step 24 worlds 0 plan design s0 s s E eq_refl) as T.
  rewrite (ending_run _ _ _ _ T) in Hend.
  apply (every_step_run _ _ _ _ _ _ T) in Htests. destruct Htests as [_ Htests].
  apply (nodes_of_run _ _ _ _ _ _ T). clear T.
  (* design *)
  run_step Hend.
  pose proof (traverse_step 23 worlds 1 design dev s s1 s1 E0 eq_refl) as T.
  rewrite (ending_run _ _ _ _ T) in Hend.
  apply (every_step_run _ _ _ _ _ _ T) in Htests. destruct Htests as [_ Htests].
  apply (nodes_of_run _ _ _ _ _ _ T). clear T.
  (* dev, first round *)
  run_step Hend.
  pose proof (traverse_step 22 worlds 2 dev tests s1 s2 s2 E1 eq_refl) as T.
  rewrite (ending_run _ _ _ _ T) in Hend.
  apply (every_step_run _ _ _ _ _ _ T) in Htests. destruct Htests as [_ Htests].
  apply (nodes_of_run _ _ _ _ _ _ T). clear T.
  (* tests, first round *)
  run_step Hend.
  pose proof (traverse_step 21 worlds 3 tests _ s2 s3 _ E2 (next_node_tests s3))
    as T.
  apply (every_step_run _ _ _ _ _ _ T) in Htests.
  destruct Htests as [Hfail Htests]. specialize (Hfail eq_refl).
  apply negb_true_iff in Hfail.
  rewrite (tests_next_fail s3 Hfail) in T, Htests.
  replace (3 <=? get_dev_attempts s3) with false in T, Htests
    by (symmetry; apply Z.leb_gt; lia).
  cbn [fst snd] in T, Htests.
  rewrite (ending_run _ _ _ _ T) in Hend.
  apply (nodes_of_run _ _ _ _ _ _ T). clear T.
  (* dev, second round *)
  run_step Hend.
  pose proof (traverse_step 20 worlds 4 dev tests s3 s4 s4 E3 eq_refl) as T.
  rewrite (ending_run _ _ _ _ T) in Hend.
  apply (every_step_run _ _ _ _ _ _ T) in Htests. destruct Htests as [_ Htests].
  apply (nodes_of_run _ _ _ _ _ _ T). clear T.
  (* tests, second round *)
  run_step Hend.
  pose proof (traverse_step 19 worlds 5 tests _ s4 s5 _ E4 (next_node_tests s5))
    as T.
  apply (every_step_run _ _ _ _ _ _ T) in Htests.
  destruct Htests as [Hfail' Htests]. specialize (Hfail' eq_refl).
  apply negb_true_iff in Hfail'.
  rewrite (tests_next_fail s5 Hfail') in T, Htests.
  replace (3 <=? get_dev_attempts s5) with false in T, Htests
    by (symmetry; apply Z.leb_gt; lia).
  cbn [fst snd] in T, Htests.
  rewrite (ending_run _ _ _ _ T) in Hend.
  apply (nodes_of_run _ _ _ _ _ _ T). clear T.
  (* dev, third round *)
  run_step Hend.
  pose proof (traverse_step 18 worlds 6 dev tests s5 s6 s6 E5 eq_refl) as T.
  rewrite (ending_run _ _ _ _ T) in Hend.
  apply (every_step_run _ _ _ _ _ _ T) in Htests. destruct Htests as [_ Htests].
  apply (nodes_of_run _ _ _ _ _ _ T). clear T.
  (* tests, third round: the ceiling *)
  run_step Hend.
  pose proof (traverse_step 17 worlds 7 tests _ s6 s7 _ E6 (next_node_tests s7))
    as T.
  apply (every_step_run _ _ _ _ _ _ T) in Htests.
  destruct Htests as [Hfail'' Htests]. specialize (Hfail'' eq_refl).
  apply negb_true_iff in Hfail''.
  rewrite (tests_next_fail s7 Hfail'') in T, Htests.
  replace (3 <=? get_dev_attempts s7) with true in T, Htests
    by (symmetry; apply Z.leb_le; lia).
  cbn [fst snd] in T, Htests.
  rewrite (ending_run _ _ _ _ T) in Hend.
  apply (nodes_of_run _ _ _ _ _ _ T). clear T.
  (* security *)
  run_step Hend.
  change (get_dev_attempts (log s7 _)) with (get_dev_attempts s7) in A7.
  pose proof (traverse_step 16 worlds 8 security _ _ s8 _ E7
                (next_node_security s8)) as T.
  rewrite (sec_next_ceiling s8) in T by lia.
  cbn [fst snd] in T.
  rewrite (ending_run _ _ _ _ T) in Hend.
  apply (nodes_of_run _ _ _ _ _ _ T). clear T.
  (* pr *)
  run_step Hend.
  change (get_dev_attempts (log s8 _)) with (get_dev_attempts s8) in A8.
  rewrite (traverse_last 15 worlds 9 _ s9 E8) in Hend |- *.
  cbn [ending] in Hend. injection Hend as <-.
  split; [reflexivity | lia].
Qed.

(** X13, an instance: every command exits with 1. *)
Lemma failing_tests_give_three_rounds_witness :
  exists final,
    get_dev_attempts sample_state = 0
    /\ ending (invoke (fun _ => sample_world all_fail python_tree "no plan")
                 sample_state) = Finished final
    /\ every_step tests (fun s => negb (tests_verdict s))
         (invoke (fun _ => sample_world all_fail python_tree "no plan")
            sample_state) = true
    /\ nodes_of (invoke (fun _ => sample_world all_fail python_tree "no plan")
                   sample_state)
       = [plan; design; dev; tests; dev; tests; dev; tests; security; pr]
    /\ get_dev_attempts final = 3.
Proof.
  destruct (ending (invoke (fun _ => sample_world all_fail python_tree "no plan")
                      sample_state))
    as [final | e |] eqn:E; try (vm_compute in E; discriminate E).
  exists final.
  assert (Ht : every_step tests (fun s => negb (tests_verdict s))
                 (invoke (fun _ => sample_world all_fail python_tree "no plan")
                    sample_state) = true)
    by (vm_compute; reflexivity).
  split; [reflexivity |]. split; [reflexivity |]. split; [exact Ht |].
  exact (failing_tests_give_three_rounds
           (fun _ => sample_world all_fail python_tree "no plan") sample_state
           final eq_refl E Ht).
Defined.

(** ** The answers of the router and the fallback of the planner *)

(** X14.  [route] never returns a [RouteOut].  Whatever the text, the
    state and the backend, the formatting of [router_prompt] raises
    [KeyError]: the braces of its system template are not doubled, so that
    [{plan, design, dev, tests, security, pr, status, help}] is a
    replacement field, which the call does not supply; the exception leaves
    [route] before the backend is asked.  The prompt of the planner, whose
    braces are doubled, is formatted for every request, into its system text
    and the request. *)
Theorem route_never_returns (w : World) (text : string) (state : BuildState)
  (request : string) :
  (forall out, Router.route w text state <> Ok out)
  /\ Prompt.format_messages Router.router_prompt
       [("text", text); ("state_summary", Router.summarize_state state)]
     = Prompt.Failed
         (KeyError "'plan, design, dev, tests, security, pr, status, help'")
  /\ exists system,
       Prompt.format_messages Planner.planner_prompt [("request", request)]
       = Prompt.Formatted [system; request].
Proof.
  split; [| split].
  - intros out. rewrite route_raises. discriminate.
  - apply router_prompt_fails.
  - eexists. vm_compute. reflexivity.
Qed.

(** X25.  The part of [route] that handles the answer of the backend
    ([json.loads], the extraction between the braces, the construction of
    [RouteOut] and the check against [INTENTS]): whenever it returns, the intent it returns
    is one of the eight intents of [INTENTS], namely the intent the backend
    answered when that is one of them, and [help] otherwise; the arguments
    are those of the answer. *)
Theorem answered_intent_is_known (w : World) (raw : string)
  (out : Router.RouteOut) :
  Router.route_raw w raw = Ok out ->
  In (Router.intent out) Router.INTENTS
  /\ exists data answered,
       Router.recover w raw = Ok data
       /\ Router.validate data = Ok answered
       /\ Router.args out = Router.args answered
       /\ Router.intent out
          = (if Py.mem (Router.intent answered) Router.INTENTS
             then Router.intent answered else "help").
Proof.
  unfold Router.route_raw.
  destruct (Router.recover w raw) as [data | e]; [| discriminate].
  destruct (Router.validate data) as [a | e] eqn:E; [| discriminate].
  destruct (Py.mem (Router.intent a) Router.INTENTS) eqn:Hm;
    cbn [negb]; intros H; injection H as <-; cbn [Router.intent Router.args].
  - split; [apply mem_In; exact Hm |].
    exists data, a. rewrite Hm. repeat split; try reflexivity; exact E.
  - split; [cbn; tauto |].
    exists data, a. rewrite Hm. repeat split; try reflexivity; exact E.
Qed.

(** X25, an instance: the backend answers with an intent of its own. *)
Lemma answered_intent_is_known_witness :
  Router.route_raw (sample_world (completes_with 0) [] "")
    (Py.quoted "{'intent': 'deploy', 'args': {'env': 'prod'}}")
  = Ok (Router.mkRouteOut "help" [("env", Json.JStr "prod")])
  /\ In "help" Router.INTENTS.
Proof.
  assert (H : Router.route_raw (sample_world (completes_with 0) [] "")
                (Py.quoted "{'intent': 'deploy', 'args': {'env': 'prod'}}")
              = Ok (Router.mkRouteOut "help" [("env", Json.JStr "prod")]))
    by (vm_compute; reflexivity).
  split; [exact H |].
  exact (proj1 (answered_intent_is_known _ _ _ H)).
Defined.

(** X15.  When the answer of the backend is not valid JSON and holds no
    brace-delimited text that is, the planning step does not raise: it
    returns with the fallback plan, a PRD built from the request and the
    three tasks [task1], [task2], [task3], and starts no command. *)
Theorem planner_falls_back (w : World) (s : BuildState) :
  Json.loads (chat w (Some "planning") [request s]) = None ->
  (Py.find (chat w (Some "planning") [request s]) "{" = -1
   \/ Py.rfind (chat w (Some "planning") [request s]) "}" = -1
   \/ Json.loads
        (Py.slice (chat w (Some "planning") [request s])
           (Py.find (chat w (Some "planning") [request s]) "{")
           (Py.rfind (chat w (Some "planning") [request s]) "}" + 1)) = None) ->
  exists s',
    Planner.planner_node w s = (Ok s', [])
    /\ prd s'
       = "# PRD" ++ Py.nl ++ Py.nl ++ "Request: " ++ request s
         ++ Py.nl ++ Py.nl ++ "## Goal" ++ Py.nl
         ++ "Implement the requested feature." ++ Py.nl ++ Py.nl
         ++ "## Acceptance Criteria" ++ Py.nl ++ "- Feature implemented"
         ++ Py.nl ++ "- Tests pass" ++ Py.nl ++ "- Code follows standards"
    /\ tasks s'
       = [mkTask "task1" "Implement feature"; mkTask "task2" "Add tests";
          mkTask "task3" "Update documentation"].
Proof.
  intros Hraw Hnone.
  unfold Planner.planner_node. cbv zeta.
  set (raw := chat w (Some "planning") [request s]) in *.
  unfold Planner.recover. rewrite Hraw. cbv zeta.
  destruct ((Py.find raw "{" =? -1) || (Py.rfind raw "}" + 1 =? 0)) eqn:Hb.
  - eexists. split; [reflexivity |]. split; reflexivity.
  - apply orb_false_elim in Hb. destruct Hb as [Hs He].
    apply Z.eqb_neq in Hs. apply Z.eqb_neq in He.
    destruct Hnone as [H | [H | H]]; [congruence | lia |].
    rewrite H. eexists. split; [reflexivity |]. split; reflexivity.
Qed.

(** X15, an instance: the backend answers in prose with an unbalanced
    brace. *)
Lemma planner_falls_back_witness :
  exists s',
    Planner.planner_node
      (sample_world (completes_with 0) [] "Sure {here is the plan") sample_state
    = (Ok s', [])
    /\ tasks s'
       = [mkTask "task1" "Implement feature"; mkTask "task2" "Add tests";
          mkTask "task3" "Update documentation"].
Proof.
  destruct (planner_falls_back
              (sample_world (completes_with 0) [] "Sure {here is the plan")
              sample_state)
    as (s' & Hrun & _ & Htasks).
  - vm_compute. reflexivity.
  - right. left. vm_compute. reflexivity.
  - exists s'. split; [exact Hrun | exact Htasks].
Defined.

(** ** The choice and the construction of a chat model *)

Lemma dict_get_set (d : list (string * Json.value)) (k k' : string)
  (v : Json.value) :
  Json.dict_get (Json.dict_set d k v) k'
  = if String.eqb k' k then Some v else Json.dict_get d k'.
Proof.
  induction d as [| [k0 v0] d IH]; simpl.
  - reflexivity.
  - destruct (String.eqb k k0) eqn:E; simpl.
    + apply String.eqb_eq in E. subst k0.
      destruct (String.eqb k' k); reflexivity.
    + destruct (String.eqb k' k0) eqn:E0.
      * apply String.eqb_eq in E0. subst k0.
        rewrite String.eqb_sym, E. reflexivity.
      * exact IH.
Qed.

(** [update] leaves the keys the other dict does not have. *)
Lemma dict_get_update (other : Hf.Config) :
  forall (config : Hf.Config) (k : string),
    Json.dict_get other k = None ->
    Json.dict_get (Hf.update config other) k = Json.dict_get config k.
Proof.
  unfold Hf.update.
  induction other as [| [k0 v0] other IH]; intros config k Hk; simpl;
    [reflexivity |].
  simpl in Hk. destruct (String.eqb k k0) eqn:E; [discriminate |].
  rewrite (IH _ _ Hk), dict_get_set, E. reflexivity.
Qed.

(** The names every list of preferences holds: configurations of the
    Hugging Face provider. *)
Lemma first_available_huggingface (env : Hf.Env) (names : list string) :
  Forall (fun n => exists config,
              LanguageDetector.assoc Hf.MODEL_CONFIGS n = Some config
              /\ Hf.provider_of config = "huggingface") names ->
  Hf.first_available env names
  = if Hf.truthy (Hf.environ env "HUGGINGFACEHUB_API_TOKEN")
    then hd_error names else None.
Proof.
  induction 1 as [| n names (config & Hc & Hp) _ IH];
    cbn [Hf.first_available hd_error].
  - destruct (Hf.truthy _); reflexivity.
  - rewrite Hc. unfold Hf.is_provider_available. rewrite Hp.
    cbn [String.eqb Ascii.eqb Bool.eqb].
    destruct (Hf.truthy _); [reflexivity | exact IH].
Qed.

Ltac known_config :=
  eexists; split; [reflexivity | reflexivity].

Lemma preferences_are_huggingface :
  Forall (fun entry =>
            Forall (fun n => exists config,
                        LanguageDetector.assoc Hf.MODEL_CONFIGS n = Some config
                        /\ Hf.provider_of config = "huggingface") (snd entry))
    (Hf.LANGUAGE_MODEL_PREFERENCES ++ Hf.TASK_MODEL_FALLBACKS)%list.
Proof. repeat (constructor; [repeat (constructor; [known_config |]) |]);
         constructor. Qed.

Lemma preference_list_is_huggingface (table : list (string * list string))
  (key : string) (names : list string) :
  table = Hf.LANGUAGE_MODEL_PREFERENCES \/ table = Hf.TASK_MODEL_FALLBACKS ->
  LanguageDetector.assoc table key = Some names ->
  Forall (fun n => exists config,
              LanguageDetector.assoc Hf.MODEL_CONFIGS n = Some config
              /\ Hf.provider_of config = "huggingface") names.
Proof.
  intros Htable Hnames. apply assoc_In in Hnames.
  pose proof preferences_are_huggingface as H.
  rewrite Forall_forall in H.
  apply in_map_iff in Hnames. destruct Hnames as (entry & <- & Hin).
  apply H. apply in_or_app.
  destruct Htable as [-> | ->]; [left | right]; exact Hin.
Qed.

Lemma choice_by (env : Hf.Env) (table : list (string * list string))
  (key : string) :
  table = Hf.LANGUAGE_MODEL_PREFERENCES \/ table = Hf.TASK_MODEL_FALLBACKS ->
  match LanguageDetector.assoc table key with
  | Some names => Hf.first_available env names
  | None => None
  end
  = (if Hf.truthy (Hf.environ env "HUGGINGFACEHUB_API_TOKEN")
     then first_choice table key else None)
  /\ forall n, first_choice table key = Some n ->
               exists config,
                 LanguageDetector.assoc Hf.MODEL_CONFIGS n = Some config
                 /\ Hf.provider_of config = "huggingface".
Proof.
  intros Htable. unfold first_choice.
  destruct (LanguageDetector.assoc table key) as [names |] eqn:E.
  - pose proof (preference_list_is_huggingface table key names Htable E) as Hhf.
    rewrite (first_available_huggingface env names Hhf). split.
    + destruct names; reflexivity.
    + intros n Hn. destruct names as [| m names]; [discriminate |].
      injection Hn as ->. inversion Hhf; assumption.
  - split; [destruct (Hf.truthy _); reflexivity | discriminate].
Qed.

(** The model [select_best_model_for_language] selects. *)
Lemma select_best_model (env : Hf.Env) (language task : string) :
  Hf.select_best_model_for_language env language task
  = if Hf.truthy (Hf.environ env "HUGGINGFACEHUB_API_TOKEN")
    then match first_choice Hf.LANGUAGE_MODEL_PREFERENCES language with
         | Some n => n
         | None =>
             match first_choice Hf.TASK_MODEL_FALLBACKS task with
             | Some n => n
             | None => "default"
             end
         end
    else "default".
Proof.
  unfold Hf.select_best_model_for_language. cbv zeta.
  destruct (choice_by env Hf.LANGUAGE_MODEL_PREFERENCES language
              (or_introl eq_refl)) as [-> _].
  destruct (choice_by env Hf.TASK_MODEL_FALLBACKS task (or_intror eq_refl))
    as [-> _].
  destruct (Hf.truthy _); [| reflexivity].
  destruct (first_choice Hf.LANGUAGE_MODEL_PREFERENCES language);
    [reflexivity |].
  destruct (first_choice Hf.TASK_MODEL_FALLBACKS task); reflexivity.
Qed.

(** X16.  [select_best_model_for_language] only ever selects a
    configuration of the Hugging Face provider.  With a Hugging Face token
    in the environment it is the first preference of the language when the
    language has preferences (the task is then not looked at), else the
    first fallback of the task, else [default]; without a token it is
    [default], whatever other provider is available. *)
Theorem selection_stays_with_huggingface (env : Hf.Env) (language task : string) :
  (exists config,
      LanguageDetector.assoc Hf.MODEL_CONFIGS
        (Hf.select_best_model_for_language env language task) = Some config
      /\ Hf.provider_of config = "huggingface")
  /\ Hf.select_best_model_for_language env language task
     = (if Hf.truthy (Hf.environ env "HUGGINGFACEHUB_API_TOKEN")
        then match first_choice Hf.LANGUAGE_MODEL_PREFERENCES language with
             | Some n => n
             | None =>
                 match first_choice Hf.TASK_MODEL_FALLBACKS task with
                 | Some n => n
                 | None => "default"
                 end
             end
        else "default").
Proof.
  split; [| apply select_best_model].
  rewrite select_best_model.
  destruct (choice_by env Hf.LANGUAGE_MODEL_PREFERENCES language
              (or_introl eq_refl)) as [_ Hl].
  destruct (choice_by env Hf.TASK_MODEL_FALLBACKS task (or_intror eq_refl))
    as [_ Ht].
  destruct (Hf.truthy _); [| known_config].
  destruct (first_choice Hf.LANGUAGE_MODEL_PREFERENCES language) as [n |];
    [exact (Hl n eq_refl) |].
  destruct (first_choice Hf.TASK_MODEL_FALLBACKS task) as [n |];
    [exact (Ht n eq_refl) | known_config].
Qed.

Ltac each_config H :=
  unfold Hf.MODEL_CONFIGS in H; cbn [LanguageDetector.assoc] in H;
  repeat match type of H with
    | (if ?b then _ else _) = _ => destruct b
    end;
  try discriminate H; injection H as <-.

(** Updating the default configuration with a named one gives the provider
    and the model id of the named one. *)
Lemma named_config_fields (name : string) (chosen default : Hf.Config) :
  LanguageDetector.assoc Hf.MODEL_CONFIGS "default" = Some default ->
  LanguageDetector.assoc Hf.MODEL_CONFIGS name = Some chosen ->
  Json.dict_get (Hf.update default chosen) "provider"
  = Json.dict_get chosen "provider"
  /\ Json.dict_get (Hf.update default chosen) "model_id"
     = Json.dict_get chosen "model_id".
Proof.
  intros Hd Hc. injection Hd as <-.
  each_config Hc; split; reflexivity.
Qed.

(** The provider and the model id of the configuration [make_chat] hands to
    the factory. *)
Lemma resolve_config_fields (env : Hf.Env) (model_config model_id : option string)
  (kwargs : Hf.Config) :
  Json.dict_get kwargs "provider" = None ->
  (Hf.truthy model_config = false
   \/ exists name config,
        model_config = Some name
        /\ LanguageDetector.assoc Hf.MODEL_CONFIGS name = Some config) ->
  exists config,
    Hf.resolve_config env model_config model_id None kwargs = inr config
    /\ Json.dict_get config "provider"
       = match LanguageDetector.assoc Hf.MODEL_CONFIGS
                 (match model_config with
                  | Some (String c rest) => String c rest
                  | _ => "default"
                  end) with
         | Some chosen => Json.dict_get chosen "provider"
         | None => None
         end
    /\ (Json.dict_get kwargs "model_id" = None ->
        Json.dict_get config "model_id"
        = effective_model_id env model_config model_id).
Proof.
  intros Hkw Hmc. unfold Hf.resolve_config, effective_model_id,
    configured_model_id.
  destruct (LanguageDetector.assoc Hf.MODEL_CONFIGS "default") as [default |]
    eqn:Hd; [| discriminate Hd].
  cbv zeta.
  assert (Hnamed :
            exists base,
              match model_config with
              | Some (String c rest) =>
                  match LanguageDetector.assoc Hf.MODEL_CONFIGS (String c rest) with
                  | Some chosen => inr (Hf.update default chosen)
                  | None =>
                      inl (Hf.ValueError
                             ("Unknown model config: " ++ String c rest
                              ++ ". Available: " ++ Hf.keys_text Hf.MODEL_CONFIGS))
                  end
              | _ => inr default
              end = inr base
              /\ match LanguageDetector.assoc Hf.MODEL_CONFIGS
                         (match model_config with
                          | Some (String c rest) => String c rest
                          | _ => "default"
                          end) with
                 | Some chosen =>
                     Json.dict_get base "provider" = Json.dict_get chosen "provider"
                     /\ Json.dict_get base "model_id"
                        = Json.dict_get chosen "model_id"
                 | None => False
                 end).
  { destruct Hmc as [Hf | (name & chosen & -> & Hc)].
    - exists default. destruct model_config as [[| c rest] |];
        try discriminate Hf; rewrite Hd; repeat split.
    - destruct name as [| c rest].
      + exists default. rewrite Hd. repeat split.
      + rewrite Hc. exists (Hf.update default chosen).
        split; [reflexivity | exact (named_config_fields _ _ _ Hd Hc)]. }
  destruct Hnamed as (base & -> & Hbase).
  eexists. split; [reflexivity |].
  destruct (LanguageDetector.assoc Hf.MODEL_CONFIGS
              match model_config with
              | Some (String c rest) => String c rest
              | _ => "default"
              end) as [chosen |]; [| destruct Hbase].
  destruct Hbase as [Hp Hm]. split.
  - rewrite (dict_get_update kwargs _ _ Hkw).
    destruct model_id as [[| c rest] |];
      destruct (Hf.environ env "HF_MODEL_ID") as [[| c' rest'] |];
      destruct (negb (Hf.truthy model_config));
      rewrite ?dict_get_set; exact Hp.
  - intros Hkm. rewrite (dict_get_update kwargs _ _ Hkm).
    destruct model_id as [[| c rest] |];
      destruct (Hf.environ env "HF_MODEL_ID") as [[| c' rest'] |];
      destruct (Hf.truthy model_config);
      cbn [negb]; rewrite ?dict_get_set; cbn [String.eqb Ascii.eqb Bool.eqb];
      first [reflexivity | exact Hm].
Qed.

Lemma huggingface_factory (env : Hf.Env) (config : Hf.Config) :
  Json.dict_get config "provider" = Some (Json.JStr "huggingface") ->
  match LanguageDetector.assoc Hf.PROVIDER_FACTORIES (Hf.provider_of config) with
  | None =>
      inl (Hf.ValueError ("Unknown provider: " ++ Hf.provider_of config
                          ++ ". Available: " ++ Hf.keys_text Hf.PROVIDER_FACTORIES))
  | Some factory => factory env config
  end = Hf._create_huggingface_chat env config.
Proof. intros H. unfold Hf.provider_of. rewrite H. reflexivity. Qed.

Lemma provider_of_huggingface (config : Hf.Config) :
  Hf.provider_of config = "huggingface" ->
  Json.dict_get config "provider" = Some (Json.JStr "huggingface").
Proof.
  unfold Hf.provider_of.
  destruct (Json.dict_get config "provider") as [[| | | | p | |] |];
    try discriminate.
  intros ->. reflexivity.
Qed.

(** What [make_chat] does for a configuration of the Hugging Face
    provider. *)
Lemma make_chat_huggingface (env : Hf.Env) (model_config model_id : option string)
  (kwargs : Hf.Config) :
  Json.dict_get kwargs "provider" = None ->
  names_huggingface_config model_config ->
  exists config,
    Hf.make_chat env model_config model_id None kwargs
    = Hf._create_huggingface_chat env config
    /\ (Json.dict_get kwargs "model_id" = None ->
        Json.dict_get config "model_id"
        = effective_model_id env model_config model_id).
Proof.
  intros Hkw Hmc.
  assert (Hknown : Hf.truthy model_config = false
                   \/ exists name config,
                        model_config = Some name
                        /\ LanguageDetector.assoc Hf.MODEL_CONFIGS name
                           = Some config).
  { destruct Hmc as [H | (name & config & H1 & H2 & _)];
      [left; exact H | right; eauto]. }
  destruct (resolve_config_fields env model_config model_id kwargs Hkw Hknown)
    as (config & Hres & Hprov & Hmodel).
  exists config. split; [| exact Hmodel].
  unfold Hf.make_chat. rewrite Hres. cbv zeta.
  apply huggingface_factory. rewrite Hprov.
  destruct Hmc as [H | (name & chosen & -> & Hc & Hp)].
  - destruct model_config as [[| c rest] |]; try discriminate H; reflexivity.
  - destruct name as [| c rest]; [reflexivity |].
    rewrite Hc. apply provider_of_huggingface. exact Hp.
Qed.

(** X17.  Without [HUGGINGFACEHUB_API_TOKEN] in the environment (unset or
    empty), [make_chat] raises its [ValueError] for every call that names no
    configuration or a configuration of the Hugging Face provider and passes
    no provider: so for the calls the planner, the architect and the router
    make.  [make_chat_for_language] without a forced configuration then
    raises it for every language and task, whichever other provider is
    available. *)
Theorem chat_needs_the_token (env : Hf.Env) (model_config model_id : option string)
  (kwargs : Hf.Config) (language task : string) :
  Hf.truthy (Hf.environ env "HUGGINGFACEHUB_API_TOKEN") = false ->
  Json.dict_get kwargs "provider" = None ->
  (names_huggingface_config model_config ->
   Hf.make_chat env model_config model_id None kwargs
   = inl (Hf.ValueError
            ("HUGGINGFACEHUB_API_TOKEN environment variable is required. "
             ++ "Please set it in your .env file or environment.")))
  /\ Hf.make_chat_for_language env language task None model_id None kwargs
     = inl (Hf.ValueError
              ("HUGGINGFACEHUB_API_TOKEN environment variable is required. "
               ++ "Please set it in your .env file or environment.")).
Proof.
  intros Htoken Hkw.
  assert (Hmake : forall mc,
             names_huggingface_config mc ->
             Hf.make_chat env mc model_id None kwargs
             = inl (Hf.ValueError
                      ("HUGGINGFACEHUB_API_TOKEN environment variable is required. "
                       ++ "Please set it in your .env file or environment."))).
  { intros mc Hmc.
    destruct (make_chat_huggingface env mc model_id kwargs Hkw Hmc)
      as (config & -> & _).
    unfold Hf._create_huggingface_chat.
    destruct (Hf.environ env "HUGGINGFACEHUB_API_TOKEN") as [[| c rest] |];
      [reflexivity | discriminate Htoken | reflexivity]. }
  split; [apply Hmake |].
  unfold Hf.make_chat_for_language. cbn [Hf.truthy].
  rewrite select_best_model, Htoken.
  apply Hmake. right. exists "default".
  eexists. split; [reflexivity | split; reflexivity].
Qed.

(** X17, an instance: an environment with an OpenAI key only. *)
Lemma chat_needs_the_token_witness :
  Hf.make_chat (env_with [("OPENAI_API_KEY", "sk-test")]) (Some "planning")
    None None []
  = inl (Hf.ValueError
           ("HUGGINGFACEHUB_API_TOKEN environment variable is required. "
            ++ "Please set it in your .env file or environment."))
  /\ Hf.make_chat_for_language (env_with [("OPENAI_API_KEY", "sk-test")])
       "rust" "coding" None None None [("temperature", Json.JFloat "0.05")]
     = inl (Hf.ValueError
              ("HUGGINGFACEHUB_API_TOKEN environment variable is required. "
               ++ "Please set it in your .env file or environment.")).
Proof.
  split.
  - apply (proj1 (chat_needs_the_token (env_with [("OPENAI_API_KEY", "sk-test")])
                    (Some "planning") None [] "" "" eq_refl eq_refl)).
    right. exists "planning".
    eexists. split; [reflexivity | split; reflexivity].
  - exact (proj2 (chat_needs_the_token (env_with [("OPENAI_API_KEY", "sk-test")])
                    None None [("temperature", Json.JFloat "0.05")]
                    "rust" "coding" eq_refl eq_refl)).
Defined.

(** X18.  With a token in the environment, a call of [make_chat] for a
    configuration of the Hugging Face provider builds a Hugging Face chat
    model whose model id is settled in this order: the argument [model_id]
    when it is given; else the variable [HF_MODEL_ID], but only when no
    configuration is named; else the model id of the configuration. *)
Theorem model_id_precedence (env : Hf.Env) (model_config model_id : option string)
  (kwargs : Hf.Config) (c : ascii) (token : string) :
  Hf.environ env "HUGGINGFACEHUB_API_TOKEN" = Some (String c token) ->
  names_huggingface_config model_config ->
  Json.dict_get kwargs "provider" = None ->
  Json.dict_get kwargs "model_id" = None ->
  exists temperature max_new_tokens,
    Hf.make_chat env model_config model_id None kwargs
    = inr (Hf.ChatHuggingFace (effective_model_id env model_config model_id)
             temperature max_new_tokens (String c token)).
Proof.
  intros Htoken Hmc Hkw Hkm.
  destruct (make_chat_huggingface env model_config model_id kwargs Hkw Hmc)
    as (config & -> & Hmodel).
  unfold Hf._create_huggingface_chat. rewrite Htoken, (Hmodel Hkm).
  eexists. eexists. reflexivity.
Qed.

(** X18, an instance: [HF_MODEL_ID] is set, and the planning configuration
    is named. *)
Lemma model_id_precedence_witness :
  exists temperature max_new_tokens,
    Hf.make_chat
      (env_with [("HUGGINGFACEHUB_API_TOKEN", "hf_x"); ("HF_MODEL_ID", "my/model")])
      (Some "planning") None None []
    = inr (Hf.ChatHuggingFace
             (Some (Json.JStr "meta-llama/Meta-Llama-3.1-70B-Instruct"))
             temperature max_new_tokens "hf_x").
Proof.
  apply (model_id_precedence
           (env_with [("HUGGINGFACEHUB_API_TOKEN", "hf_x");
                      ("HF_MODEL_ID", "my/model")])
           (Some "planning") None [] "h"%char "f_x" eq_refl).
  - right. exists "planning".
    eexists. split; [reflexivity | split; reflexivity].
  - reflexivity.
  - reflexivity.
Defined.

(** X19.  The four configurations of [MODEL_CONFIGS] for Anthropic and
    Ollama never give a chat model: naming one of them, [make_chat] raises
    [NotImplementedError] for the Anthropic ones and [ValueError] (unknown
    provider) for the Ollama ones, in every environment, also when the key
    is set or the Ollama server answers. *)
Theorem placeholder_configs_never_build (env : Hf.Env) (name : string)
  (model_id : option string) (kwargs : Hf.Config) :
  In name placeholder_configs ->
  Json.dict_get kwargs "provider" = None ->
  Hf.make_chat env (Some name) model_id None kwargs
  = inl (if Py.startswith name "ollama"
         then Hf.ValueError
                "Unknown provider: ollama. Available: ['huggingface', 'openai', 'anthropic']"
         else Hf.NotImplementedError
                ("Anthropic provider not yet implemented. "
                 ++ "Add langchain-anthropic to requirements.txt")).
Proof.
  intros Hname Hkw.
  assert (Hknown : Hf.truthy (Some name) = false
                   \/ exists n config,
                        Some name = Some n
                        /\ LanguageDetector.assoc Hf.MODEL_CONFIGS n = Some config).
  { right. exists name.
    destruct Hname as [<- | [<- | [<- | [<- | []]]]]; eexists;
      split; reflexivity. }
  destruct (resolve_config_fields env (Some name) model_id kwargs Hkw Hknown)
    as (config & Hres & Hprov & _).
  unfold Hf.make_chat. rewrite Hres. cbv zeta. unfold Hf.provider_of.
  rewrite Hprov.
  destruct Hname as [<- | [<- | [<- | [<- | []]]]]; reflexivity.
Qed.

(** X19, an instance: the Ollama server answers. *)
Lemma placeholder_configs_never_build_witness :
  Hf.make_chat (Hf.mkEnv (fun _ => None) true true) (Some "ollama_mistral")
    None None []
  = inl (Hf.ValueError
           "Unknown provider: ollama. Available: ['huggingface', 'openai', 'anthropic']").
Proof.
  exact (placeholder_configs_never_build (Hf.mkEnv (fun _ => None) true true)
           "ollama_mistral" None []
           (or_intror (or_intror (or_intror (or_introl eq_refl)))) eq_refl).
Defined.

(** ** The set-up of the dependencies *)

(** X20.  For a primary language outside the seven the dependency manager
    knows (PHP, Ruby, [unknown], ...), [setup_project_dependencies] returns
    exit code 1 with the message [Failed to create dependency file] and
    starts no command: no dependency file is created for such a language, so
    the branch that would answer exit code 0 with [No dependency setup
    available] is not reached. *)
Theorem unsupported_language_fails_dependency_setup (w : World)
  (files : DependencyManager.Files) (repo : string) (pa : ProjectProfile) :
  Py.mem (primary_language pa) dependency_languages = false ->
  DependencyManager.create_dependency_file w files repo pa = false
  /\ DependencyManager.setup_project_dependencies w files repo pa
     = ret (1, "Failed to create dependency file").
Proof.
  intros H. split_mem_false H.
  assert (Hc : DependencyManager.create_dependency_file w files repo pa = false).
  { unfold DependencyManager.create_dependency_file. cbv zeta.
    unfold Py.mem. cbn [existsb].
    rewrite Hne, Hne0, Hne1, Hne2, Hne3, Hne4, Hne5. reflexivity. }
  split; [exact Hc |].
  unfold DependencyManager.setup_project_dependencies. cbv zeta.
  rewrite Hc. reflexivity.
Qed.

(** X20, an instance: a PHP project, with every write succeeding. *)
Lemma unsupported_language_fails_dependency_setup_witness :
  DependencyManager.setup_project_dependencies
    (sample_world (completes_with 0) [] "") writable "/repo"
    (profile_of "php" ["index.php"])
  = ret (1, "Failed to create dependency file").
Proof.
  exact (proj2 (unsupported_language_fails_dependency_setup
                  (sample_world (completes_with 0) [] "") writable "/repo"
                  (profile_of "php" ["index.php"]) eq_refl)).
Defined.

Lemma unbounded_shell (w : World) (cmd : list string) (repo : string) :
  every_invocation (unbounded_in repo) (Shell.run w cmd repo).
Proof.
  unfold Shell.run. apply every_bind; [| intros p; apply every_ret].
  repeat constructor.
Qed.

Ltac contained :=
  first
    [ apply every_ret
    | apply unbounded_shell
    | apply every_bind; [| intros ?]
    | match goal with
      | |- every_invocation _ (if ?b then _ else _) => destruct b
      end ].

(** X21.  [setup_project_dependencies] never raises: whatever the commands
    do, also when one cannot be started, it returns an exit code and a
    message.  Every command it starts (creating the virtual environment,
    installing, restoring, building) runs in the repository and without a
    timeout. *)
Theorem dependency_setup_is_contained (w : World)
  (files : DependencyManager.Files) (repo : string) (pa : ProjectProfile) :
  returns (DependencyManager.setup_project_dependencies w files repo pa)
  /\ every_invocation (unbounded_in repo)
       (DependencyManager.setup_project_dependencies w files repo pa).
Proof.
  unfold DependencyManager.setup_project_dependencies. cbv zeta. split.
  - apply returns_try_except. intros e. apply returns_on_exception.
  - apply every_try_except; [| intros e; apply every_ret].
    unfold DependencyManager.setup_python_deps, DependencyManager.setup_node_deps,
      DependencyManager.setup_dotnet_deps, DependencyManager.setup_java_deps,
      DependencyManager.setup_go_deps, DependencyManager.setup_rust_deps.
    cbv zeta. repeat contained.
Qed.

(** X22.  The text [create_package_json] writes is well-formed JSON, and
    parsing it gives back the package data: for every list of frameworks and
    every language, [json.loads] of [json.dumps(package_data, indent=2)] is
    [package_data]. *)
Theorem package_json_round_trip (frameworks : list string) (language : string) :
  Json.loads
    (JsonDump.dumps 2 (DependencyManager.package_data frameworks language))
  = Some (DependencyManager.package_data frameworks language).
Proof.
  unfold DependencyManager.package_data. cbv zeta.
  destruct (Py.mem "express" frameworks), (Py.mem "react" frameworks),
    (Py.mem "next" frameworks), (String.eqb language "javascript"),
    (String.eqb language "typescript"); vm_compute; reflexivity.
Qed.

(** ** What a detected framework rests on *)

Lemma add_once_In (xs : list string) (x y : string) :
  In y (LanguageDetector.add_once xs x) -> In y xs \/ y = x.
Proof.
  unfold LanguageDetector.add_once. destruct (Py.mem x xs); [tauto |].
  intros H. apply in_app_or in H. destruct H as [H | [H | []]];
    [left; exact H | right; symmetry; exact H].
Qed.

Lemma frameworks_in_grounded (content : string)
  (table : list (string * list string)) (P : string -> Prop) :
  (forall fw patterns pattern,
      In (fw, patterns) table -> In pattern patterns ->
      Py.contains pattern content = true -> P fw) ->
  forall found,
    (forall fw, In fw found -> P fw) ->
    forall fw, In fw (LanguageDetector.frameworks_in content table found) -> P fw.
Proof.
  intros Hground. unfold LanguageDetector.frameworks_in.
  apply (fold_left_preserves
           (fun found : list string => forall fw, In fw found -> P fw)).
  intros found [name patterns] Hentry Hfound.
  cbn [fst snd].
  destruct (existsb (fun pattern => Py.contains pattern content) patterns) eqn:E;
    [| exact Hfound].
  intros fw Hfw. destruct (add_once_In _ _ _ Hfw) as [H | ->]; [exact (Hfound fw H) |].
  apply existsb_exists in E. destruct E as (pattern & Hp & Hc).
  exact (Hground name patterns pattern Hentry Hp Hc).
Qed.

Lemma stages_keep_primary_language (root : list Entry) (files : list string)
  (s : ProjectProfile) :
  primary_language (LanguageDetector.find_test_files files s) = primary_language s
  /\ primary_language (LanguageDetector.find_entry_points files s)
     = primary_language s
  /\ primary_language (LanguageDetector.detect_frameworks_and_type root files s)
     = primary_language s
  /\ primary_language (LanguageDetector.analyze_config_files files s)
     = primary_language s.
Proof.
  repeat split; try reflexivity.
  unfold LanguageDetector.detect_frameworks_and_type. cbv zeta.
  destruct (LanguageDetector.assoc _ _); reflexivity.
Qed.

(** X23.  A framework is in the profile only if the primary language has
    it in the table of framework patterns and some listed file with a source
    extension of the primary language holds one of its patterns.  So
    frameworks are reported for Python, JavaScript, C# and Java projects
    only. *)
Theorem detected_frameworks_are_grounded (root : list Entry) (fw : string) :
  In fw (frameworks (LanguageDetector.analyze root)) ->
  In (primary_language (LanguageDetector.analyze root))
    ["python"; "javascript"; "csharp"; "java"]
  /\ exists table patterns file_path pattern,
       LanguageDetector.assoc LanguageDetector.framework_patterns
         (primary_language (LanguageDetector.analyze root)) = Some table
       /\ In (fw, patterns) table
       /\ In file_path (LanguageDetector.list_all_files root)
       /\ Py.endswith_any file_path
            (LanguageDetector.get_source_extensions
               (primary_language (LanguageDetector.analyze root))) = true
       /\ In pattern patterns
       /\ Py.contains pattern (LanguageDetector.read_file_content root file_path)
          = true.
Proof.
  unfold LanguageDetector.analyze. cbv zeta.
  set (files := LanguageDetector.list_all_files root).
  set (s0 := mkProfile _ _ _ _ _ _ _ _ _ _ _ _).
  set (s1 := LanguageDetector.analyze_config_files files s0).
  set (s2 := LanguageDetector.detect_frameworks_and_type root files s1).
  set (s3 := LanguageDetector.find_entry_points files s2).
  destruct (find_test_files_fields files s3) as (_ & T2 & _).
  destruct (find_entry_points_fields files s2) as (_ & E2 & _).
  fold s3 in E2. rewrite T2, E2.
  destruct (stages_keep_primary_language root files s3) as (P4 & _ & _ & _).
  destruct (stages_keep_primary_language root files s2) as (_ & P3 & _ & _).
  destruct (stages_keep_primary_language root files s1) as (_ & _ & P2 & _).
  fold s3 in P3. fold s2 in P2. rewrite P4, P3, P2.
  set (language := primary_language s1).
  unfold s2, LanguageDetector.detect_frameworks_and_type. cbv zeta.
  fold language.
  destruct (LanguageDetector.assoc LanguageDetector.framework_patterns language)
    as [table |] eqn:Htable; [| intros []].
  unfold LanguageDetector.with_frameworks. cbn [frameworks].
  intros Hfw. split.
  - clear Hfw. revert Htable.
    unfold LanguageDetector.framework_patterns. cbn [LanguageDetector.assoc].
    destruct (String.eqb language "python") eqn:E1;
      [apply String.eqb_eq in E1; rewrite E1; cbn; tauto |].
    destruct (String.eqb language "javascript") eqn:E2';
      [apply String.eqb_eq in E2'; rewrite E2'; cbn; tauto |].
    destruct (String.eqb language "csharp") eqn:E3;
      [apply String.eqb_eq in E3; rewrite E3; cbn; tauto |].
    destruct (String.eqb language "java") eqn:E4;
      [apply String.eqb_eq in E4; rewrite E4; cbn; tauto |].
    discriminate.
  - exists table.
    revert fw Hfw.
    apply (fold_left_preserves
             (fun found : list string =>
                forall fw, In fw found ->
                  exists patterns file_path pattern,
                    Some table = Some table
                    /\ In (fw, patterns) table
                    /\ In file_path files
                    /\ Py.endswith_any file_path
                         (LanguageDetector.get_source_extensions language) = true
                    /\ In pattern patterns
                    /\ Py.contains pattern
                         (LanguageDetector.read_file_content root file_path)
                       = true)).
    + intros found file_path Hfile Hfound.
      destruct (Py.endswith_any file_path _) eqn:Hext; [| exact Hfound].
      apply frameworks_in_grounded; [| exact Hfound].
      intros fw patterns pattern Hentry Hp Hc.
      exists patterns, file_path, pattern. repeat split; assumption.
    + intros fw [].
Qed.

(** X23, an instance: a Flask application. *)
Lemma detected_frameworks_are_grounded_witness :
  In "flask"
    (frameworks (LanguageDetector.analyze [File "app.py" "from flask import Flask"]))
  /\ In (primary_language
           (LanguageDetector.analyze [File "app.py" "from flask import Flask"]))
       ["python"; "javascript"; "csharp"; "java"].
Proof.
  assert (H : In "flask"
                (frameworks
                   (LanguageDetector.analyze
                      [File "app.py" "from flask import Flask"])))
    by (vm_compute; left; reflexivity).
  split; [exact H |].
  exact (proj1 (detected_frameworks_are_grounded _ _ H)).
Defined.

(** ** The language a request names *)









